(** * Medallion travel pipeline: silver cleaning, gold aggregation, audit

    A shallow embedding of the SQL statements of
    [02_silver_transformations.py] and [03_gold_aggregations.py] and of the
    Python checklist of [04_data_quality.py].

    - A table is the list of its rows, a row a record, a column an
      [option] ([None] is NULL).
    - Conditions are three-valued; a WHEN branch or a WHERE clause fires
      only on TRUE.
    - Numeric columns are exact: prices, coordinates and rates are
      rationals ([Q]), counts and identifiers integers ([Z]); [ROUND]
      rounds half away from zero.
    - Division raises on a zero divisor, so that the gold tables are
      computations that may fail ([SQL.eval]).
    - A timestamp is a number of seconds since the epoch;
      [current_timestamp()] is a parameter of each stage.
    - The audit notebook reads the tables through a Spark session whose
      queries either answer or raise ([DataQuality.spark]).
    - The silver and the gold notebook as wholes are cells over the tables
      of the schema ([Pipeline]): a cell reads and replaces tables, and
      what was written stays written when a later cell raises. *)

From Stdlib Require Import ZArith QArith String Ascii Bool Lia List Sorted.
Import ListNotations.
Local Open Scope Z_scope.

(** ** Results of computations that may raise *)

Inductive result (E A : Type) : Type :=
| Ok (a : A)
| Err (e : E).
Arguments Ok {E A} a.
Arguments Err {E A} e.

Definition bind {E A B} (m : result E A) (k : A -> result E B) : result E B :=
  match m with
  | Ok a => k a
  | Err e => Err e
  end.

Notation "x <- m ;; k" := (bind m (fun x => k))
  (at level 61, m at next level, right associativity).

Fixpoint mapM {E A B} (f : A -> result E B) (l : list A) : result E (list B) :=
  match l with
  | [] => Ok []
  | a :: l' => b <- f a ;; bs <- mapM f l' ;; Ok (b :: bs)
  end.

(** ** The SQL expression layer *)

Module SQL.

(** Three-valued conditions: [None] is SQL's UNKNOWN. *)
Definition tri := option bool.

Definition IS_NULL {A} (x : option A) : tri :=
  match x with None => Some true | Some _ => Some false end.

Definition IS_NOT_NULL {A} (x : option A) : tri :=
  match x with None => Some false | Some _ => Some true end.

Definition OR (a b : tri) : tri :=
  match a, b with
  | Some true, _ => Some true
  | _, Some true => Some true
  | Some false, Some false => Some false
  | _, _ => None
  end.

Definition AND (a b : tri) : tri :=
  match a, b with
  | Some false, _ => Some false
  | _, Some false => Some false
  | Some true, Some true => Some true
  | _, _ => None
  end.

(** A WHEN branch or a WHERE clause fires only on TRUE. *)
Definition holds (c : tri) : bool :=
  match c with Some true => true | _ => false end.

(** Ordered column types. *)
Class Ord (A : Type) := { leb : A -> A -> bool; eqb : A -> A -> bool }.

#[export] Instance Ord_Z : Ord Z := {| leb := Z.leb; eqb := Z.eqb |}.
#[export] Instance Ord_Q : Ord Q := {| leb := Qle_bool; eqb := Qeq_bool |}.

Definition ltb {A} `{Ord A} (a b : A) : bool := negb (leb b a).

Definition cmp {A} (f : A -> A -> bool) (x y : option A) : tri :=
  match x, y with
  | Some a, Some b => Some (f a b)
  | _, _ => None
  end.

Definition LT {A} `{Ord A} (x y : option A) : tri := cmp ltb x y.
Definition GT {A} `{Ord A} (x y : option A) : tri := cmp ltb y x.
Definition LE {A} `{Ord A} (x y : option A) : tri := cmp leb x y.
Definition GE {A} `{Ord A} (x y : option A) : tri := cmp leb y x.
Definition EQ {A} `{Ord A} (x y : option A) : tri := cmp eqb x y.

Definition IN (x : option Z) (l : list Z) : tri :=
  match x with
  | None => None
  | Some v => Some (existsb (Z.eqb v) l)
  end.

(** Literals; integer literals are read at the type of the column
    they meet. *)
Definition lit {A} (a : A) : option A := Some a.
Definition int (z : Z) : option Z := Some z.
Definition num (z : Z) : option Q := Some (inject_Z z).

(** [CASE WHEN c1 THEN v1 WHEN c2 THEN v2 ... ELSE d END]: the value of
    the first branch whose condition is TRUE. *)
Fixpoint CASE {A} (branches : list (tri * option A)) (d : option A)
  : option A :=
  match branches with
  | [] => d
  | (c, v) :: rest => if holds c then v else CASE rest d
  end.

Definition COALESCE {A} (x d : option A) : option A :=
  match x with Some v => Some v | None => d end.

(** [NULLIF(x, 0)] on a count. *)
Definition NULLIF (x : option Z) (y : Z) : option Z :=
  match x with
  | Some v => if v =? y then None else Some v
  | None => None
  end.

(** [ROUND(x, d)]: round half away from zero to [d] decimal places. *)
Definition round_half_up (x : Q) (d : nat) : Q :=
  let s := 10 ^ Z.of_nat d in
  let n := Z.abs (Qnum x) * s in
  let den := Zpos (Qden x) in
  Qmake (Z.sgn (Qnum x) * ((2 * n + den) / (2 * den))) (Z.to_pos s).

Definition ROUND (x : option Q) (d : nat) : option Q :=
  option_map (fun v => round_half_up v d) x.

(** Division.  The strict (ANSI) reading is modelled: a zero divisor
    raises, a NULL operand gives NULL. *)
Inductive sql_error := DIVIDE_BY_ZERO.

Definition eval (A : Type) := result sql_error A.

Definition DIV (x y : option Q) : eval (option Q) :=
  match x, y with
  | Some a, Some b =>
      if Qeq_bool b 0 then Err DIVIDE_BY_ZERO else Ok (Some (a / b)%Q)
  | _, _ => Ok None
  end.

Definition MUL (x y : option Q) : option Q :=
  match x, y with
  | Some a, Some b => Some (a * b)%Q
  | _, _ => None
  end.

Definition to_Q (x : option Z) : option Q := option_map inject_Z x.

(** *** Aggregates over the rows of one group *)

Fixpoint non_null {A} (xs : list (option A)) : list A :=
  match xs with
  | [] => []
  | Some v :: r => v :: non_null r
  | None :: r => non_null r
  end.

Definition COUNT_star {A} (g : list A) : Z := Z.of_nat (length g).

Definition COUNT {A} (xs : list (option A)) : Z :=
  Z.of_nat (length (non_null xs)).

Definition SUM_Z (xs : list (option Z)) : option Z :=
  match non_null xs with
  | [] => None
  | vs => Some (fold_right Z.add 0 vs)
  end.

Definition SUM_Q (xs : list (option Q)) : option Q :=
  match non_null xs with
  | [] => None
  | vs => Some (fold_right Qplus 0%Q vs)
  end.

Definition AVG (xs : list (option Q)) : option Q :=
  match non_null xs with
  | [] => None
  | vs => Some (fold_right Qplus 0%Q vs / inject_Z (Z.of_nat (length vs)))%Q
  end.

Definition least {A} `{Ord A} (a b : A) : A := if leb a b then a else b.
Definition greatest {A} `{Ord A} (a b : A) : A := if leb a b then b else a.

Definition MIN {A} `{Ord A} (xs : list (option A)) : option A :=
  match non_null xs with
  | [] => None
  | v :: vs => Some (fold_left least vs v)
  end.

Definition MAX {A} `{Ord A} (xs : list (option A)) : option A :=
  match non_null xs with
  | [] => None
  | v :: vs => Some (fold_left greatest vs v)
  end.

Fixpoint distinct {A} (same : A -> A -> bool) (l : list A) : list A :=
  match l with
  | [] => []
  | a :: r => a :: filter (fun b => negb (same a b)) (distinct same r)
  end.

Definition COUNT_DISTINCT (xs : list (option Z)) : Z :=
  Z.of_nat (length (nodup Z.eq_dec (non_null xs))).

End SQL.

(** ** Timestamps and dates *)

Module Calendar.

(** A timestamp is a number of seconds since 1970-01-01T00:00:00 in the
    session time zone, a date a number of days since 1970-01-01. *)
Definition timestamp := Z.
Definition date := Z.

(** [DATE(ts)] *)
Definition DATE (t : timestamp) : date := t / 86400.

(** The proleptic Gregorian (year, month, day) of a day number. *)
Definition civil (d : date) : Z * Z * Z :=
  let z := d + 719468 in
  let era := z / 146097 in
  let doe := z mod 146097 in
  let yoe := (doe - doe / 1460 + doe / 36524 - doe / 146096) / 365 in
  let doy := doe - (365 * yoe + yoe / 4 - yoe / 100) in
  let mp := (5 * doy + 2) / 153 in
  let day := doy - (153 * mp + 2) / 5 + 1 in
  let m := if mp <? 10 then mp + 3 else mp - 9 in
  let y := yoe + era * 400 in
  (if m <=? 2 then y + 1 else y, m, day).

Definition YEAR (t : timestamp) : Z := fst (fst (civil (DATE t))).
Definition MONTH (t : timestamp) : Z := snd (fst (civil (DATE t))).
Definition HOUR (t : timestamp) : Z := (t mod 86400) / 3600.

(** [DAYOFWEEK]: 1 = Sunday, ..., 7 = Saturday. *)
Definition DAYOFWEEK (t : timestamp) : Z := (DATE t + 4) mod 7 + 1.

(** [DATEDIFF(e, s)]: whole days from [s] to [e]. *)
Definition DATEDIFF (e s : option timestamp) : option Z :=
  match e, s with
  | Some a, Some b => Some (DATE a - DATE b)
  | _, _ => None
  end.

End Calendar.

(** ** String functions *)

Module Text.

Definition is_space (c : ascii) : bool := (c =? " ")%char.

Definition upper (c : ascii) : ascii :=
  let n := nat_of_ascii c in
  if ((97 <=? n) && (n <=? 122))%nat then ascii_of_nat (n - 32) else c.

Definition lower (c : ascii) : ascii :=
  let n := nat_of_ascii c in
  if ((65 <=? n) && (n <=? 90))%nat then ascii_of_nat (n + 32) else c.

Fixpoint initcap_from (start : bool) (s : string) : string :=
  match s with
  | EmptyString => EmptyString
  | String c r =>
      String (if start then upper c else lower c) (initcap_from (is_space c) r)
  end.

(** [INITCAP(s)]: each space-delimited word capitalised, the rest in
    lower case. *)
Definition INITCAP (s : string) : string := initcap_from true s.

Fixpoint ltrim (s : string) : string :=
  match s with
  | String c r => if is_space c then ltrim r else s
  | EmptyString => EmptyString
  end.

Fixpoint rtrim (s : string) : string :=
  match s with
  | EmptyString => EmptyString
  | String c r =>
      match rtrim r with
      | EmptyString => if is_space c then EmptyString else String c EmptyString
      | r' => String c r'
      end
  end.

(** [TRIM(s)]: leading and trailing spaces removed. *)
Definition TRIM (s : string) : string := rtrim (ltrim s).

End Text.

(** ** Bronze tables (the inputs of the silver stage) *)

Module BronzePurchases.
Record row := {
  id : option Z;
  ts : option Calendar.timestamp;
  user_id : option Z;
  destination_id : option Z;
  clicked : option bool;
  purchased : option bool;
  booking_date : option Calendar.date;
  price : option Q;
  user_latitude : option Q;
  user_longitude : option Q;
  _ingested_at : option Calendar.timestamp;
  _source_table : string;
  _row_hash : string
}.
End BronzePurchases.

Module BronzeUsers.
Record row := {
  user_id : option Z;
  ts : option Calendar.timestamp;
  mean_price_7d : option Q;
  last_6m_purchases : option Z;
  user_longitude : option Q;
  user_latitude : option Q;
  _ingested_at : option Calendar.timestamp;
  _source_table : string
}.
End BronzeUsers.

Module BronzeDestinations.
Record row := {
  destination_id : option Z;
  destination_name : option string;
  dest_latitude : option Q;
  dest_longitude : option Q;
  _ingested_at : option Calendar.timestamp;
  _source_table : string
}.
End BronzeDestinations.

(** ** Silver tables *)

Module SilverPurchases.
Record row := {
  transaction_id : option Z;
  transaction_timestamp : option Calendar.timestamp;
  user_id : option Z;
  destination_id : option Z;
  clicked : option bool;
  purchased : option bool;
  booking_date : option Calendar.date;
  price_usd : option Q;
  user_latitude : option Q;
  user_longitude : option Q;
  _price_invalid : option bool;
  _location_invalid : option bool;
  transaction_year : option Z;
  transaction_month : option Z;
  transaction_day_of_week : option Z;
  transaction_hour : option Z;
  day_type : option string;
  _ingested_at : option Calendar.timestamp;
  _processed_at : option Calendar.timestamp
}.
End SilverPurchases.

Module SilverUsers.
Record row := {
  user_id : option Z;
  last_updated_at : option Calendar.timestamp;
  avg_price_7day : option Q;
  purchases_6month : option Z;
  user_latitude : option Q;
  user_longitude : option Q;
  purchase_frequency_segment : option string;
  price_segment : option string;
  _ingested_at : option Calendar.timestamp;
  _processed_at : option Calendar.timestamp
}.
End SilverUsers.

Module SilverDestinations.
Record row := {
  destination_id : option Z;
  destination_name : option string;
  latitude : option Q;
  longitude : option Q;
  hemisphere : option string;
  _ingested_at : option Calendar.timestamp;
  _processed_at : option Calendar.timestamp
}.
End SilverDestinations.

(** ** The silver stage: [02_silver_transformations.py] *)

Module Silver.
Import SQL Calendar Text.

Section Stage.
(** The value of [current_timestamp()] for the statement. *)
Variable now : timestamp.

(** The SELECT list of the [cleaned_data] CTE, on one bronze row. *)
Definition clean_purchase (b : BronzePurchases.row) : SilverPurchases.row :=
  let price := BronzePurchases.price b in
  let user_latitude := BronzePurchases.user_latitude b in
  let user_longitude := BronzePurchases.user_longitude b in
  let ts := BronzePurchases.ts b in
  {| SilverPurchases.transaction_id := BronzePurchases.id b;
     SilverPurchases.transaction_timestamp := ts;
     SilverPurchases.user_id := BronzePurchases.user_id b;
     SilverPurchases.destination_id := BronzePurchases.destination_id b;
     SilverPurchases.clicked :=
       COALESCE (BronzePurchases.clicked b) (lit false);
     SilverPurchases.purchased :=
       COALESCE (BronzePurchases.purchased b) (lit false);
     SilverPurchases.booking_date := BronzePurchases.booking_date b;
     SilverPurchases.price_usd :=
       CASE [ (OR (IS_NULL price) (LT price (num 0)), None);
              (GT price (num 50000), None) ]
            (ROUND price 2);
     SilverPurchases.user_latitude := user_latitude;
     SilverPurchases.user_longitude := user_longitude;
     SilverPurchases._price_invalid :=
       CASE [ (OR (OR (IS_NULL price) (LT price (num 0)))
                  (GT price (num 50000)), lit true) ]
            (lit false);
     SilverPurchases._location_invalid :=
       CASE [ (OR (IS_NULL user_latitude) (IS_NULL user_longitude), lit true);
              (OR (LT user_latitude (num (-90))) (GT user_latitude (num 90)),
               lit true);
              (OR (LT user_longitude (num (-180)))
                  (GT user_longitude (num 180)), lit true) ]
            (lit false);
     SilverPurchases.transaction_year := option_map YEAR ts;
     SilverPurchases.transaction_month := option_map MONTH ts;
     SilverPurchases.transaction_day_of_week := option_map DAYOFWEEK ts;
     SilverPurchases.transaction_hour := option_map HOUR ts;
     SilverPurchases.day_type :=
       CASE [ (IN (option_map DAYOFWEEK ts) [1; 7], lit "weekend"%string) ]
            (lit "weekday"%string);
     SilverPurchases._ingested_at := BronzePurchases._ingested_at b;
     SilverPurchases._processed_at := lit now |}.

(** The WHERE clause of [cleaned_data]. *)
Definition purchase_has_ids (b : BronzePurchases.row) : bool :=
  holds (AND (AND (IS_NOT_NULL (BronzePurchases.id b))
                  (IS_NOT_NULL (BronzePurchases.user_id b)))
             (IS_NOT_NULL (BronzePurchases.destination_id b))).

Definition cleaned_data (bronze : list BronzePurchases.row)
  : list SilverPurchases.row :=
  map clean_purchase (filter purchase_has_ids bronze).

(** [SELECT * FROM cleaned_data] *)
Definition silver_travel_purchases (bronze : list BronzePurchases.row)
  : list SilverPurchases.row :=
  cleaned_data bronze.

Definition clean_user (b : BronzeUsers.row) : SilverUsers.row :=
  let mean_price_7d := BronzeUsers.mean_price_7d b in
  let last_6m_purchases := BronzeUsers.last_6m_purchases b in
  let user_latitude := BronzeUsers.user_latitude b in
  let user_longitude := BronzeUsers.user_longitude b in
  {| SilverUsers.user_id := BronzeUsers.user_id b;
     SilverUsers.last_updated_at := BronzeUsers.ts b;
     SilverUsers.avg_price_7day := ROUND (COALESCE mean_price_7d (num 0)) 2;
     SilverUsers.purchases_6month := COALESCE last_6m_purchases (int 0);
     SilverUsers.user_latitude :=
       CASE [ (OR (OR (IS_NULL user_latitude) (LT user_latitude (num (-90))))
                  (GT user_latitude (num 90)), None) ]
            (ROUND user_latitude 6);
     SilverUsers.user_longitude :=
       CASE [ (OR (OR (IS_NULL user_longitude)
                      (LT user_longitude (num (-180))))
                  (GT user_longitude (num 180)), None) ]
            (ROUND user_longitude 6);
     SilverUsers.purchase_frequency_segment :=
       CASE [ (GE last_6m_purchases (int 10), lit "high_frequency"%string);
              (GE last_6m_purchases (int 3), lit "medium_frequency"%string) ]
            (lit "low_frequency"%string);
     SilverUsers.price_segment :=
       CASE [ (GE mean_price_7d (num 500), lit "premium"%string);
              (GE mean_price_7d (num 200), lit "standard"%string) ]
            (lit "budget"%string);
     SilverUsers._ingested_at := BronzeUsers._ingested_at b;
     SilverUsers._processed_at := lit now |}.

Definition user_has_id (b : BronzeUsers.row) : bool :=
  holds (IS_NOT_NULL (BronzeUsers.user_id b)).

Definition silver_users (bronze : list BronzeUsers.row)
  : list SilverUsers.row :=
  map clean_user (filter user_has_id bronze).

Definition clean_destination (b : BronzeDestinations.row)
  : SilverDestinations.row :=
  let dest_latitude := BronzeDestinations.dest_latitude b in
  let dest_longitude := BronzeDestinations.dest_longitude b in
  {| SilverDestinations.destination_id := BronzeDestinations.destination_id b;
     SilverDestinations.destination_name :=
       option_map TRIM
         (option_map INITCAP (BronzeDestinations.destination_name b));
     SilverDestinations.latitude :=
       CASE [ (OR (OR (IS_NULL dest_latitude) (LT dest_latitude (num (-90))))
                  (GT dest_latitude (num 90)), None) ]
            (ROUND dest_latitude 6);
     SilverDestinations.longitude :=
       CASE [ (OR (OR (IS_NULL dest_longitude)
                      (LT dest_longitude (num (-180))))
                  (GT dest_longitude (num 180)), None) ]
            (ROUND dest_longitude 6);
     SilverDestinations.hemisphere :=
       CASE [ (GE dest_latitude (num 0), lit "Northern"%string) ]
            (lit "Southern"%string);
     SilverDestinations._ingested_at := BronzeDestinations._ingested_at b;
     SilverDestinations._processed_at := lit now |}.

Definition destination_has_id (b : BronzeDestinations.row) : bool :=
  holds (IS_NOT_NULL (BronzeDestinations.destination_id b)).

Definition silver_destinations (bronze : list BronzeDestinations.row)
  : list SilverDestinations.row :=
  map clean_destination (filter destination_has_id bronze).

End Stage.
End Silver.

(** ** Relational operators: GROUP BY, ORDER BY, LEFT JOIN, window functions *)

Module Relational.
Import SQL.

#[export] Instance Ord_string : Ord string :=
  {| leb := String.leb; eqb := String.eqb |}.

(** Equality of grouping keys: two NULLs fall in the same group. *)
Definition same {A} `{Ord A} (x y : option A) : bool :=
  match x, y with
  | None, None => true
  | Some a, Some b => eqb a b
  | _, _ => false
  end.

(** Ascending order, NULLS FIRST. *)
Definition le_asc {A} `{Ord A} (x y : option A) : bool :=
  match x, y with
  | None, _ => true
  | Some _, None => false
  | Some a, Some b => leb a b
  end.

(** [y] sorts strictly before [x] in descending order, NULLS LAST. *)
Definition before_desc {A} `{Ord A} (y x : option A) : bool :=
  match y, x with
  | Some b, Some a => ltb a b
  | Some _, None => true
  | None, _ => false
  end.

Section GroupBy.
Context {K A : Type} (same_key : K -> K -> bool) (key : A -> K).

(** One group per distinct key, holding the rows of that key. *)
Definition group_by (rows : list A) : list (K * list A) :=
  map (fun k => (k, filter (fun r => same_key k (key r)) rows))
      (distinct same_key (map key rows)).
End GroupBy.

Section OrderBy.
Context {A : Type} (le : A -> A -> bool).

Fixpoint insert_sorted (a : A) (l : list A) : list A :=
  match l with
  | [] => [a]
  | b :: r => if le a b then a :: l else b :: insert_sorted a r
  end.

(** A stable sort. *)
Definition order_by (l : list A) : list A := fold_right insert_sorted [] l.
End OrderBy.

(** [l LEFT JOIN r ON on]: every left row, with each matching right row
    or with NULLs when none matches. *)
Definition left_join {A B} (on : A -> B -> bool) (l : list A) (r : list B)
  : list (A * option B) :=
  flat_map (fun a =>
              match filter (on a) r with
              | [] => [(a, None)]
              | m => map (fun b => (a, Some b)) m
              end) l.

(** A column of the nullable side of a left join. *)
Definition col {B C} (f : B -> option C) (t : option B) : option C :=
  match t with
  | Some r => f r
  | None => None
  end.

(** [RANK() OVER (ORDER BY x DESC)]: one plus the number of rows that
    sort strictly before the row. *)
Definition RANK_desc {A} `{Ord A} (xs : list (option A)) (x : option A) : Z :=
  1 + Z.of_nat (length (filter (fun y => before_desc y x) xs)).

Fixpoint lag_from {A} (prev : option A) (vs : list (option A))
  : list (option A) :=
  match vs with
  | [] => []
  | v :: r => prev :: lag_from v r
  end.

(** [LAG(v) OVER (ORDER BY ...)] on the values listed in window order:
    each row gets the value of the row before it, the first row NULL. *)
Definition LAG {A} (vs : list (option A)) : list (option A) := lag_from None vs.

End Relational.

(** ** Gold tables *)

Module GoldDaily.
Record row := {
  report_date : option Calendar.date;
  transaction_year : option Z;
  transaction_month : option Z;
  day_type : option string;
  total_transactions : option Z;
  total_clicks : option Z;
  total_purchases : option Z;
  conversion_rate_pct : option Q;
  click_to_purchase_rate_pct : option Q;
  total_revenue_usd : option Q;
  avg_transaction_value_usd : option Q;
  min_transaction_usd : option Q;
  max_transaction_usd : option Q;
  unique_users : option Z;
  unique_destinations : option Z;
  _generated_at : option Calendar.timestamp
}.
End GoldDaily.

Module GoldDestinations.
Record row := {
  destination_id : option Z;
  destination_name : option string;
  latitude : option Q;
  longitude : option Q;
  hemisphere : option string;
  total_views : option Z;
  total_clicks : option Z;
  total_bookings : option Z;
  click_rate_pct : option Q;
  booking_rate_pct : option Q;
  total_revenue_usd : option Q;
  avg_booking_value_usd : option Q;
  unique_visitors : option Z;
  unique_buyers : option Z;
  first_transaction : option Calendar.timestamp;
  last_transaction : option Calendar.timestamp;
  booking_rank : option Z;
  revenue_rank : option Z;
  _generated_at : option Calendar.timestamp
}.
End GoldDestinations.

Module GoldUsers.
Record row := {
  user_id : option Z;
  purchase_frequency_segment : option string;
  price_segment : option string;
  historical_avg_price : option Q;
  historical_purchases : option Z;
  user_latitude : option Q;
  user_longitude : option Q;
  total_interactions : option Z;
  total_clicks : option Z;
  total_purchases : option Z;
  conversion_rate_pct : option Q;
  total_spend_usd : option Q;
  avg_purchase_usd : option Q;
  destinations_viewed : option Z;
  destinations_booked : option Z;
  first_activity : option Calendar.timestamp;
  last_activity : option Calendar.timestamp;
  engagement_days : option Z;
  customer_tier : option string;
  _generated_at : option Calendar.timestamp
}.
End GoldUsers.

Module GoldMonthly.
Record row := {
  transaction_year : option Z;
  transaction_month : option Z;
  total_transactions : option Z;
  total_bookings : option Z;
  monthly_revenue_usd : option Q;
  avg_booking_value_usd : option Q;
  active_users : option Z;
  destinations_in_demand : option Z;
  monthly_conversion_pct : option Q;
  prev_month_revenue : option Q;
  _generated_at : option Calendar.timestamp
}.
End GoldMonthly.

(** ** The gold stage: [03_gold_aggregations.py] *)

Module Gold.
Import SQL Calendar Relational.

(** [CASE WHEN flag THEN 1 ELSE 0 END] *)
Definition one_if (flag : option bool) : option Z :=
  CASE [ (flag, int 1) ] (int 0).

(** [CASE WHEN flag THEN price ELSE 0 END] *)
Definition price_or_zero (flag : option bool) (price : option Q) : option Q :=
  CASE [ (flag, price) ] (num 0).

(** [CASE WHEN flag THEN x END] *)
Definition only_if {A} (flag : option bool) (x : option A) : option A :=
  CASE [ (flag, x) ] None.

(** [ROUND(n * 100.0 / NULLIF(d, 0), 2)] *)
Definition rate_pct (n d : option Z) : eval (option Q) :=
  q <- DIV (MUL (to_Q n) (Some (1000 # 10)%Q)) (to_Q (NULLIF d 0)) ;;
  Ok (ROUND q 2).

(** Column [t.c] over the rows of a group of a left join with the
    silver purchases as [t]. *)
Definition t_col {D C} (c : SilverPurchases.row -> option C)
    (g : list (D * option SilverPurchases.row)) : list (option C) :=
  map (fun j => col c (snd j)) g.

(** [CASE WHEN t.purchased THEN t.c END] over the rows of such a group. *)
Definition t_col_purchased {D C} (c : SilverPurchases.row -> option C)
    (g : list (D * option SilverPurchases.row)) : list (option C) :=
  map (fun j => only_if (col SilverPurchases.purchased (snd j))
                        (col c (snd j))) g.

Section Stage.
(** The value of [current_timestamp()] for the statement. *)
Variable now : timestamp.

(** *** gold_daily_revenue_metrics *)

Definition daily_key :=
  (option date * option Z * option Z * option string)%type.

Definition daily_key_of (t : SilverPurchases.row) : daily_key :=
  (option_map DATE (SilverPurchases.transaction_timestamp t),
   SilverPurchases.transaction_year t,
   SilverPurchases.transaction_month t,
   SilverPurchases.day_type t).

Definition same_daily_key (a b : daily_key) : bool :=
  let '(d1, y1, m1, t1) := a in
  let '(d2, y2, m2, t2) := b in
  same d1 d2 && same y1 y2 && same m1 m2 && same t1 t2.

Definition daily_total_clicks (g : list SilverPurchases.row) : option Z :=
  SUM_Z (map (fun t => one_if (SilverPurchases.clicked t)) g).

Definition daily_total_purchases (g : list SilverPurchases.row) : option Z :=
  SUM_Z (map (fun t => one_if (SilverPurchases.purchased t)) g).

Definition daily_conversion_rate_pct (g : list SilverPurchases.row)
  : eval (option Q) :=
  rate_pct (daily_total_purchases g) (Some (COUNT_star g)).

Definition daily_click_to_purchase_rate_pct (g : list SilverPurchases.row)
  : eval (option Q) :=
  rate_pct (daily_total_purchases g) (daily_total_clicks g).

Definition daily_row (k : daily_key) (g : list SilverPurchases.row)
  : eval GoldDaily.row :=
  let '(d, y, m, dt) := k in
  let bought := map (fun t => only_if (SilverPurchases.purchased t)
                                      (SilverPurchases.price_usd t)) g in
  conversion <- daily_conversion_rate_pct g ;;
  click_to_purchase <- daily_click_to_purchase_rate_pct g ;;
  Ok {| GoldDaily.report_date := d;
        GoldDaily.transaction_year := y;
        GoldDaily.transaction_month := m;
        GoldDaily.day_type := dt;
        GoldDaily.total_transactions := Some (COUNT_star g);
        GoldDaily.total_clicks := daily_total_clicks g;
        GoldDaily.total_purchases := daily_total_purchases g;
        GoldDaily.conversion_rate_pct := conversion;
        GoldDaily.click_to_purchase_rate_pct := click_to_purchase;
        GoldDaily.total_revenue_usd :=
          ROUND (SUM_Q (map (fun t =>
                   price_or_zero (SilverPurchases.purchased t)
                                 (SilverPurchases.price_usd t)) g)) 2;
        GoldDaily.avg_transaction_value_usd := ROUND (AVG bought) 2;
        GoldDaily.min_transaction_usd := MIN bought;
        GoldDaily.max_transaction_usd := MAX bought;
        GoldDaily.unique_users :=
          Some (COUNT_DISTINCT (map SilverPurchases.user_id g));
        GoldDaily.unique_destinations :=
          Some (COUNT_DISTINCT (map SilverPurchases.destination_id g));
        GoldDaily._generated_at := Some now |}.

Definition gold_daily_revenue_metrics (silver : list SilverPurchases.row)
  : eval (list GoldDaily.row) :=
  rows <- mapM (fun kg => daily_row (fst kg) (snd kg))
               (group_by same_daily_key daily_key_of silver) ;;
  Ok (order_by (fun a b => le_asc (GoldDaily.report_date a)
                                  (GoldDaily.report_date b)) rows).

(** *** gold_destination_performance *)

Definition dest_joined :=
  (SilverDestinations.row * option SilverPurchases.row)%type.

Definition dest_key :=
  (option Z * option string * option Q * option Q * option string)%type.

Definition dest_key_of (j : dest_joined) : dest_key :=
  let d := fst j in
  (SilverDestinations.destination_id d,
   SilverDestinations.destination_name d,
   SilverDestinations.latitude d,
   SilverDestinations.longitude d,
   SilverDestinations.hemisphere d).

Definition same_dest_key (a b : dest_key) : bool :=
  let '(i1, n1, la1, lo1, h1) := a in
  let '(i2, n2, la2, lo2, h2) := b in
  same i1 i2 && same n1 n2 && same la1 la2 && same lo1 lo2 && same h1 h2.

Definition dest_total_clicks (g : list dest_joined) : option Z :=
  SUM_Z (map (fun j => one_if (col SilverPurchases.clicked (snd j))) g).

Definition dest_total_bookings (g : list dest_joined) : option Z :=
  SUM_Z (map (fun j => one_if (col SilverPurchases.purchased (snd j))) g).

Definition dest_revenue (g : list dest_joined) : option Q :=
  SUM_Q (map (fun j => price_or_zero (col SilverPurchases.purchased (snd j))
                                     (col SilverPurchases.price_usd (snd j)))
             g).

Definition dest_click_rate_pct (g : list dest_joined) : eval (option Q) :=
  rate_pct (dest_total_clicks g) (Some (COUNT_star g)).

Definition dest_booking_rate_pct (g : list dest_joined) : eval (option Q) :=
  rate_pct (dest_total_bookings g) (dest_total_clicks g).

Definition destination_row (bookings : list (option Z))
    (revenues : list (option Q)) (k : dest_key) (g : list dest_joined)
  : eval GoldDestinations.row :=
  let '(i, n, la, lo, h) := k in
  click_rate <- dest_click_rate_pct g ;;
  booking_rate <- dest_booking_rate_pct g ;;
  Ok {| GoldDestinations.destination_id := i;
        GoldDestinations.destination_name := n;
        GoldDestinations.latitude := la;
        GoldDestinations.longitude := lo;
        GoldDestinations.hemisphere := h;
        GoldDestinations.total_views := Some (COUNT_star g);
        GoldDestinations.total_clicks := dest_total_clicks g;
        GoldDestinations.total_bookings := dest_total_bookings g;
        GoldDestinations.click_rate_pct := click_rate;
        GoldDestinations.booking_rate_pct := booking_rate;
        GoldDestinations.total_revenue_usd := ROUND (dest_revenue g) 2;
        GoldDestinations.avg_booking_value_usd :=
          ROUND (AVG (t_col_purchased SilverPurchases.price_usd g)) 2;
        GoldDestinations.unique_visitors :=
          Some (COUNT_DISTINCT (t_col SilverPurchases.user_id g));
        GoldDestinations.unique_buyers :=
          Some (COUNT_DISTINCT (t_col_purchased SilverPurchases.user_id g));
        GoldDestinations.first_transaction :=
          MIN (t_col SilverPurchases.transaction_timestamp g);
        GoldDestinations.last_transaction :=
          MAX (t_col SilverPurchases.transaction_timestamp g);
        GoldDestinations.booking_rank :=
          Some (RANK_desc bookings (dest_total_bookings g));
        GoldDestinations.revenue_rank :=
          Some (RANK_desc revenues (dest_revenue g));
        GoldDestinations._generated_at := Some now |}.

Definition gold_destination_performance
    (destinations : list SilverDestinations.row)
    (purchases : list SilverPurchases.row)
  : eval (list GoldDestinations.row) :=
  let joined :=
    left_join (fun d t => holds (EQ (SilverDestinations.destination_id d)
                                    (SilverPurchases.destination_id t)))
              destinations purchases in
  let groups := group_by same_dest_key dest_key_of joined in
  let bookings := map (fun kg => dest_total_bookings (snd kg)) groups in
  let revenues := map (fun kg => dest_revenue (snd kg)) groups in
  rows <- mapM (fun kg => destination_row bookings revenues (fst kg) (snd kg))
               groups ;;
  Ok (order_by (fun a b =>
                  negb (before_desc (GoldDestinations.total_bookings b)
                                    (GoldDestinations.total_bookings a)))
               rows).

(** *** gold_user_engagement *)

Definition user_joined :=
  (SilverUsers.row * option SilverPurchases.row)%type.

Definition user_key :=
  (option Z * option string * option string * option Q * option Z
   * option Q * option Q)%type.

Definition user_key_of (j : user_joined) : user_key :=
  let u := fst j in
  (SilverUsers.user_id u,
   SilverUsers.purchase_frequency_segment u,
   SilverUsers.price_segment u,
   SilverUsers.avg_price_7day u,
   SilverUsers.purchases_6month u,
   SilverUsers.user_latitude u,
   SilverUsers.user_longitude u).

Definition same_user_key (a b : user_key) : bool :=
  let '(i1, f1, p1, a1, n1, la1, lo1) := a in
  let '(i2, f2, p2, a2, n2, la2, lo2) := b in
  same i1 i2 && same f1 f2 && same p1 p2 && same a1 a2 && same n1 n2
  && same la1 la2 && same lo1 lo2.

(** [SUM(CASE WHEN t.purchased THEN t.price_usd ELSE 0 END)] *)
Definition user_spend (g : list user_joined) : option Q :=
  SUM_Q (map (fun j => price_or_zero (col SilverPurchases.purchased (snd j))
                                     (col SilverPurchases.price_usd (snd j)))
             g).

Definition customer_tier (g : list user_joined) : option string :=
  CASE [ (GE (user_spend g) (num 5000), lit "platinum"%string);
         (GE (user_spend g) (num 2000), lit "gold"%string);
         (GE (user_spend g) (num 500), lit "silver"%string) ]
       (lit "bronze"%string).

Definition user_total_purchases (g : list user_joined) : option Z :=
  SUM_Z (map (fun j => one_if (col SilverPurchases.purchased (snd j))) g).

Definition user_row (k : user_key) (g : list user_joined)
  : eval GoldUsers.row :=
  let '(i, f, p, a, n, la, lo) := k in
  let first := MIN (t_col SilverPurchases.transaction_timestamp g) in
  let last := MAX (t_col SilverPurchases.transaction_timestamp g) in
  conversion <- rate_pct (user_total_purchases g) (Some (COUNT_star g)) ;;
  Ok {| GoldUsers.user_id := i;
        GoldUsers.purchase_frequency_segment := f;
        GoldUsers.price_segment := p;
        GoldUsers.historical_avg_price := a;
        GoldUsers.historical_purchases := n;
        GoldUsers.user_latitude := la;
        GoldUsers.user_longitude := lo;
        GoldUsers.total_interactions :=
          Some (COUNT (t_col SilverPurchases.transaction_id g));
        GoldUsers.total_clicks :=
          SUM_Z (map (fun j => one_if (col SilverPurchases.clicked (snd j))) g);
        GoldUsers.total_purchases := user_total_purchases g;
        GoldUsers.conversion_rate_pct := conversion;
        GoldUsers.total_spend_usd := ROUND (user_spend g) 2;
        GoldUsers.avg_purchase_usd :=
          ROUND (AVG (t_col_purchased SilverPurchases.price_usd g)) 2;
        GoldUsers.destinations_viewed :=
          Some (COUNT_DISTINCT (t_col SilverPurchases.destination_id g));
        GoldUsers.destinations_booked :=
          Some (COUNT_DISTINCT
                  (t_col_purchased SilverPurchases.destination_id g));
        GoldUsers.first_activity := first;
        GoldUsers.last_activity := last;
        GoldUsers.engagement_days := DATEDIFF last first;
        GoldUsers.customer_tier := customer_tier g;
        GoldUsers._generated_at := Some now |}.

Definition gold_user_engagement (users : list SilverUsers.row)
    (purchases : list SilverPurchases.row) : eval (list GoldUsers.row) :=
  let joined :=
    left_join (fun u t => holds (EQ (SilverUsers.user_id u)
                                    (SilverPurchases.user_id t)))
              users purchases in
  mapM (fun kg => user_row (fst kg) (snd kg))
       (group_by same_user_key user_key_of joined).

(** *** gold_monthly_summary *)

Definition month_key := (option Z * option Z)%type.

Definition month_key_of (t : SilverPurchases.row) : month_key :=
  (SilverPurchases.transaction_year t, SilverPurchases.transaction_month t).

Definition same_month_key (a b : month_key) : bool :=
  same (fst a) (fst b) && same (snd a) (snd b).

(** [ORDER BY transaction_year, transaction_month] *)
Definition le_month_key (a b : month_key) : bool :=
  if same (fst a) (fst b) then le_asc (snd a) (snd b)
  else le_asc (fst a) (fst b).

(** [ROUND(SUM(CASE WHEN purchased THEN price_usd ELSE 0 END), 2)] *)
Definition monthly_revenue (g : list SilverPurchases.row) : option Q :=
  ROUND (SUM_Q (map (fun t => price_or_zero (SilverPurchases.purchased t)
                                            (SilverPurchases.price_usd t)) g))
        2.

Definition month_total_bookings (g : list SilverPurchases.row) : option Z :=
  SUM_Z (map (fun t => one_if (SilverPurchases.purchased t)) g).

Definition monthly_row (k : month_key) (g : list SilverPurchases.row)
    (prev : option Q) : eval GoldMonthly.row :=
  conversion <- rate_pct (month_total_bookings g) (Some (COUNT_star g)) ;;
  Ok {| GoldMonthly.transaction_year := fst k;
        GoldMonthly.transaction_month := snd k;
        GoldMonthly.total_transactions := Some (COUNT_star g);
        GoldMonthly.total_bookings := month_total_bookings g;
        GoldMonthly.monthly_revenue_usd := monthly_revenue g;
        GoldMonthly.avg_booking_value_usd :=
          ROUND (AVG (map (fun t => only_if (SilverPurchases.purchased t)
                                            (SilverPurchases.price_usd t)) g))
                2;
        GoldMonthly.active_users :=
          Some (COUNT_DISTINCT (map SilverPurchases.user_id g));
        GoldMonthly.destinations_in_demand :=
          Some (COUNT_DISTINCT (map SilverPurchases.destination_id g));
        GoldMonthly.monthly_conversion_pct := conversion;
        GoldMonthly.prev_month_revenue := prev;
        GoldMonthly._generated_at := Some now |}.

Definition gold_monthly_summary (silver : list SilverPurchases.row)
  : eval (list GoldMonthly.row) :=
  (* the groups, in the order of the window *)
  let window :=
    order_by (fun a b => le_month_key (fst a) (fst b))
             (group_by same_month_key month_key_of silver) in
  let prevs := LAG (map (fun kg => monthly_revenue (snd kg)) window) in
  rows <- mapM (fun kgp => monthly_row (fst (fst kgp)) (snd (fst kgp)) (snd kgp))
               (combine window prevs) ;;
  Ok (order_by (fun a b =>
                  le_month_key
                    (GoldMonthly.transaction_year a,
                     GoldMonthly.transaction_month a)
                    (GoldMonthly.transaction_year b,
                     GoldMonthly.transaction_month b))
               rows).

(** The period of a row of the monthly summary. *)
Definition period_of (r : GoldMonthly.row) : month_key :=
  (GoldMonthly.transaction_year r, GoldMonthly.transaction_month r).

End Stage.
End Gold.

(** ** The data-quality audit: [04_data_quality.py] *)

Module DataQuality.
Import SQL Calendar.
Local Open Scope string_scope.
Local Open Scope list_scope.

(** The [status] of a result. *)
Inductive severity := PASS | WARN | FAIL.

Definition severity_eqb (a b : severity) : bool :=
  match a, b with
  | PASS, PASS | WARN, WARN | FAIL, FAIL => true
  | _, _ => false
  end.

(** A raised exception, by its message. *)
Definition exn := string.

(** The age of a table in hours; [Inf] is [float('inf')]. *)
Inductive age := Hours (h : Q) | Inf.

(** The [actual] entry of a result: a count, the text of an exception, or
    an age (kept as a number rather than in its printed form). *)
Inductive observed :=
| Count (n : Z)
| Message (e : exn)
| Age (a : age).

Record dq_result := {
  check : string;
  table : string;
  layer : string;
  expected : string;
  actual : observed;
  status : severity
}.

(** What the Spark session answers to the queries of the notebook: each
    one returns a value or raises. *)
Record spark := {
  (** [spark.table(t).count()] *)
  table_count : string -> result exn Z;
  (** the orphan [user_id] count *)
  orphan_users_query : result exn Z;
  (** the orphan [destination_id] count *)
  orphan_dests_query : result exn Z;
  (** [SELECT MAX(ts_col) FROM t]; [None] on an empty table *)
  max_ts_query : string -> string -> result exn (option timestamp);
  (** [datetime.now()] while table [t] is checked *)
  datetime_now : string -> timestamp;
  (** the count of negative silver prices *)
  neg_prices_query : result exn Z;
  (** the count of daily conversion rates outside 0..100 *)
  invalid_conv_query : result exn Z
}.

Definition tables : list (string * string) :=
  [ ("bronze_travel_purchases", "bronze");
    ("bronze_user_features", "bronze");
    ("bronze_destinations", "bronze");
    ("silver_travel_purchases", "silver");
    ("silver_users", "silver");
    ("silver_destinations", "silver");
    ("gold_daily_revenue_metrics", "gold");
    ("gold_destination_performance", "gold");
    ("gold_user_engagement", "gold");
    ("gold_monthly_summary", "gold") ].

Definition freshness_tables : list (string * string) :=
  [ ("bronze_travel_purchases", "_ingested_at");
    ("silver_travel_purchases", "_processed_at");
    ("gold_daily_revenue_metrics", "_generated_at") ].

(** [s.split("_")[0]] *)
Fixpoint first_field (s : string) : string :=
  match s with
  | EmptyString => EmptyString
  | String c r => if (c =? "_")%char then EmptyString else String c (first_field r)
  end.

Section Notebook.
Variable session : spark.

(** One iteration of the record-count loop: the results it appends. *)
Definition record_count_check (entry : string * string) : list dq_result :=
  let '(table_name, layer) := entry in
  match table_count session table_name with
  | Ok count =>
      let status := if (count >? 0)%Z then PASS else FAIL in
      [ {| check := "record_count";
           table := table_name;
           layer := layer;
           expected := "> 0";
           actual := Count count;
           status := status |} ]
  | Err e =>
      [ {| check := "record_count";
           table := table_name;
           layer := layer;
           expected := "> 0";
           actual := Message e;
           status := FAIL |} ]
  end.

Definition orphan_check (target : string) (orphans : Z) : dq_result :=
  let status := if (orphans =? 0)%Z then PASS else WARN in
  {| check := "referential_integrity";
     table := target;
     layer := "silver";
     expected := "0 orphans";
     actual := Count orphans;
     status := status |}.

(** One iteration of the freshness loop: the results it appends.  The
    except branch only prints. *)
Definition freshness_check (entry : string * string) : list dq_result :=
  let '(table_name, ts_col) := entry in
  match max_ts_query session table_name ts_col with
  | Ok max_ts =>
      let hours_old :=
        match max_ts with
        | Some t =>
            Hours (inject_Z (datetime_now session table_name - t)
                   / inject_Z 3600)%Q
        | None => Inf
        end in
      let status :=
        match hours_old with
        | Hours h => if ltb h (inject_Z 24) then PASS else WARN
        | Inf => WARN
        end in
      [ {| check := "data_freshness";
           table := table_name;
           layer := first_field table_name;
           expected := "< 24 hours";
           actual := Age hours_old;
           status := status |} ]
  | Err e => []
  end.

Definition business_rule_check (target layer expected : string) (bad : Z)
  : dq_result :=
  let status := if (bad =? 0)%Z then PASS else FAIL in
  {| check := "business_rule";
     table := target;
     layer := layer;
     expected := expected;
     actual := Count bad;
     status := status |}.

(** The checklist, up to the summary cell.  An exception of a query
    outside a try block ends the run. *)
Definition run_checks : result exn (list dq_result) :=
  let dq_results := [] in
  let dq_results := dq_results ++ flat_map record_count_check tables in
  orphan_users <- orphan_users_query session ;;
  let dq_results :=
    dq_results
    ++ [orphan_check "silver_travel_purchases -> silver_users" orphan_users] in
  orphan_dests <- orphan_dests_query session ;;
  let dq_results :=
    dq_results
    ++ [orphan_check "silver_travel_purchases -> silver_destinations"
                     orphan_dests] in
  let dq_results := dq_results ++ flat_map freshness_check freshness_tables in
  neg_prices <- neg_prices_query session ;;
  let dq_results :=
    dq_results
    ++ [business_rule_check "silver_travel_purchases" "silver"
                            "0 negative prices" neg_prices] in
  invalid_conv <- invalid_conv_query session ;;
  let dq_results :=
    dq_results
    ++ [business_rule_check "gold_daily_revenue_metrics" "gold"
                            "0 invalid rates" invalid_conv] in
  Ok dq_results.
End Notebook.

(** How a run of the notebook ends. *)
Inductive outcome :=
| Crashed (e : exn)
  (** an exception escaped before the audit log was written *)
| Passed (dq_audit_log : list dq_result)
  (** the audit log was written and the notebook ended normally *)
| Failed (dq_audit_log : list dq_result) (fail_count : Z).
  (** the audit log was written, then the final exception was raised *)

Definition count_status (s : severity) (dq_results : list dq_result) : Z :=
  Z.of_nat (length (filter (fun r => severity_eqb (status r) s) dq_results)).

(** The summary cell and the final cell. *)
Definition summary (dq_results : list dq_result) : outcome :=
  let fail_count := count_status FAIL dq_results in
  (* df_results.write.mode("overwrite").saveAsTable(dq_audit_log) *)
  let dq_audit_log := dq_results in
  if (fail_count >? 0)%Z then Failed dq_audit_log fail_count
  else Passed dq_audit_log.

Definition notebook (session : spark) : outcome :=
  match run_checks session with
  | Ok dq_results => summary dq_results
  | Err e => Crashed e
  end.

Definition audit_log_of (o : outcome) : option (list dq_result) :=
  match o with
  | Crashed _ => None
  | Passed l => Some l
  | Failed l _ => Some l
  end.

(** The overall outcome is FAIL: the run ends in the final exception. *)
Definition overall_fail (o : outcome) : Prop :=
  match o with
  | Failed _ _ => True
  | _ => False
  end.

(** *** The checklist, check by check *)

Inductive check_id :=
| RecordCount (table_name layer : string)
| OrphanUsers
| OrphanDests
| Freshness (table_name ts_col : string)
| NegativePrices
| InvalidConversion.

Definition checklist : list check_id :=
  map (fun e => RecordCount (fst e) (snd e)) tables
  ++ [OrphanUsers; OrphanDests]
  ++ map (fun e => Freshness (fst e) (snd e)) freshness_tables
  ++ [NegativePrices; InvalidConversion].

Definition error_of {A} (r : result exn A) : option exn :=
  match r with
  | Ok _ => None
  | Err e => Some e
  end.

(** The error, if any, that evaluating a check raises in a session. *)
Definition evaluation_error (session : spark) (c : check_id) : option exn :=
  match c with
  | RecordCount t _ => error_of (table_count session t)
  | OrphanUsers => error_of (orphan_users_query session)
  | OrphanDests => error_of (orphan_dests_query session)
  | Freshness t c => error_of (max_ts_query session t c)
  | NegativePrices => error_of (neg_prices_query session)
  | InvalidConversion => error_of (invalid_conv_query session)
  end.

(** The [check] and [table] entries under which a check is recorded. *)
Definition recorded_as (c : check_id) : string * string :=
  match c with
  | RecordCount t _ => ("record_count", t)
  | OrphanUsers =>
      ("referential_integrity", "silver_travel_purchases -> silver_users")
  | OrphanDests =>
      ("referential_integrity",
       "silver_travel_purchases -> silver_destinations")
  | Freshness t _ => ("data_freshness", t)
  | NegativePrices => ("business_rule", "silver_travel_purchases")
  | InvalidConversion => ("business_rule", "gold_daily_revenue_metrics")
  end.

Definition recorded (c : check_id) (s : severity) (rs : list dq_result) : Prop :=
  exists r, In r rs /\ (check r, table r) = recorded_as c /\ status r = s.

(** The checks whose query runs outside any try block. *)
Definition unguarded : list check_id :=
  [OrphanUsers; OrphanDests; NegativePrices; InvalidConversion].

Definition is_freshness (c : check_id) : bool :=
  match c with
  | Freshness _ _ => true
  | _ => false
  end.

(** Fail-soft as the specification words it: a check whose evaluation
    raises is recorded with FAIL and the checklist still runs to its end. *)
Definition fail_soft_as_stated (session : spark) (c : check_id) : Prop :=
  forall e, evaluation_error session c = Some e ->
  exists rs, run_checks session = Ok rs /\ recorded c FAIL rs.

End DataQuality.

(** ** The queries of the audit, over the tables they read *)

Module Queries.
Import SQL Calendar Relational.

(** [SELECT COUNT(DISTINCT t.user_id) FROM silver_travel_purchases t
     LEFT JOIN silver_users u ON t.user_id = u.user_id
     WHERE u.user_id IS NULL] *)
Definition orphan_users (purchases : list SilverPurchases.row)
    (users : list SilverUsers.row) : Z :=
  let joined :=
    left_join (fun t u => holds (EQ (SilverPurchases.user_id t)
                                    (SilverUsers.user_id u)))
              purchases users in
  COUNT_DISTINCT
    (map (fun j => SilverPurchases.user_id (fst j))
         (filter (fun j => holds (IS_NULL (col SilverUsers.user_id (snd j))))
                 joined)).

(** [SELECT COUNT(DISTINCT t.destination_id) FROM silver_travel_purchases t
     LEFT JOIN silver_destinations d ON t.destination_id = d.destination_id
     WHERE d.destination_id IS NULL] *)
Definition orphan_dests (purchases : list SilverPurchases.row)
    (destinations : list SilverDestinations.row) : Z :=
  let joined :=
    left_join (fun t d => holds (EQ (SilverPurchases.destination_id t)
                                    (SilverDestinations.destination_id d)))
              purchases destinations in
  COUNT_DISTINCT
    (map (fun j => SilverPurchases.destination_id (fst j))
         (filter (fun j =>
                    holds (IS_NULL (col SilverDestinations.destination_id
                                        (snd j))))
                 joined)).

(** The count of the silver purchases [WHERE price_usd < 0]. *)
Definition neg_prices (purchases : list SilverPurchases.row) : Z :=
  COUNT_star
    (filter (fun t => holds (LT (SilverPurchases.price_usd t) (num 0)))
            purchases).

(** The count of the daily rows
    [WHERE conversion_rate_pct < 0 OR conversion_rate_pct > 100]. *)
Definition invalid_conv (daily : list GoldDaily.row) : Z :=
  COUNT_star
    (filter (fun r => holds (OR (LT (GoldDaily.conversion_rate_pct r) (num 0))
                                (GT (GoldDaily.conversion_rate_pct r)
                                    (num 100))))
            daily).

(** [SELECT MAX(ts_col) FROM t] *)
Definition max_ts {A} (ts_col : A -> option timestamp) (t : list A)
  : option timestamp :=
  MAX (map ts_col t).

End Queries.

(** ** The notebooks as cells over the tables of the schema, and the
    session of the audit that reads those tables *)

Module Pipeline.
Import SQL Calendar Relational.
Local Open Scope string_scope.

(** The ten tables of the target schema; [None]: the table does not
    exist. *)
Record lake := {
  bronze_travel_purchases : option (list BronzePurchases.row);
  bronze_user_features : option (list BronzeUsers.row);
  bronze_destinations : option (list BronzeDestinations.row);
  silver_travel_purchases : option (list SilverPurchases.row);
  silver_users : option (list SilverUsers.row);
  silver_destinations : option (list SilverDestinations.row);
  gold_daily_revenue_metrics : option (list GoldDaily.row);
  gold_destination_performance : option (list GoldDestinations.row);
  gold_user_engagement : option (list GoldUsers.row);
  gold_monthly_summary : option (list GoldMonthly.row)
}.

(** What ends a notebook before its last cell. *)
Inductive exn :=
| TABLE_OR_VIEW_NOT_FOUND (table_name : string)
| ARITHMETIC (e : sql_error)
| TypeError (text : string).

(** Cells of a notebook, run in order: they read and replace tables and end
    with a value or with an exception.  What was written before an
    exception stays written, and the cells after it do not run. *)
Definition cells (A : Type) : Type := lake -> lake * result exn A.

Definition ret {A} (a : A) : cells A := fun l => (l, Ok a).

Definition raise {A} (e : exn) : cells A := fun l => (l, Err e).

Definition and_then {A B} (m : cells A) (k : A -> cells B) : cells B :=
  fun l =>
    match m l with
    | (l', Ok a) => k a l'
    | (l', Err e) => (l', Err e)
    end.

Notation "x <== m ;; k" := (and_then m (fun x => k))
  (at level 61, m at next level, right associativity).

(** The rows of a table named in a query or in [spark.table]; a missing
    table fails the analysis of the statement. *)
Definition table {A} (name : string) (t : lake -> option (list A))
  : cells (list A) :=
  fun l =>
    match t l with
    | Some rows => (l, Ok rows)
    | None => (l, Err (TABLE_OR_VIEW_NOT_FOUND name))
    end.

(** The value of a query over rows already read. *)
Definition sql {A} (q : eval A) : cells A :=
  fun l => (l, match q with
               | Ok a => Ok a
               | Err e => Err (ARITHMETIC e)
               end).

Definition replace_silver_travel_purchases (rows : list SilverPurchases.row)
    (l : lake) : lake :=
  {| bronze_travel_purchases := bronze_travel_purchases l;
     bronze_user_features := bronze_user_features l;
     bronze_destinations := bronze_destinations l;
     silver_travel_purchases := Some rows;
     silver_users := silver_users l;
     silver_destinations := silver_destinations l;
     gold_daily_revenue_metrics := gold_daily_revenue_metrics l;
     gold_destination_performance := gold_destination_performance l;
     gold_user_engagement := gold_user_engagement l;
     gold_monthly_summary := gold_monthly_summary l |}.

Definition replace_silver_users (rows : list SilverUsers.row)
    (l : lake) : lake :=
  {| bronze_travel_purchases := bronze_travel_purchases l;
     bronze_user_features := bronze_user_features l;
     bronze_destinations := bronze_destinations l;
     silver_travel_purchases := silver_travel_purchases l;
     silver_users := Some rows;
     silver_destinations := silver_destinations l;
     gold_daily_revenue_metrics := gold_daily_revenue_metrics l;
     gold_destination_performance := gold_destination_performance l;
     gold_user_engagement := gold_user_engagement l;
     gold_monthly_summary := gold_monthly_summary l |}.

Definition replace_silver_destinations (rows : list SilverDestinations.row)
    (l : lake) : lake :=
  {| bronze_travel_purchases := bronze_travel_purchases l;
     bronze_user_features := bronze_user_features l;
     bronze_destinations := bronze_destinations l;
     silver_travel_purchases := silver_travel_purchases l;
     silver_users := silver_users l;
     silver_destinations := Some rows;
     gold_daily_revenue_metrics := gold_daily_revenue_metrics l;
     gold_destination_performance := gold_destination_performance l;
     gold_user_engagement := gold_user_engagement l;
     gold_monthly_summary := gold_monthly_summary l |}.

Definition replace_gold_daily_revenue_metrics (rows : list GoldDaily.row)
    (l : lake) : lake :=
  {| bronze_travel_purchases := bronze_travel_purchases l;
     bronze_user_features := bronze_user_features l;
     bronze_destinations := bronze_destinations l;
     silver_travel_purchases := silver_travel_purchases l;
     silver_users := silver_users l;
     silver_destinations := silver_destinations l;
     gold_daily_revenue_metrics := Some rows;
     gold_destination_performance := gold_destination_performance l;
     gold_user_engagement := gold_user_engagement l;
     gold_monthly_summary := gold_monthly_summary l |}.

Definition replace_gold_destination_performance (rows : list GoldDestinations.row)
    (l : lake) : lake :=
  {| bronze_travel_purchases := bronze_travel_purchases l;
     bronze_user_features := bronze_user_features l;
     bronze_destinations := bronze_destinations l;
     silver_travel_purchases := silver_travel_purchases l;
     silver_users := silver_users l;
     silver_destinations := silver_destinations l;
     gold_daily_revenue_metrics := gold_daily_revenue_metrics l;
     gold_destination_performance := Some rows;
     gold_user_engagement := gold_user_engagement l;
     gold_monthly_summary := gold_monthly_summary l |}.

Definition replace_gold_user_engagement (rows : list GoldUsers.row)
    (l : lake) : lake :=
  {| bronze_travel_purchases := bronze_travel_purchases l;
     bronze_user_features := bronze_user_features l;
     bronze_destinations := bronze_destinations l;
     silver_travel_purchases := silver_travel_purchases l;
     silver_users := silver_users l;
     silver_destinations := silver_destinations l;
     gold_daily_revenue_metrics := gold_daily_revenue_metrics l;
     gold_destination_performance := gold_destination_performance l;
     gold_user_engagement := Some rows;
     gold_monthly_summary := gold_monthly_summary l |}.

Definition replace_gold_monthly_summary (rows : list GoldMonthly.row)
    (l : lake) : lake :=
  {| bronze_travel_purchases := bronze_travel_purchases l;
     bronze_user_features := bronze_user_features l;
     bronze_destinations := bronze_destinations l;
     silver_travel_purchases := silver_travel_purchases l;
     silver_users := silver_users l;
     silver_destinations := silver_destinations l;
     gold_daily_revenue_metrics := gold_daily_revenue_metrics l;
     gold_destination_performance := gold_destination_performance l;
     gold_user_engagement := gold_user_engagement l;
     gold_monthly_summary := Some rows |}.

(** [CREATE OR REPLACE TABLE ... AS], once its query has a value. *)
Definition create_or_replace (replace : lake -> lake) : cells unit :=
  fun l => (replace l, Ok tt).

(** [print(f"... {count:,} ...")] and [print(f"... {n} ...")] on an
    integer. *)
Definition print_count (count : Z) : cells unit := ret tt.

(** What [format(None, ",.2f")] raises. *)
Definition NoneType_format : exn :=
  TypeError "unsupported format string passed to NoneType.__format__".

(** [print(f"... ${revenue:,.2f} ...")]: the format cannot be applied to
    [None]. *)
Definition print_2f (revenue : option Q) : cells unit :=
  match revenue with
  | Some _ => ret tt
  | None => raise NoneType_format
  end.

(** [02_silver_transformations.py]; [now t] is the [current_timestamp()] of
    the statement that creates table [t].  The ALTER COLUMN ... COMMENT
    statements after each table change no row. *)
Definition silver_notebook (now : string -> timestamp) : cells unit :=
  bronze <== table "bronze_travel_purchases" bronze_travel_purchases ;;
  _ <== create_or_replace
          (replace_silver_travel_purchases
             (Silver.silver_travel_purchases (now "silver_travel_purchases")
                                             bronze)) ;;
  rows <== table "silver_travel_purchases" silver_travel_purchases ;;
  let count := COUNT_star rows in
  (* SELECT COUNT( * ) FROM silver_travel_purchases WHERE _price_invalid *)
  let invalid :=
    COUNT_star (filter (fun t => holds (SilverPurchases._price_invalid t))
                       rows) in
  _ <== print_count count ;;
  _ <== print_count invalid ;;
  bronze <== table "bronze_user_features" bronze_user_features ;;
  _ <== create_or_replace
          (replace_silver_users (Silver.silver_users (now "silver_users")
                                                     bronze)) ;;
  rows <== table "silver_users" silver_users ;;
  _ <== print_count (COUNT_star rows) ;;
  bronze <== table "bronze_destinations" bronze_destinations ;;
  _ <== create_or_replace
          (replace_silver_destinations
             (Silver.silver_destinations (now "silver_destinations")
                                         bronze)) ;;
  rows <== table "silver_destinations" silver_destinations ;;
  print_count (COUNT_star rows).

(** [03_gold_aggregations.py].  After the daily table, the notebook prints
    the sum of its [total_revenue_usd] column with two decimals. *)
Definition gold_notebook (now : string -> timestamp) : cells unit :=
  silver <== table "silver_travel_purchases" silver_travel_purchases ;;
  daily <== sql (Gold.gold_daily_revenue_metrics
                   (now "gold_daily_revenue_metrics") silver) ;;
  _ <== create_or_replace (replace_gold_daily_revenue_metrics daily) ;;
  rows <== table "gold_daily_revenue_metrics" gold_daily_revenue_metrics ;;
  let count := COUNT_star rows in
  (* SELECT SUM(total_revenue_usd) FROM gold_daily_revenue_metrics *)
  let revenue := SUM_Q (map GoldDaily.total_revenue_usd rows) in
  _ <== print_count count ;;
  _ <== print_2f revenue ;;
  destinations <== table "silver_destinations" silver_destinations ;;
  silver <== table "silver_travel_purchases" silver_travel_purchases ;;
  perf <== sql (Gold.gold_destination_performance
                  (now "gold_destination_performance") destinations silver) ;;
  _ <== create_or_replace (replace_gold_destination_performance perf) ;;
  rows <== table "gold_destination_performance"
                 gold_destination_performance ;;
  _ <== print_count (COUNT_star rows) ;;
  users <== table "silver_users" silver_users ;;
  silver <== table "silver_travel_purchases" silver_travel_purchases ;;
  engagement <== sql (Gold.gold_user_engagement (now "gold_user_engagement")
                                                users silver) ;;
  _ <== create_or_replace (replace_gold_user_engagement engagement) ;;
  rows <== table "gold_user_engagement" gold_user_engagement ;;
  let count := COUNT_star rows in
  (* SELECT COUNT( * ) FROM gold_user_engagement
     WHERE customer_tier = 'platinum' *)
  let platinum :=
    COUNT_star (filter (fun r => holds (EQ (GoldUsers.customer_tier r)
                                           (lit "platinum")))
                       rows) in
  _ <== print_count count ;;
  _ <== print_count platinum ;;
  silver <== table "silver_travel_purchases" silver_travel_purchases ;;
  monthly <== sql (Gold.gold_monthly_summary (now "gold_monthly_summary")
                                             silver) ;;
  _ <== create_or_replace (replace_gold_monthly_summary monthly) ;;
  rows <== table "gold_monthly_summary" gold_monthly_summary ;;
  print_count (COUNT_star rows).

(** *** The session of the audit over the tables *)

(** [str(e)] *)
Definition message (e : exn) : DataQuality.exn :=
  match e with
  | TABLE_OR_VIEW_NOT_FOUND t => "TABLE_OR_VIEW_NOT_FOUND: " ++ t
  | ARITHMETIC DIVIDE_BY_ZERO => "DIVIDE_BY_ZERO"
  | TypeError text => "TypeError: " ++ text
  end.

(** The value a query returns to the notebook of the audit, or the
    exception it raises there; the audit's queries write nothing. *)
Definition collect {A} (q : cells A) (l : lake) : result DataQuality.exn A :=
  match snd (q l) with
  | Ok a => Ok a
  | Err e => Err (message e)
  end.

Definition count_rows {A} (name : string) (t : lake -> option (list A))
  : cells Z :=
  rows <== table name t ;;
  ret (COUNT_star rows).

(** [spark.table(t).count()] *)
Definition table_count (l : lake) (t : string) : result DataQuality.exn Z :=
  if t =? "bronze_travel_purchases"
  then collect (count_rows "bronze_travel_purchases" bronze_travel_purchases) l
  else if t =? "bronze_user_features"
  then collect (count_rows "bronze_user_features" bronze_user_features) l
  else if t =? "bronze_destinations"
  then collect (count_rows "bronze_destinations" bronze_destinations) l
  else if t =? "silver_travel_purchases"
  then collect (count_rows "silver_travel_purchases" silver_travel_purchases) l
  else if t =? "silver_users"
  then collect (count_rows "silver_users" silver_users) l
  else if t =? "silver_destinations"
  then collect (count_rows "silver_destinations" silver_destinations) l
  else if t =? "gold_daily_revenue_metrics"
  then collect (count_rows "gold_daily_revenue_metrics"
                           gold_daily_revenue_metrics) l
  else if t =? "gold_destination_performance"
  then collect (count_rows "gold_destination_performance"
                           gold_destination_performance) l
  else if t =? "gold_user_engagement"
  then collect (count_rows "gold_user_engagement" gold_user_engagement) l
  else if t =? "gold_monthly_summary"
  then collect (count_rows "gold_monthly_summary" gold_monthly_summary) l
  else Err (message (TABLE_OR_VIEW_NOT_FOUND t)).

Definition orphan_users_query : cells Z :=
  t <== table "silver_travel_purchases" silver_travel_purchases ;;
  u <== table "silver_users" silver_users ;;
  ret (Queries.orphan_users t u).

Definition orphan_dests_query : cells Z :=
  t <== table "silver_travel_purchases" silver_travel_purchases ;;
  d <== table "silver_destinations" silver_destinations ;;
  ret (Queries.orphan_dests t d).

Definition neg_prices_query : cells Z :=
  t <== table "silver_travel_purchases" silver_travel_purchases ;;
  ret (Queries.neg_prices t).

Definition invalid_conv_query : cells Z :=
  daily <== table "gold_daily_revenue_metrics" gold_daily_revenue_metrics ;;
  ret (Queries.invalid_conv daily).

Definition max_ts_of {A} (name : string) (t : lake -> option (list A))
    (ts_col : A -> option timestamp) : cells (option timestamp) :=
  rows <== table name t ;;
  ret (Queries.max_ts ts_col rows).

(** [SELECT MAX(ts_col) FROM t], for the three queries of the freshness
    loop. *)
Definition max_ts (l : lake) (t ts_col : string)
  : result DataQuality.exn (option timestamp) :=
  if (t =? "bronze_travel_purchases") && (ts_col =? "_ingested_at")
  then collect (max_ts_of "bronze_travel_purchases" bronze_travel_purchases
                          BronzePurchases._ingested_at) l
  else if (t =? "silver_travel_purchases") && (ts_col =? "_processed_at")
  then collect (max_ts_of "silver_travel_purchases" silver_travel_purchases
                          SilverPurchases._processed_at) l
  else if (t =? "gold_daily_revenue_metrics") && (ts_col =? "_generated_at")
  then collect (max_ts_of "gold_daily_revenue_metrics"
                          gold_daily_revenue_metrics
                          GoldDaily._generated_at) l
  else Err ("UNRESOLVED_COLUMN: " ++ ts_col).

(** The session of the audit over the tables; [clock] is the reading of
    [datetime.now()] while a table is checked. *)
Definition session (l : lake) (clock : string -> timestamp)
  : DataQuality.spark :=
  {| DataQuality.table_count := table_count l;
     DataQuality.orphan_users_query := collect orphan_users_query l;
     DataQuality.orphan_dests_query := collect orphan_dests_query l;
     DataQuality.max_ts_query := max_ts l;
     DataQuality.datetime_now := clock;
     DataQuality.neg_prices_query := collect neg_prices_query l;
     DataQuality.invalid_conv_query := collect invalid_conv_query l |}.

End Pipeline.

(** ** The rate expression of [tests/test_transformations.py] *)

Module Tests.


End Tests.

(** ** Defect classes of the cleaning rules, as the specification words them *)

(** A price is defective when it is null, negative or greater than 50000. *)
Definition price_defect (p : option Q) : Prop :=
  match p with
  | None => True
  | Some q => (q < inject_Z 0 \/ inject_Z 50000 < q)%Q
  end.

(** A coordinate is defective when it is null or outside [lo, hi]. *)
Definition coordinate_defect (lo hi : Z) (x : option Q) : Prop :=
  match x with
  | None => True
  | Some q => (q < inject_Z lo \/ inject_Z hi < q)%Q
  end.

Definition location_defect (lat lon : option Q) : Prop :=
  coordinate_defect (-90) 90 lat \/ coordinate_defect (-180) 180 lon.

(** The pairing rule for purchase coordinates as the specification words
    it: on any coordinate defect both output coordinates are null and the
    flag is set; otherwise both pass through and the flag is clear. *)
Definition location_pairing_as_stated (now : Calendar.timestamp)
    (b : BronzePurchases.row) : Prop :=
  let lat := BronzePurchases.user_latitude b in
  let lon := BronzePurchases.user_longitude b in
  let c := Silver.clean_purchase now b in
  (location_defect lat lon ->
   SilverPurchases.user_latitude c = None /\
   SilverPurchases.user_longitude c = None /\
   SilverPurchases._location_invalid c = Some true) /\
  (~ location_defect lat lon ->
   SilverPurchases.user_latitude c = lat /\
   SilverPurchases.user_longitude c = lon /\
   SilverPurchases._location_invalid c = Some false).

(** The threshold classifier as the specification words it: the label of
    the first threshold, in descending order, that the metric meets or
    exceeds, else the default label. *)
Fixpoint threshold_classifier (thresholds : list (Z * string))
    (default : string) (metric : Q) : string :=
  match thresholds with
  | [] => default
  | (t, label) :: rest =>
      if Qle_bool (inject_Z t) metric then label
      else threshold_classifier rest default metric
  end.

(** A column value is present when it is not null. *)
Definition present {A} (x : option A) : bool :=
  match x with Some _ => true | None => false end.

(** A boolean equality of grouping keys that is an equivalence. *)
Definition equivalence_b {K : Type} (eq_key : K -> K -> bool) : Prop :=
  (forall a, eq_key a a = true) /\
  (forall a b, eq_key a b = true -> eq_key b a = true) /\
  (forall a b c, eq_key a b = true -> eq_key b c = true -> eq_key a c = true).

(** ** Sample rows *)

Module Sample.
Import SQL.
Local Open Scope string_scope.

(** 2024-03-09T14:00:00, a Saturday. *)
Definition t0 : Calendar.timestamp := 1709992800.

Definition purchase_at (ts : Calendar.timestamp) (id user dest : option Z)
    (clicked purchased : option bool) (price lat lon : option Q)
  : BronzePurchases.row :=
  {| BronzePurchases.id := id;
     BronzePurchases.ts := Some ts;
     BronzePurchases.user_id := user;
     BronzePurchases.destination_id := dest;
     BronzePurchases.clicked := clicked;
     BronzePurchases.purchased := purchased;
     BronzePurchases.booking_date := Some (Calendar.DATE ts);
     BronzePurchases.price := price;
     BronzePurchases.user_latitude := lat;
     BronzePurchases.user_longitude := lon;
     BronzePurchases._ingested_at := Some (t0 + 60);
     BronzePurchases._source_table := "dbdemos_fs_travel.travel_purchase";
     BronzePurchases._row_hash := "5f2b51ca2fdc5baa31ec02e002f69aec" |}.

Definition purchase := purchase_at t0.

(** A purchase priced at -50. *)
Definition negative_price : BronzePurchases.row :=
  purchase (Some 1) (Some 7) (Some 3) (Some true) (Some true)
           (Some (-50 # 1)%Q) (Some (455 # 10)%Q) (Some (-1224 # 10)%Q).

(** A purchase priced at 150.999. *)
Definition valid_price : BronzePurchases.row :=
  purchase (Some 2) (Some 7) (Some 3) (Some true) None
           (Some (150999 # 1000)%Q) (Some (455 # 10)%Q) (Some (-1224 # 10)%Q).

(** A purchase whose user latitude is 100. *)
Definition latitude_100 : BronzePurchases.row :=
  purchase (Some 3) (Some 8) (Some 3) None None
           (Some (20 # 1)%Q) (Some (100 # 1)%Q) (Some (0 # 1)%Q).

(** A purchase without a user id. *)
Definition no_user : BronzePurchases.row :=
  purchase (Some 4) None (Some 3) None None
           (Some (20 # 1)%Q) (Some (10 # 1)%Q) (Some (0 # 1)%Q).

Definition user (id : option Z) (mean : option Q) (n : option Z)
  : BronzeUsers.row :=
  {| BronzeUsers.user_id := id;
     BronzeUsers.ts := Some t0;
     BronzeUsers.mean_price_7d := mean;
     BronzeUsers.last_6m_purchases := n;
     BronzeUsers.user_longitude := Some (-1224 # 10)%Q;
     BronzeUsers.user_latitude := Some (455 # 10)%Q;
     BronzeUsers._ingested_at := Some (t0 + 60);
     BronzeUsers._source_table := "dbdemos_fs_travel.user_features" |}.

Definition destination (id : option Z) (name : option string)
    (lat lon : option Q) : BronzeDestinations.row :=
  {| BronzeDestinations.destination_id := id;
     BronzeDestinations.destination_name := name;
     BronzeDestinations.dest_latitude := lat;
     BronzeDestinations.dest_longitude := lon;
     BronzeDestinations._ingested_at := Some (t0 + 60);
     BronzeDestinations._source_table :=
       "dbdemos_fs_travel.destination_location" |}.

(** A destination whose latitude is missing. *)
Definition no_latitude : BronzeDestinations.row :=
  destination (Some 4) (Some "  new york ") None (Some (-74 # 1)%Q).

(** A booking of user 7 at destination 3, for a given price and time. *)
Definition booking (ts : Calendar.timestamp) (id : Z) (price : Q)
  : BronzePurchases.row :=
  purchase_at ts (Some id) (Some 7) (Some 3) (Some true) (Some true)
              (Some price) (Some (455 # 10)%Q) (Some (-1224 # 10)%Q).

(** 2023-12-31T23:00, 2024-01-15T10:00 and 2024-02-20T09:00. *)
Definition t_dec : Calendar.timestamp := 1704063600.
Definition t_jan : Calendar.timestamp := 1705312800.
Definition t_feb : Calendar.timestamp := 1708419600.

(** Silver purchases over four months, listed out of order. *)
Definition four_months : list SilverPurchases.row :=
  Silver.silver_travel_purchases (t0 + 120)
    [ booking t_feb 10 (300 # 1)%Q;
      booking t0 11 (2500 # 1)%Q;
      booking t_dec 12 (125 # 10)%Q;
      booking t_jan 13 (40 # 1)%Q;
      booking t0 14 (2500 # 1)%Q;
      latitude_100 ].

(** Silver purchases without a click. *)
Definition views_only : list SilverPurchases.row :=
  Silver.silver_travel_purchases (t0 + 120) [latitude_100].

Definition users : list SilverUsers.row :=
  Silver.silver_users (t0 + 120)
    [ user (Some 7) (Some (500 # 1)%Q) (Some 10);
      user (Some 8) None None ].

Definition destinations : list SilverDestinations.row :=
  Silver.silver_destinations (t0 + 120)
    [ destination (Some 3) (Some "lisbon") (Some (387 # 10)%Q) (Some (-91 # 10)%Q);
      no_latitude ].

(** User 7 joined with two bookings of 2500 each. *)
Definition spend_5000 : list Gold.user_joined :=
  Relational.left_join
    (fun u t => SQL.holds (SQL.EQ (SilverUsers.user_id u)
                                  (SilverPurchases.user_id t)))
    (firstn 1 users)
    (Silver.silver_travel_purchases (t0 + 120)
       [booking t0 11 (2500 # 1)%Q; booking t0 14 (2500 # 1)%Q]).


(** A schema that holds the three bronze tables and nothing else. *)
Definition bronze_only (purchases : list BronzePurchases.row)
    (users : list BronzeUsers.row) (dests : list BronzeDestinations.row)
  : Pipeline.lake :=
  {| Pipeline.bronze_travel_purchases := Some purchases;
     Pipeline.bronze_user_features := Some users;
     Pipeline.bronze_destinations := Some dests;
     Pipeline.silver_travel_purchases := None;
     Pipeline.silver_users := None;
     Pipeline.silver_destinations := None;
     Pipeline.gold_daily_revenue_metrics := None;
     Pipeline.gold_destination_performance := None;
     Pipeline.gold_user_engagement := None;
     Pipeline.gold_monthly_summary := None |}.

(** Every table is there, fresh and clean. *)
Definition healthy : DataQuality.spark :=
  {| DataQuality.table_count := fun _ => Ok 5;
     DataQuality.orphan_users_query := Ok 0;
     DataQuality.orphan_dests_query := Ok 0;
     DataQuality.max_ts_query := fun _ _ => Ok (Some t0);
     DataQuality.datetime_now := fun _ => t0 + 3600;
     DataQuality.neg_prices_query := Ok 0;
     DataQuality.invalid_conv_query := Ok 0 |}.

(** Two days later, with two orphan user ids: warnings only. *)
Definition stale_with_orphans : DataQuality.spark :=
  {| DataQuality.table_count := fun _ => Ok 5;
     DataQuality.orphan_users_query := Ok 2;
     DataQuality.orphan_dests_query := Ok 0;
     DataQuality.max_ts_query := fun _ _ => Ok (Some t0);
     DataQuality.datetime_now := fun _ => t0 + 172800;
     DataQuality.neg_prices_query := Ok 0;
     DataQuality.invalid_conv_query := Ok 0 |}.

(** The table [bronze_destinations] was dropped after the silver stage. *)
Definition bronze_destinations_dropped : DataQuality.spark :=
  {| DataQuality.table_count :=
       fun t => if (t =? "bronze_destinations")%string
                then Err "TABLE_OR_VIEW_NOT_FOUND: bronze_destinations"
                else Ok 5;
     DataQuality.orphan_users_query := Ok 0;
     DataQuality.orphan_dests_query := Ok 0;
     DataQuality.max_ts_query := fun _ _ => Ok (Some t0);
     DataQuality.datetime_now := fun _ => t0 + 3600;
     DataQuality.neg_prices_query := Ok 0;
     DataQuality.invalid_conv_query := Ok 0 |}.

(** The table [silver_users] is missing: counting it raises, and so does
    the orphan-user query that joins it. *)
Definition silver_users_dropped : DataQuality.spark :=
  {| DataQuality.table_count :=
       fun t => if (t =? "silver_users")%string
                then Err "TABLE_OR_VIEW_NOT_FOUND: silver_users"
                else Ok 5;
     DataQuality.orphan_users_query :=
       Err "TABLE_OR_VIEW_NOT_FOUND: silver_users";
     DataQuality.orphan_dests_query := Ok 0;
     DataQuality.max_ts_query := fun _ _ => Ok (Some t0);
     DataQuality.datetime_now := fun _ => t0 + 3600;
     DataQuality.neg_prices_query := Ok 0;
     DataQuality.invalid_conv_query := Ok 0 |}.

(** The freshness query on [gold_daily_revenue_metrics] raises; every
    other query answers. *)
Definition freshness_unreadable : DataQuality.spark :=
  {| DataQuality.table_count := fun _ => Ok 5;
     DataQuality.orphan_users_query := Ok 0;
     DataQuality.orphan_dests_query := Ok 0;
     DataQuality.max_ts_query :=
       fun t _ => if (t =? "gold_daily_revenue_metrics")%string
                  then Err "UNRESOLVED_COLUMN: _generated_at"
                  else Ok (Some t0);
     DataQuality.datetime_now := fun _ => t0 + 3600;
     DataQuality.neg_prices_query := Ok 0;
     DataQuality.invalid_conv_query := Ok 0 |}.

(** The table [bronze_travel_purchases] is missing: counting it raises,
    and so does its freshness query; every other query answers. *)
Definition bronze_purchases_dropped : DataQuality.spark :=
  {| DataQuality.table_count :=
       fun t => if (t =? "bronze_travel_purchases")%string
                then Err "TABLE_OR_VIEW_NOT_FOUND: bronze_travel_purchases"
                else Ok 5;
     DataQuality.orphan_users_query := Ok 0;
     DataQuality.orphan_dests_query := Ok 0;
     DataQuality.max_ts_query :=
       fun t _ => if (t =? "bronze_travel_purchases")%string
                  then Err "TABLE_OR_VIEW_NOT_FOUND: bronze_travel_purchases"
                  else Ok (Some t0);
     DataQuality.datetime_now := fun _ => t0 + 3600;
     DataQuality.neg_prices_query := Ok 0;
     DataQuality.invalid_conv_query := Ok 0 |}.

End Sample.

(** * Properties *)

Import SQL.

(** ** Comparisons on rationals *)

Lemma ltb_Q_true (a b : Q) : ltb a b = true <-> (a < b)%Q.
Proof.
  unfold ltb; simpl. rewrite negb_true_iff. split; intro H.
  - apply Qnot_le_lt. intro L. apply Qle_bool_iff in L. congruence.
  - destruct (Qle_bool b a) eqn:E; [|reflexivity].
    apply Qle_bool_iff in E. exfalso. exact (Qlt_not_le _ _ H E).
Qed.

Lemma ltb_Q_false (a b : Q) : ltb a b = false <-> (b <= a)%Q.
Proof.
  unfold ltb; simpl. rewrite negb_false_iff. apply Qle_bool_iff.
Qed.

Lemma leb_Q_true (a b : Q) : leb a b = true <-> (a <= b)%Q.
Proof. simpl. apply Qle_bool_iff. Qed.

Lemma leb_Q_false (a b : Q) : leb a b = false <-> (b < a)%Q.
Proof.
  simpl. split; intro H.
  - apply Qnot_le_lt. intro L. apply Qle_bool_iff in L. congruence.
  - destruct (Qle_bool a b) eqn:E; [|reflexivity].
    apply Qle_bool_iff in E. exfalso. exact (Qlt_not_le _ _ H E).
Qed.

(** Case analysis on a strict comparison of rationals. *)
Ltac case_ltb a b :=
  let E := fresh "E" in
  destruct (ltb a b) eqn:E;
  [apply ltb_Q_true in E | apply ltb_Q_false in E].

Ltac case_leb a b :=
  let E := fresh "E" in
  destruct (leb a b) eqn:E;
  [apply leb_Q_true in E | apply leb_Q_false in E].

(** ** Silver purchases: the price rule *)

(** C1. For every bronze purchase row that passes the identifier filter,
    the cleaned row is in the silver table, its [_price_invalid] flag is
    true iff the original price is null, negative or greater than 50000
    (and false otherwise), its [price_usd] is null in exactly those cases,
    and otherwise [price_usd] is the original price rounded to 2 decimal
    places. *)
Theorem price_rule (now : Calendar.timestamp)
    (bronze : list BronzePurchases.row) (b : BronzePurchases.row)
    (Hin : In b bronze) (Hids : Silver.purchase_has_ids b = true) :
  let c := Silver.clean_purchase now b in
  In c (Silver.silver_travel_purchases now bronze) /\
  (SilverPurchases._price_invalid c = Some true <->
   price_defect (BronzePurchases.price b)) /\
  (SilverPurchases._price_invalid c = Some false <->
   ~ price_defect (BronzePurchases.price b)) /\
  (SilverPurchases.price_usd c = None <->
   price_defect (BronzePurchases.price b)) /\
  (forall p, BronzePurchases.price b = Some p ->
             ~ price_defect (Some p) ->
             SilverPurchases.price_usd c = Some (round_half_up p 2)).
Proof.
  intro c. split.
  - unfold Silver.silver_travel_purchases, Silver.cleaned_data. apply in_map.
    apply filter_In. split; assumption.
  - subst c. unfold price_defect. simpl.
    destruct (BronzePurchases.price b) as [p|]; simpl; unfold lit.
    + case_ltb p (inject_Z 0); simpl.
      * repeat split; try congruence; try tauto.
        intros q [= <-] N. tauto.
      * case_ltb (inject_Z 50000) p; simpl.
        -- repeat split; try congruence; try tauto.
           intros q [= <-] N. tauto.
        -- assert (N : ~ ((p < inject_Z 0)%Q \/ (inject_Z 50000 < p)%Q)).
           { intros [L|L]; eapply Qlt_not_le; eauto. }
           repeat split; try congruence; try tauto.
    + repeat split; try congruence; try tauto.
Qed.

Lemma price_rule_witness :
  SilverPurchases._price_invalid (Silver.clean_purchase 0 Sample.negative_price)
    = Some true /\
  SilverPurchases.price_usd (Silver.clean_purchase 0 Sample.valid_price)
    = Some (15100 # 100)%Q.
Proof.
  split.
  - destruct (price_rule 0 [Sample.negative_price] Sample.negative_price
                (or_introl eq_refl) eq_refl) as (_ & H & _).
    apply H. simpl. left. reflexivity.
  - destruct (price_rule 0 [Sample.valid_price] Sample.valid_price
                (or_introl eq_refl) eq_refl) as (_ & _ & _ & _ & H).
    apply (H (150999 # 1000)%Q eq_refl).
    simpl. intros [L|L]; discriminate L.
Defined.

(** ** Silver purchases: the range of the cleaned price *)

Lemma round_half_up_2_range (p : Q) :
  (inject_Z 0 <= p)%Q -> (p <= inject_Z 50000)%Q ->
  (inject_Z 0 <= round_half_up p 2)%Q /\ (round_half_up p 2 <= inject_Z 50000)%Q.
Proof.
  destruct p as [n d]. unfold round_half_up, Qle, inject_Z.
  cbn [Qnum Qden].
  change (10 ^ Z.of_nat 2) with 100.
  change (Z.pos (Z.to_pos 100)) with 100.
  intros Hlo Hhi.
  assert (Hn : 0 <= n) by lia.
  assert (Hd : 0 < Z.pos d) by lia.
  set (q := (2 * (Z.abs n * 100) + Z.pos d) / (2 * Z.pos d)).
  assert (Hq0 : 0 <= q).
  { apply Z.div_pos; lia. }
  assert (Hq1 : q < 5000001).
  { apply Z.div_lt_upper_bound; lia. }
  destruct (Z.eq_dec n 0) as [->|Hnz].
  - simpl. lia.
  - rewrite Z.sgn_pos by lia. lia.
Qed.

(** Every non-null [price_usd] of the silver purchases lies in
    [0, 50000]. *)
Lemma price_usd_in_range (now : Calendar.timestamp)
    (bronze : list BronzePurchases.row) (c : SilverPurchases.row) (v : Q) :
  In c (Silver.silver_travel_purchases now bronze) ->
  SilverPurchases.price_usd c = Some v ->
  (inject_Z 0 <= v)%Q /\ (v <= inject_Z 50000)%Q.
Proof.
  intros Hc Hv.
  unfold Silver.silver_travel_purchases, Silver.cleaned_data in Hc.
  apply in_map_iff in Hc. destruct Hc as (b & <- & _). simpl in Hv.
  destruct (BronzePurchases.price b) as [p|]; simpl in Hv; [|discriminate Hv].
  case_ltb p (inject_Z 0); simpl in Hv; [discriminate Hv|].
  case_ltb (inject_Z 50000) p; simpl in Hv; [discriminate Hv|].
  injection Hv as <-. apply round_half_up_2_range; assumption.
Qed.

(** ** Silver purchases: the location rule *)

(** Counterexample to C2 as stated: on a purchase whose latitude is 100
    the coordinate is defective, yet the output latitude is still 100. *)
Lemma location_pairing_counterexample :
  In (Silver.clean_purchase 0 Sample.latitude_100)
     (Silver.silver_travel_purchases 0 [Sample.latitude_100]) /\
  ~ location_pairing_as_stated 0 Sample.latitude_100.
Proof.
  split; [left; reflexivity|].
  intros [H _].
  assert (D : location_defect (Some (100 # 1)%Q) (Some (0 # 1)%Q)).
  { left. simpl. right. reflexivity. }
  destruct (H D) as [N _]. discriminate N.
Qed.

(** C2, amended. For every bronze purchase row that passes the
    identifier filter, the cleaned row is in the silver table, its
    [_location_invalid] flag is true iff the raw latitude or longitude is
    null or out of range (and false otherwise), and both coordinates are
    passed through unchanged in every case. *)
Theorem location_flag_rule (now : Calendar.timestamp)
    (bronze : list BronzePurchases.row) (b : BronzePurchases.row)
    (Hin : In b bronze) (Hids : Silver.purchase_has_ids b = true) :
  let lat := BronzePurchases.user_latitude b in
  let lon := BronzePurchases.user_longitude b in
  let c := Silver.clean_purchase now b in
  In c (Silver.silver_travel_purchases now bronze) /\
  (SilverPurchases._location_invalid c = Some true <-> location_defect lat lon) /\
  (SilverPurchases._location_invalid c = Some false <->
   ~ location_defect lat lon) /\
  SilverPurchases.user_latitude c = lat /\
  SilverPurchases.user_longitude c = lon.
Proof.
  intros lat lon c. split.
  - unfold Silver.silver_travel_purchases, Silver.cleaned_data. apply in_map.
    apply filter_In. split; assumption.
  - subst c lat lon. unfold location_defect, coordinate_defect. simpl.
    destruct (BronzePurchases.user_latitude b) as [x|];
      destruct (BronzePurchases.user_longitude b) as [y|];
      simpl; unfold lit; try (repeat split; try congruence; tauto).
    case_ltb x (inject_Z (-90)); simpl;
      [repeat split; try congruence; tauto|].
    case_ltb (inject_Z 90) x; simpl;
      [repeat split; try congruence; tauto|].
    case_ltb y (inject_Z (-180)); simpl;
      [repeat split; try congruence; tauto|].
    case_ltb (inject_Z 180) y; simpl;
      [repeat split; try congruence; tauto|].
    assert (N : ~ (((x < inject_Z (-90))%Q \/ (inject_Z 90 < x)%Q) \/
                   ((y < inject_Z (-180))%Q \/ (inject_Z 180 < y)%Q))).
    { intros [[L|L]|[L|L]]; eapply Qlt_not_le; eauto. }
    repeat split; try congruence; tauto.
Qed.

Lemma location_flag_rule_witness :
  SilverPurchases._location_invalid (Silver.clean_purchase 0 Sample.latitude_100)
    = Some true /\
  SilverPurchases.user_latitude (Silver.clean_purchase 0 Sample.latitude_100)
    = Some (100 # 1)%Q.
Proof.
  pose proof (location_flag_rule 0 [Sample.latitude_100] Sample.latitude_100
                (or_introl eq_refl) eq_refl) as H.
  split.
  - apply H. left. simpl. right. reflexivity.
  - apply H.
Defined.

(** ** The identifier filters of the three silver tables *)

Lemma holds_not_null {A} (x : option A) : holds (IS_NOT_NULL x) = present x.
Proof. destruct x; reflexivity. Qed.

Lemma purchase_has_ids_present (b : BronzePurchases.row) :
  Silver.purchase_has_ids b =
  present (BronzePurchases.id b) && present (BronzePurchases.user_id b)
  && present (BronzePurchases.destination_id b).
Proof.
  unfold Silver.purchase_has_ids.
  destruct (BronzePurchases.id b), (BronzePurchases.user_id b),
    (BronzePurchases.destination_id b); reflexivity.
Qed.

Lemma present_true {A} (x : option A) : present x = true <-> x <> None.
Proof. destruct x; simpl; split; congruence. Qed.

(** C9. Every row of each silver table has non-null identifier columns;
    the silver stage drops exactly the bronze purchase rows whose id,
    user id or destination id is null, the user rows whose user id is null
    and the destination rows whose destination id is null, and keeps the
    cleaned image of every other bronze row, in order. *)
Theorem hard_filter (now : Calendar.timestamp)
    (bp : list BronzePurchases.row) (bu : list BronzeUsers.row)
    (bd : list BronzeDestinations.row) :
  (Silver.silver_travel_purchases now bp =
     map (Silver.clean_purchase now)
         (filter (fun b => present (BronzePurchases.id b)
                           && present (BronzePurchases.user_id b)
                           && present (BronzePurchases.destination_id b)) bp)
   /\ (forall c, In c (Silver.silver_travel_purchases now bp) ->
         SilverPurchases.transaction_id c <> None /\
         SilverPurchases.user_id c <> None /\
         SilverPurchases.destination_id c <> None)
   /\ (forall b, In b bp ->
         BronzePurchases.id b <> None ->
         BronzePurchases.user_id b <> None ->
         BronzePurchases.destination_id b <> None ->
         In (Silver.clean_purchase now b) (Silver.silver_travel_purchases now bp))
   /\ (forall b,
         BronzePurchases.id b = None \/ BronzePurchases.user_id b = None \/
         BronzePurchases.destination_id b = None ->
         ~ In (Silver.clean_purchase now b)
              (Silver.silver_travel_purchases now bp)))
  /\
  (Silver.silver_users now bu =
     map (Silver.clean_user now)
         (filter (fun b => present (BronzeUsers.user_id b)) bu)
   /\ (forall c, In c (Silver.silver_users now bu) ->
         SilverUsers.user_id c <> None)
   /\ (forall b, In b bu -> BronzeUsers.user_id b <> None ->
         In (Silver.clean_user now b) (Silver.silver_users now bu))
   /\ (forall b, BronzeUsers.user_id b = None ->
         ~ In (Silver.clean_user now b) (Silver.silver_users now bu)))
  /\
  (Silver.silver_destinations now bd =
     map (Silver.clean_destination now)
         (filter (fun b => present (BronzeDestinations.destination_id b)) bd)
   /\ (forall c, In c (Silver.silver_destinations now bd) ->
         SilverDestinations.destination_id c <> None)
   /\ (forall b, In b bd -> BronzeDestinations.destination_id b <> None ->
         In (Silver.clean_destination now b) (Silver.silver_destinations now bd))
   /\ (forall b, BronzeDestinations.destination_id b = None ->
         ~ In (Silver.clean_destination now b)
              (Silver.silver_destinations now bd))).
Proof.
  assert (P : forall c, In c (Silver.silver_travel_purchases now bp) ->
                SilverPurchases.transaction_id c <> None /\
                SilverPurchases.user_id c <> None /\
                SilverPurchases.destination_id c <> None).
  { intros c Hc.
    unfold Silver.silver_travel_purchases, Silver.cleaned_data in Hc.
    apply in_map_iff in Hc. destruct Hc as (b & <- & Hb).
    apply filter_In in Hb. destruct Hb as [_ Hb].
    rewrite purchase_has_ids_present in Hb.
    apply andb_prop in Hb. destruct Hb as [Hb H3].
    apply andb_prop in Hb. destruct Hb as [H1 H2].
    simpl. repeat split; apply present_true; assumption. }
  assert (U : forall c, In c (Silver.silver_users now bu) ->
                SilverUsers.user_id c <> None).
  { intros c Hc. unfold Silver.silver_users in Hc.
    apply in_map_iff in Hc. destruct Hc as (b & <- & Hb).
    apply filter_In in Hb. destruct Hb as [_ Hb].
    unfold Silver.user_has_id in Hb. rewrite holds_not_null in Hb.
    simpl. apply present_true. assumption. }
  assert (D : forall c, In c (Silver.silver_destinations now bd) ->
                SilverDestinations.destination_id c <> None).
  { intros c Hc. unfold Silver.silver_destinations in Hc.
    apply in_map_iff in Hc. destruct Hc as (b & <- & Hb).
    apply filter_In in Hb. destruct Hb as [_ Hb].
    unfold Silver.destination_has_id in Hb. rewrite holds_not_null in Hb.
    simpl. apply present_true. assumption. }
  split; [|split].
  - split; [|split; [exact P|split]].
    + unfold Silver.silver_travel_purchases, Silver.cleaned_data. f_equal.
      apply filter_ext. exact purchase_has_ids_present.
    + intros b Hb H1 H2 H3.
      unfold Silver.silver_travel_purchases, Silver.cleaned_data.
      apply in_map. apply filter_In. split; [assumption|].
      rewrite purchase_has_ids_present.
      apply present_true in H1, H2, H3. rewrite H1, H2, H3. reflexivity.
    + intros b Hnull Hc. destruct (P _ Hc) as (H1 & H2 & H3).
      simpl in H1, H2, H3. destruct Hnull as [N|[N|N]]; congruence.
  - split; [|split; [exact U|split]].
    + unfold Silver.silver_users. f_equal.
      apply filter_ext. intro b. apply holds_not_null.
    + intros b Hb H1. unfold Silver.silver_users.
      apply in_map. apply filter_In. split; [assumption|].
      unfold Silver.user_has_id. rewrite holds_not_null.
      apply present_true. assumption.
    + intros b Hnull Hc. apply U in Hc. simpl in Hc. congruence.
  - split; [|split; [exact D|split]].
    + unfold Silver.silver_destinations. f_equal.
      apply filter_ext. intro b. apply holds_not_null.
    + intros b Hb H1. unfold Silver.silver_destinations.
      apply in_map. apply filter_In. split; [assumption|].
      unfold Silver.destination_has_id. rewrite holds_not_null.
      apply present_true. assumption.
    + intros b Hnull Hc. apply D in Hc. simpl in Hc. congruence.
Qed.

Lemma hard_filter_witness :
  In (Silver.clean_purchase 0 Sample.valid_price)
     (Silver.silver_travel_purchases 0 [Sample.no_user; Sample.valid_price]) /\
  ~ In (Silver.clean_purchase 0 Sample.no_user)
       (Silver.silver_travel_purchases 0 [Sample.no_user; Sample.valid_price]).
Proof.
  destruct (hard_filter 0 [Sample.no_user; Sample.valid_price] [] [])
    as ((_ & _ & Hkept & Hdropped) & _).
  split.
  - apply Hkept.
    + simpl. right. left. reflexivity.
    + discriminate.
    + discriminate.
    + discriminate.
  - apply Hdropped. right. left. reflexivity.
Defined.


(** ** Silver destinations: the hemisphere label *)

(** C10. A bronze destination with a non-null id and a null latitude is
    kept, its cleaned latitude is null and its hemisphere label is
    'Southern'; every row of the silver destinations table carries a
    non-null hemisphere label. *)
Theorem hemisphere_of_null_latitude (now : Calendar.timestamp)
    (bronze : list BronzeDestinations.row) :
  (forall b, In b bronze ->
     BronzeDestinations.destination_id b <> None ->
     BronzeDestinations.dest_latitude b = None ->
     let c := Silver.clean_destination now b in
     In c (Silver.silver_destinations now bronze) /\
     SilverDestinations.latitude c = None /\
     SilverDestinations.hemisphere c = Some "Southern"%string) /\
  (forall c, In c (Silver.silver_destinations now bronze) ->
     SilverDestinations.hemisphere c = Some "Northern"%string \/
     SilverDestinations.hemisphere c = Some "Southern"%string).
Proof.
  split.
  - intros b Hb Hid Hlat c. subst c. split; [|split].
    + unfold Silver.silver_destinations. apply in_map. apply filter_In.
      split; [assumption|]. unfold Silver.destination_has_id.
      rewrite holds_not_null. apply present_true. assumption.
    + simpl. rewrite Hlat. reflexivity.
    + simpl. rewrite Hlat. reflexivity.
  - intros c Hc. unfold Silver.silver_destinations in Hc.
    apply in_map_iff in Hc. destruct Hc as (b & <- & _). simpl.
    destruct (BronzeDestinations.dest_latitude b) as [x|]; simpl.
    + destruct (Qle_bool (inject_Z 0) x); simpl; auto.
    + auto.
Qed.

Lemma hemisphere_of_null_latitude_witness :
  SilverDestinations.hemisphere (Silver.clean_destination 0 Sample.no_latitude)
  = Some "Southern"%string.
Proof.
  destruct (hemisphere_of_null_latitude 0 [Sample.no_latitude]) as (H & _).
  apply (H Sample.no_latitude).
  - left. reflexivity.
  - discriminate.
  - reflexivity.
Defined.


Example hemisphere_sample :
  map (fun c => (SilverDestinations.destination_name c,
                 SilverDestinations.latitude c,
                 SilverDestinations.hemisphere c))
      (Silver.silver_destinations 0 [Sample.no_latitude])
  = [(Some "New York", None, Some "Southern")]%string.
Proof. reflexivity. Qed.

(** ** The three threshold classifiers *)

Lemma ge_Q_of_eq (t : Z) (q : Q) :
  (q == inject_Z t)%Q -> GE (Some q) (num t) = Some true.
Proof.
  intro H. unfold GE, num, cmp. f_equal. apply leb_Q_true.
  rewrite H. apply Qle_refl.
Qed.

Lemma ge_Q_of_lt (t : Z) (q : Q) :
  (q < inject_Z t)%Q -> GE (Some q) (num t) = Some false.
Proof.
  intro H. unfold GE, num, cmp. f_equal. apply leb_Q_false. exact H.
Qed.

Lemma inject_Z_lt (a b : Z) : a < b -> (inject_Z a < inject_Z b)%Q.
Proof. intro H. rewrite <- Zlt_Qlt. exact H. Qed.

Lemma frequency_segment_boundaries (now : Calendar.timestamp)
    (b : BronzeUsers.row) :
  let c := Silver.clean_user now b in
  (SilverUsers.purchases_6month c = Some 10 ->
   SilverUsers.purchase_frequency_segment c = Some "high_frequency"%string) /\
  (SilverUsers.purchases_6month c = Some 3 ->
   SilverUsers.purchase_frequency_segment c = Some "medium_frequency"%string) /\
  (forall n, SilverUsers.purchases_6month c = Some n -> n < 3 ->
   SilverUsers.purchase_frequency_segment c = Some "low_frequency"%string).
Proof.
  simpl. destruct (BronzeUsers.last_6m_purchases b) as [n|]; simpl.
  - repeat split.
    + intros [= ->]. reflexivity.
    + intros [= ->]. reflexivity.
    + intros m [= ->] Hm. unfold GE, cmp, int. simpl.
      destruct (Z.leb_spec 10 m); [lia|]. simpl.
      destruct (Z.leb_spec 3 m); [lia|]. reflexivity.
  - repeat split; discriminate.
Qed.

Lemma price_segment_boundaries (now : Calendar.timestamp)
    (b : BronzeUsers.row) :
  let c := Silver.clean_user now b in
  (forall q, BronzeUsers.mean_price_7d b = Some q -> (q == inject_Z 500)%Q ->
   SilverUsers.price_segment c = Some "premium"%string) /\
  (forall q, BronzeUsers.mean_price_7d b = Some q -> (q == inject_Z 200)%Q ->
   SilverUsers.price_segment c = Some "standard"%string) /\
  (forall q, BronzeUsers.mean_price_7d b = Some q -> (q < inject_Z 200)%Q ->
   SilverUsers.price_segment c = Some "budget"%string).
Proof.
  intro c. subst c. unfold Silver.clean_user.
  cbn [SilverUsers.price_segment].
  repeat split; intros q Hq H; rewrite Hq.
  - rewrite (ge_Q_of_eq 500 q H). reflexivity.
  - rewrite (ge_Q_of_lt 500 q).
    + rewrite (ge_Q_of_eq 200 q H). reflexivity.
    + rewrite H. apply inject_Z_lt. lia.
  - rewrite (ge_Q_of_lt 500 q).
    + rewrite (ge_Q_of_lt 200 q H). reflexivity.
    + eapply Qlt_trans; [exact H|]. apply inject_Z_lt. lia.
Qed.

Lemma customer_tier_boundaries (g : list Gold.user_joined) :
  (forall q, Gold.user_spend g = Some q -> (q == inject_Z 5000)%Q ->
   Gold.customer_tier g = Some "platinum"%string) /\
  (forall q, Gold.user_spend g = Some q -> (q == inject_Z 2000)%Q ->
   Gold.customer_tier g = Some "gold"%string) /\
  (forall q, Gold.user_spend g = Some q -> (q == inject_Z 500)%Q ->
   Gold.customer_tier g = Some "silver"%string) /\
  (forall q, Gold.user_spend g = Some q -> (q < inject_Z 500)%Q ->
   Gold.customer_tier g = Some "bronze"%string).
Proof.
  unfold Gold.customer_tier.
  repeat split; intros q Hq H; rewrite Hq.
  - rewrite (ge_Q_of_eq 5000 q H). reflexivity.
  - rewrite (ge_Q_of_lt 5000 q) by (rewrite H; apply inject_Z_lt; lia).
    rewrite (ge_Q_of_eq 2000 q H). reflexivity.
  - rewrite (ge_Q_of_lt 5000 q) by (rewrite H; apply inject_Z_lt; lia).
    rewrite (ge_Q_of_lt 2000 q) by (rewrite H; apply inject_Z_lt; lia).
    rewrite (ge_Q_of_eq 500 q H). reflexivity.
  - assert (L2 : (q < inject_Z 2000)%Q).
    { eapply Qlt_trans; [exact H|]. apply inject_Z_lt. lia. }
    assert (L5 : (q < inject_Z 5000)%Q).
    { eapply Qlt_trans; [exact H|]. apply inject_Z_lt. lia. }
    rewrite (ge_Q_of_lt 5000 q L5), (ge_Q_of_lt 2000 q L2),
      (ge_Q_of_lt 500 q H). reflexivity.
Qed.

Lemma Qle_bool_inject_Z (a b : Z) :
  Qle_bool (inject_Z a) (inject_Z b) = (a <=? b).
Proof. unfold Qle_bool, inject_Z. simpl. rewrite !Z.mul_1_r. reflexivity. Qed.

(** The three CASE chains are the one classifier of the specification at
    three parameterizations; a NULL metric gets the default label. *)
Lemma classifiers_are_threshold_classifier (now : Calendar.timestamp)
    (b : BronzeUsers.row) (g : list Gold.user_joined) :
  let c := Silver.clean_user now b in
  SilverUsers.purchase_frequency_segment c
  = Some (match BronzeUsers.last_6m_purchases b with
          | Some n =>
              threshold_classifier
                [(10, "high_frequency"); (3, "medium_frequency")]
                "low_frequency" (inject_Z n)
          | None => "low_frequency"
          end)%string /\
  SilverUsers.price_segment c
  = Some (match BronzeUsers.mean_price_7d b with
          | Some q =>
              threshold_classifier [(500, "premium"); (200, "standard")]
                                   "budget" q
          | None => "budget"
          end)%string /\
  Gold.customer_tier g
  = Some (match Gold.user_spend g with
          | Some q =>
              threshold_classifier
                [(5000, "platinum"); (2000, "gold"); (500, "silver")]
                "bronze" q
          | None => "bronze"
          end)%string.
Proof.
  simpl. unfold Gold.customer_tier. split; [|split].
  - destruct (BronzeUsers.last_6m_purchases b) as [n|]; simpl; [|reflexivity].
    rewrite !Qle_bool_inject_Z.
    destruct (10 <=? n); simpl; [reflexivity|].
    destruct (3 <=? n); reflexivity.
  - destruct (BronzeUsers.mean_price_7d b) as [q|]; simpl; [|reflexivity].
    destruct (Qle_bool (inject_Z 500) q); simpl; [reflexivity|].
    destruct (Qle_bool (inject_Z 200) q); reflexivity.
  - destruct (Gold.user_spend g) as [q|]; simpl; [|reflexivity].
    destruct (Qle_bool (inject_Z 5000) q); simpl; [reflexivity|].
    destruct (Qle_bool (inject_Z 2000) q); simpl; [reflexivity|].
    destruct (Qle_bool (inject_Z 500) q); reflexivity.
Qed.

(** C3. The three classifiers are inclusive at their thresholds and fall
    back to the default label below the lowest one: 6-month purchases
    10 -> high_frequency, 3 -> medium_frequency, below 3 -> low_frequency;
    7-day mean price 500 -> premium, 200 -> standard, below 200 -> budget;
    summed purchased spend 5000 -> platinum, 2000 -> gold, 500 -> silver,
    below 500 -> bronze. *)
Theorem threshold_boundaries (now : Calendar.timestamp)
    (b : BronzeUsers.row) (g : list Gold.user_joined) :
  let c := Silver.clean_user now b in
  ((SilverUsers.purchases_6month c = Some 10 ->
    SilverUsers.purchase_frequency_segment c = Some "high_frequency"%string) /\
   (SilverUsers.purchases_6month c = Some 3 ->
    SilverUsers.purchase_frequency_segment c = Some "medium_frequency"%string) /\
   (forall n, SilverUsers.purchases_6month c = Some n -> n < 3 ->
    SilverUsers.purchase_frequency_segment c = Some "low_frequency"%string))
  /\
  ((forall q, BronzeUsers.mean_price_7d b = Some q -> (q == inject_Z 500)%Q ->
    SilverUsers.price_segment c = Some "premium"%string) /\
   (forall q, BronzeUsers.mean_price_7d b = Some q -> (q == inject_Z 200)%Q ->
    SilverUsers.price_segment c = Some "standard"%string) /\
   (forall q, BronzeUsers.mean_price_7d b = Some q -> (q < inject_Z 200)%Q ->
    SilverUsers.price_segment c = Some "budget"%string))
  /\
  ((forall q, Gold.user_spend g = Some q -> (q == inject_Z 5000)%Q ->
    Gold.customer_tier g = Some "platinum"%string) /\
   (forall q, Gold.user_spend g = Some q -> (q == inject_Z 2000)%Q ->
    Gold.customer_tier g = Some "gold"%string) /\
   (forall q, Gold.user_spend g = Some q -> (q == inject_Z 500)%Q ->
    Gold.customer_tier g = Some "silver"%string) /\
   (forall q, Gold.user_spend g = Some q -> (q < inject_Z 500)%Q ->
    Gold.customer_tier g = Some "bronze"%string)).
Proof.
  intro c. split; [|split].
  - apply frequency_segment_boundaries.
  - apply price_segment_boundaries.
  - apply customer_tier_boundaries.
Qed.

Lemma threshold_boundaries_witness :
  SilverUsers.purchase_frequency_segment
    (Silver.clean_user 0 (Sample.user (Some 7) (Some (500 # 1)%Q) (Some 10)))
    = Some "high_frequency"%string /\
  Gold.customer_tier Sample.spend_5000 = Some "platinum"%string.
Proof.
  destruct (threshold_boundaries 0
              (Sample.user (Some 7) (Some (500 # 1)%Q) (Some 10))
              Sample.spend_5000) as ((H1 & _) & _ & (H3 & _)).
  split.
  - apply H1. reflexivity.
  - eapply H3; [vm_compute; reflexivity | vm_compute; reflexivity].
Defined.

(** The price segment is taken from the raw 7-day mean, not from the
    rounded [avg_price_7day] column: a mean of 499.996 is stored as 500.00
    and still classified 'standard'. *)
Example price_segment_reads_raw_mean :
  map (fun u => (SilverUsers.avg_price_7day u, SilverUsers.price_segment u))
      (Silver.silver_users 0
         [Sample.user (Some 7) (Some (499996 # 1000)%Q) (Some 1)])
  = [(Some (50000 # 100)%Q, Some "standard"%string)].
Proof. reflexivity. Qed.

(** ** Lists of computations that may raise, and sorted lists *)

Lemma Ok_inj {E A} (a b : A) : @Ok E A a = Ok b -> a = b.
Proof. congruence. Qed.

Lemma mapM_Forall2 {E A B} (f : A -> result E B) (l : list A) (out : list B) :
  mapM f l = Ok out -> Forall2 (fun a b => f a = Ok b) l out.
Proof.
  revert out. induction l as [|a l IH]; intros out H; simpl in H.
  - injection H as <-. constructor.
  - destruct (f a) as [b|e] eqn:Fa; simpl in H; [|discriminate].
    destruct (mapM f l) as [bs|e] eqn:Fl; simpl in H; [|discriminate].
    injection H as <-. constructor; [assumption|]. apply IH. reflexivity.
Qed.

Lemma mapM_total {E A B} (f : A -> result E B) (l : list A) :
  (forall a, In a l -> exists b, f a = Ok b) -> exists out, mapM f l = Ok out.
Proof.
  induction l as [|a l IH]; intro H; simpl.
  - eexists. reflexivity.
  - destruct (H a (or_introl eq_refl)) as [b Hb]. rewrite Hb. simpl.
    destruct IH as [bs Hbs]; [intros x Hx; apply H; right; exact Hx|].
    rewrite Hbs. simpl. eexists. reflexivity.
Qed.

Lemma Forall2_In_right {A B} (R : A -> B -> Prop) (l : list A) (out : list B) :
  Forall2 R l out -> forall b, In b out -> exists a, In a l /\ R a b.
Proof.
  induction 1 as [|a b l out Hab _ IH]; intros y Hy; simpl in Hy.
  - contradiction.
  - destruct Hy as [<-|Hy].
    + exists a. split; [left; reflexivity|assumption].
    + destruct (IH y Hy) as (x & Hx & Hxy). exists x. split; [right|]; assumption.
Qed.

Section OrderByFacts.
Context {A : Type} (le : A -> A -> bool).

Lemma insert_sorted_In (a x : A) (l : list A) :
  In x (Relational.insert_sorted le a l) <-> x = a \/ In x l.
Proof.
  induction l as [|b l IH]; simpl.
  - intuition congruence.
  - destruct (le a b); simpl; rewrite ?IH; intuition congruence.
Qed.

Lemma order_by_In (x : A) (l : list A) :
  In x (Relational.order_by le l) <-> In x l.
Proof.
  induction l as [|a l IH]; simpl.
  - tauto.
  - rewrite insert_sorted_In, IH. intuition congruence.
Qed.

End OrderByFacts.

(** ** The ratio metrics of the gold tables *)

Lemma rate_pct_zero_denominator (n : option Z) :
  Gold.rate_pct n (Some 0) = Ok None.
Proof. unfold Gold.rate_pct. destruct n; reflexivity. Qed.

Lemma rate_pct_null_denominator (n : option Z) :
  Gold.rate_pct n None = Ok None.
Proof. unfold Gold.rate_pct. destruct n; reflexivity. Qed.

Lemma Qeq_bool_inject_Z_0 (z : Z) : z <> 0 -> Qeq_bool (inject_Z z) 0 = false.
Proof.
  intro H. destruct (Qeq_bool (inject_Z z) 0) eqn:E; [|reflexivity].
  apply Qeq_bool_iff in E. unfold Qeq in E. simpl in E. lia.
Qed.

(** A rate never raises: its divisor is never zero. *)
Lemma rate_pct_total (n d : option Z) : exists v, Gold.rate_pct n d = Ok v.
Proof.
  destruct d as [d|]; [|eexists; apply rate_pct_null_denominator].
  destruct (Z.eq_dec d 0) as [->|Hd];
    [eexists; apply rate_pct_zero_denominator|].
  unfold Gold.rate_pct, NULLIF.
  destruct (Z.eqb_spec d 0) as [|_]; [contradiction|].
  destruct n as [n|]; simpl.
  - rewrite (Qeq_bool_inject_Z_0 d Hd). simpl. eexists. reflexivity.
  - eexists. reflexivity.
Qed.

Lemma daily_row_columns (now : Calendar.timestamp) (k : Gold.daily_key)
    (g : list SilverPurchases.row) :
  exists r, Gold.daily_row now k g = Ok r /\
    GoldDaily.total_transactions r = Some (COUNT_star g) /\
    GoldDaily.total_clicks r = Gold.daily_total_clicks g /\
    Gold.daily_conversion_rate_pct g = Ok (GoldDaily.conversion_rate_pct r) /\
    Gold.daily_click_to_purchase_rate_pct g =
      Ok (GoldDaily.click_to_purchase_rate_pct r).
Proof.
  destruct k as [[[d y] m] dt]. unfold Gold.daily_row.
  destruct (rate_pct_total (Gold.daily_total_purchases g) (Some (COUNT_star g)))
    as [v Hv].
  destruct (rate_pct_total (Gold.daily_total_purchases g)
                           (Gold.daily_total_clicks g)) as [w Hw].
  unfold Gold.daily_conversion_rate_pct, Gold.daily_click_to_purchase_rate_pct.
  rewrite Hv, Hw. simpl. eexists. split; [reflexivity|]. simpl. auto.
Qed.

Lemma destination_row_columns (now : Calendar.timestamp)
    (bookings : list (option Z)) (revenues : list (option Q))
    (k : Gold.dest_key) (g : list Gold.dest_joined) :
  exists r, Gold.destination_row now bookings revenues k g = Ok r /\
    GoldDestinations.total_views r = Some (COUNT_star g) /\
    GoldDestinations.total_clicks r = Gold.dest_total_clicks g /\
    Gold.dest_click_rate_pct g = Ok (GoldDestinations.click_rate_pct r) /\
    Gold.dest_booking_rate_pct g = Ok (GoldDestinations.booking_rate_pct r).
Proof.
  destruct k as [[[[i n] la] lo] h]. unfold Gold.destination_row.
  destruct (rate_pct_total (Gold.dest_total_clicks g) (Some (COUNT_star g)))
    as [v Hv].
  destruct (rate_pct_total (Gold.dest_total_bookings g)
                           (Gold.dest_total_clicks g)) as [w Hw].
  unfold Gold.dest_click_rate_pct, Gold.dest_booking_rate_pct.
  rewrite Hv, Hw. simpl. eexists. split; [reflexivity|]. simpl. auto.
Qed.

(** C4. The two gold tables with ratio metrics are always produced (no
    division error), and in every row a ratio whose denominator column is
    zero is null: conversion rate and click rate over the row count,
    click-to-purchase rate and booking rate over the click count. *)
Theorem ratio_null_on_zero_denominator (now : Calendar.timestamp)
    (destinations : list SilverDestinations.row)
    (purchases : list SilverPurchases.row) :
  (exists daily, Gold.gold_daily_revenue_metrics now purchases = Ok daily /\
     forall r, In r daily ->
       (GoldDaily.total_transactions r = Some 0 ->
        GoldDaily.conversion_rate_pct r = None) /\
       (GoldDaily.total_clicks r = Some 0 ->
        GoldDaily.click_to_purchase_rate_pct r = None)) /\
  (exists perf,
     Gold.gold_destination_performance now destinations purchases = Ok perf /\
     forall r, In r perf ->
       (GoldDestinations.total_views r = Some 0 ->
        GoldDestinations.click_rate_pct r = None) /\
       (GoldDestinations.total_clicks r = Some 0 ->
        GoldDestinations.booking_rate_pct r = None)).
Proof.
  split.
  - unfold Gold.gold_daily_revenue_metrics.
    destruct (mapM_total (fun kg => Gold.daily_row now (fst kg) (snd kg))
                (Relational.group_by Gold.same_daily_key Gold.daily_key_of
                                     purchases)) as [rows Hrows].
    { intros kg _. destruct (daily_row_columns now (fst kg) (snd kg))
        as (r & Hr & _). exists r. exact Hr. }
    rewrite Hrows. simpl. eexists. split; [reflexivity|].
    intros r Hr. apply order_by_In in Hr.
    destruct (Forall2_In_right _ _ _ (mapM_Forall2 _ _ _ Hrows) r Hr)
      as (kg & _ & Hkg).
    destruct (daily_row_columns now (fst kg) (snd kg))
      as (r' & Hr' & Ht & Hc & Hconv & Hc2p).
    rewrite Hkg in Hr'. injection Hr' as <-. split.
    + intro Z0. rewrite Ht in Z0.
      unfold Gold.daily_conversion_rate_pct in Hconv. rewrite Z0 in Hconv.
      rewrite rate_pct_zero_denominator in Hconv. congruence.
    + intro Z0. rewrite Hc in Z0.
      unfold Gold.daily_click_to_purchase_rate_pct in Hc2p. rewrite Z0 in Hc2p.
      rewrite rate_pct_zero_denominator in Hc2p. congruence.
  - unfold Gold.gold_destination_performance.
    set (groups := Relational.group_by _ _ _).
    set (bookings := map _ groups). set (revenues := map _ groups).
    destruct (mapM_total
                (fun kg => Gold.destination_row now bookings revenues
                             (fst kg) (snd kg)) groups) as [rows Hrows].
    { intros kg _.
      destruct (destination_row_columns now bookings revenues (fst kg) (snd kg))
        as (r & Hr & _). exists r. exact Hr. }
    rewrite Hrows. simpl. eexists. split; [reflexivity|].
    intros r Hr. apply order_by_In in Hr.
    destruct (Forall2_In_right _ _ _ (mapM_Forall2 _ _ _ Hrows) r Hr)
      as (kg & _ & Hkg).
    destruct (destination_row_columns now bookings revenues (fst kg) (snd kg))
      as (r' & Hr' & Ht & Hc & Hclick & Hbook).
    rewrite Hkg in Hr'. injection Hr' as <-. split.
    + intro Z0. rewrite Ht in Z0.
      unfold Gold.dest_click_rate_pct in Hclick. rewrite Z0 in Hclick.
      rewrite rate_pct_zero_denominator in Hclick. congruence.
    + intro Z0. rewrite Hc in Z0.
      unfold Gold.dest_booking_rate_pct in Hbook. rewrite Z0 in Hbook.
      rewrite rate_pct_zero_denominator in Hbook. congruence.
Qed.

Lemma ratio_null_on_zero_denominator_witness :
  exists perf r,
    Gold.gold_destination_performance 0 Sample.destinations Sample.four_months
    = Ok perf /\
    In r perf /\
    GoldDestinations.total_clicks r = Some 0 /\
    GoldDestinations.booking_rate_pct r = None.
Proof.
  destruct (ratio_null_on_zero_denominator 0 Sample.destinations
              Sample.four_months) as (_ & perf & Hperf & H).
  assert (Hin : exists r, In r perf /\ GoldDestinations.total_clicks r = Some 0).
  { pose proof Hperf as E. vm_compute in E. apply Ok_inj in E. subst perf.
    eexists. split; [right; left; reflexivity|reflexivity]. }
  destruct Hin as (r & Hr & Hz).
  exists perf, r. split; [exact Hperf|]. split; [exact Hr|].
  split; [exact Hz|]. apply (H r Hr). exact Hz.
Defined.


Example views_only_daily_rates :
  Gold.gold_daily_revenue_metrics 0 Sample.views_only
  = Ok [ {| GoldDaily.report_date := Some 19791;
            GoldDaily.transaction_year := Some 2024;
            GoldDaily.transaction_month := Some 3;
            GoldDaily.day_type := Some "weekend"%string;
            GoldDaily.total_transactions := Some 1;
            GoldDaily.total_clicks := Some 0;
            GoldDaily.total_purchases := Some 0;
            GoldDaily.conversion_rate_pct := Some (0 # 100)%Q;
            GoldDaily.click_to_purchase_rate_pct := None;
            GoldDaily.total_revenue_usd := Some (0 # 100)%Q;
            GoldDaily.avg_transaction_value_usd := None;
            GoldDaily.min_transaction_usd := None;
            GoldDaily.max_transaction_usd := None;
            GoldDaily.unique_users := Some 1;
            GoldDaily.unique_destinations := Some 1;
            GoldDaily._generated_at := Some 0 |} ].
Proof. vm_compute. reflexivity. Qed.

(** ** The audit: overall outcome *)

Import DataQuality.

Lemma severity_eqb_eq (a b : severity) : severity_eqb a b = true <-> a = b.
Proof. destruct a, b; simpl; split; congruence. Qed.

Lemma count_status_positive (s : severity) (rs : list dq_result) :
  (count_status s rs >? 0) = true <-> exists r, In r rs /\ status r = s.
Proof.
  unfold count_status. rewrite Z.gtb_lt.
  induction rs as [|r rs IH]; simpl.
  - split; [lia|]. intros (r & [] & _).
  - destruct (severity_eqb (status r) s) eqn:E; simpl.
    + apply severity_eqb_eq in E. split; [|lia].
      intros _. exists r. split; [left; reflexivity|exact E].
    + rewrite IH. split.
      * intros (x & Hx & Hs). exists x. split; [right|]; assumption.
      * intros (x & [<-|Hx] & Hs).
        -- apply severity_eqb_eq in Hs. congruence.
        -- exists x. split; assumption.
Qed.

Lemma summary_outcome (rs : list dq_result) :
  audit_log_of (summary rs) = Some rs /\
  (overall_fail (summary rs) <-> exists r, In r rs /\ status r = FAIL) /\
  ((forall r, In r rs -> status r = PASS \/ status r = WARN) ->
   summary rs = Passed rs).
Proof.
  unfold summary.
  pose proof (count_status_positive FAIL rs) as P.
  destruct (count_status FAIL rs >? 0) eqn:E; simpl.
  - split; [reflexivity|]. split.
    + split; [intros _; apply P; reflexivity|trivial].
    + intro H. destruct P as [P _]. destruct (P eq_refl) as (r & Hr & Hs).
      destruct (H r Hr); congruence.
  - split; [reflexivity|]. split; [|reflexivity].
    split; [contradiction|]. intro H. apply P in H. discriminate H.
Qed.

(** C5. When the checklist has run to its end with results [rs], the
    audit log is written with exactly [rs], the run ends in the final
    exception iff some result of [rs] has status FAIL, and a run whose
    results are all PASS or WARN ends normally. *)
Theorem overall_outcome (session : spark) (rs : list dq_result)
    (Hrun : run_checks session = Ok rs) :
  audit_log_of (notebook session) = Some rs /\
  (overall_fail (notebook session) <-> exists r, In r rs /\ status r = FAIL) /\
  ((forall r, In r rs -> status r = PASS \/ status r = WARN) ->
   notebook session = Passed rs).
Proof. unfold notebook. rewrite Hrun. apply summary_outcome. Qed.

Lemma overall_outcome_witness :
  (exists rs, notebook Sample.stale_with_orphans = Passed rs /\
              exists r, In r rs /\ status r = WARN) /\
  overall_fail (notebook Sample.bronze_destinations_dropped).
Proof.
  split.
  - destruct (overall_outcome Sample.stale_with_orphans _ eq_refl)
      as (_ & _ & Hpass).
    eexists. split.
    + apply Hpass. intros r Hr. simpl in Hr.
      repeat (destruct Hr as [<-|Hr]; [simpl; auto|]). contradiction.
    + eexists. split; [do 10 right; left; reflexivity|reflexivity].
  - destruct (overall_outcome Sample.bronze_destinations_dropped _ eq_refl)
      as (_ & Hfail & _).
    apply Hfail. eexists. split; [do 2 right; left; reflexivity|reflexivity].
Defined.

(** ** The audit: which checks are fail-soft *)

(** C6. Two sessions the audit can meet, at which a check that raises is
    not recorded as FAIL.  With [silver_users] missing the orphan-user
    query raises outside any try block: the run ends there, no audit log is
    written and the checks after it do not run; the record-count check on
    the same table did catch the same error.  With
    [bronze_travel_purchases] missing the freshness query raises inside
    its try block: the run goes on to its end, but the except branch only
    prints, so the audit log holds 16 rows and none of them is for that
    check, while the record-count check on the same table is there with
    status FAIL. *)
Theorem fail_soft_failing_inputs :
  (In OrphanUsers checklist /\
   evaluation_error Sample.silver_users_dropped OrphanUsers
     = Some "TABLE_OR_VIEW_NOT_FOUND: silver_users"%string /\
   evaluation_error Sample.silver_users_dropped
                    (RecordCount "silver_users" "silver")
     = Some "TABLE_OR_VIEW_NOT_FOUND: silver_users"%string /\
   notebook Sample.silver_users_dropped
     = Crashed "TABLE_OR_VIEW_NOT_FOUND: silver_users"%string /\
   audit_log_of (notebook Sample.silver_users_dropped) = None /\
   ~ fail_soft_as_stated Sample.silver_users_dropped OrphanUsers) /\
  (let c := Freshness "bronze_travel_purchases" "_ingested_at" in
   In c checklist /\
   evaluation_error Sample.bronze_purchases_dropped c
     = Some "TABLE_OR_VIEW_NOT_FOUND: bronze_travel_purchases"%string /\
   (exists rs,
      run_checks Sample.bronze_purchases_dropped = Ok rs /\
      audit_log_of (notebook Sample.bronze_purchases_dropped) = Some rs /\
      length rs = 16%nat /\
      (forall s, ~ recorded c s rs) /\
      recorded (RecordCount "bronze_travel_purchases" "bronze") FAIL rs) /\
   ~ fail_soft_as_stated Sample.bronze_purchases_dropped c).
Proof.
  split.
  - split; [simpl; do 10 right; left; reflexivity|].
    repeat (split; [reflexivity|]).
    intro H. destruct (H _ eq_refl) as (rs & Hrs & _). discriminate Hrs.
  - assert (Hnone : forall s rs,
              run_checks Sample.bronze_purchases_dropped = Ok rs ->
              ~ recorded (Freshness "bronze_travel_purchases" "_ingested_at")
                         s rs).
    { intros s rs Hrs (r & Hr & Hkey & _).
      vm_compute in Hrs. apply Ok_inj in Hrs. subst rs. simpl in Hr.
      repeat (destruct Hr as [<-|Hr]; [discriminate Hkey|]). contradiction. }
    split; [simpl; do 12 right; left; reflexivity|].
    split; [reflexivity|]. split.
    + eexists. split; [reflexivity|]. split; [reflexivity|].
      split; [reflexivity|]. split; [intro s; apply Hnone; reflexivity|].
      eexists. split; [left; reflexivity|]. split; reflexivity.
    + intro H. destruct (H _ eq_refl) as (rs & Hrs & Hrec).
      exact (Hnone FAIL rs Hrs Hrec).
Qed.

Example silver_users_dropped_crashes :
  notebook Sample.silver_users_dropped
  = Crashed "TABLE_OR_VIEW_NOT_FOUND: silver_users"%string.
Proof. reflexivity. Qed.

(** A freshness query that raises ends neither the loop nor the run, but
    nothing is recorded for that check: the except branch only prints. *)
Example freshness_error_not_recorded :
  let c := Freshness "gold_daily_revenue_metrics" "_generated_at" in
  In c checklist /\
  evaluation_error Sample.freshness_unreadable c
    = Some "UNRESOLVED_COLUMN: _generated_at"%string /\
  exists rs, notebook Sample.freshness_unreadable = Passed rs /\
             length rs = 16%nat /\
             forall s, ~ recorded c s rs.
Proof.
  split; [|split].
  - simpl. do 14 right. left. reflexivity.
  - reflexivity.
  - eexists. split; [reflexivity|]. split; [reflexivity|].
    intros s (r & Hr & Hkey & _). simpl in Hr.
    repeat (destruct Hr as [<-|Hr]; [discriminate Hkey|]). contradiction.
Qed.

Lemma run_checks_ok (session : spark) (ou od np ic : Z) :
  orphan_users_query session = Ok ou ->
  orphan_dests_query session = Ok od ->
  neg_prices_query session = Ok np ->
  invalid_conv_query session = Ok ic ->
  run_checks session =
  Ok ((((((flat_map (record_count_check session) tables)
          ++ [orphan_check "silver_travel_purchases -> silver_users" ou])
         ++ [orphan_check "silver_travel_purchases -> silver_destinations" od])
        ++ flat_map (freshness_check session) freshness_tables)
       ++ [business_rule_check "silver_travel_purchases" "silver"
                               "0 negative prices" np])
      ++ [business_rule_check "gold_daily_revenue_metrics" "gold"
                              "0 invalid rates" ic]).
Proof.
  intros Hou Hod Hnp Hic. unfold run_checks.
  rewrite Hou, Hod, Hnp, Hic. reflexivity.
Qed.

Lemma run_checks_completes_iff (session : spark) :
  (exists rs, run_checks session = Ok rs) <->
  (forall c, In c unguarded -> evaluation_error session c = None).
Proof.
  split.
  - intros (rs & Hrs) c Hc. unfold run_checks in Hrs.
    destruct (orphan_users_query session) eqn:Hou; [|discriminate Hrs].
    destruct (orphan_dests_query session) eqn:Hod; [|discriminate Hrs].
    destruct (neg_prices_query session) eqn:Hnp; [|discriminate Hrs].
    destruct (invalid_conv_query session) eqn:Hic; [|discriminate Hrs].
    simpl in Hc. destruct Hc as [<-|[<-|[<-|[<-|[]]]]]; simpl;
      rewrite ?Hou, ?Hod, ?Hnp, ?Hic; reflexivity.
  - intro H.
    pose proof (H OrphanUsers (or_introl eq_refl)) as Hou.
    pose proof (H OrphanDests (or_intror (or_introl eq_refl))) as Hod.
    pose proof (H NegativePrices
                  (or_intror (or_intror (or_introl eq_refl)))) as Hnp.
    pose proof (H InvalidConversion
                  (or_intror (or_intror (or_intror (or_introl eq_refl))))) as Hic.
    simpl in Hou, Hod, Hnp, Hic.
    destruct (orphan_users_query session) as [ou|] eqn:Eou; [|discriminate Hou].
    destruct (orphan_dests_query session) as [od|] eqn:Eod; [|discriminate Hod].
    destruct (neg_prices_query session) as [np|] eqn:Enp; [|discriminate Hnp].
    destruct (invalid_conv_query session) as [ic|] eqn:Eic; [|discriminate Hic].
    eexists. apply (run_checks_ok session ou od np ic); assumption.
Qed.

Lemma record_count_recorded (session : spark) (t l : string) :
  In (t, l) tables ->
  exists r, In r (flat_map (record_count_check session) tables) /\
            check r = "record_count"%string /\ table r = t /\ layer r = l /\
            (forall e, table_count session t = Err e ->
                       actual r = Message e /\ status r = FAIL).
Proof.
  intro Hin.
  destruct (table_count session t) as [n|e] eqn:E.
  - eexists. split.
    + apply in_flat_map. exists (t, l). split; [exact Hin|].
      simpl. rewrite E. left. reflexivity.
    + simpl. repeat split; congruence.
  - eexists. split.
    + apply in_flat_map. exists (t, l). split; [exact Hin|].
      simpl. rewrite E. left. reflexivity.
    + simpl. repeat split; congruence.
Qed.

Lemma freshness_recorded (session : spark) (t c : string) :
  In (t, c) freshness_tables ->
  evaluation_error session (Freshness t c) = None ->
  exists r, In r (flat_map (freshness_check session) freshness_tables) /\
            check r = "data_freshness"%string /\ table r = t.
Proof.
  intros Hin Hok. simpl in Hok.
  destruct (max_ts_query session t c) as [m|e] eqn:E; [|discriminate Hok].
  eexists. split.
  - apply in_flat_map. exists (t, c). split; [exact Hin|].
    simpl. rewrite E. left. reflexivity.
  - simpl. split; reflexivity.
Qed.

(** X19. The checklist runs to its end exactly when none of the four
    queries outside a try block (the two referential-integrity and the two
    business-rule queries) raises, whatever the record-count and freshness
    queries do.  When it runs to its end, every record-count check whose
    query raised is in the results with the error text and status FAIL,
    and every check of the checklist has a result, except a freshness
    check whose query raised. *)
Theorem fail_soft_guarded_checks (session : spark) :
  ((exists rs, run_checks session = Ok rs) <->
   (forall c, In c unguarded -> evaluation_error session c = None)) /\
  (forall rs, run_checks session = Ok rs ->
     (forall t l e, In (t, l) tables -> table_count session t = Err e ->
        In {| check := "record_count";
              table := t;
              layer := l;
              expected := "> 0";
              actual := Message e;
              status := FAIL |} rs) /\
     (forall c, In c checklist ->
        (is_freshness c = true -> evaluation_error session c = None) ->
        exists s, recorded c s rs)).
Proof.
  split; [apply run_checks_completes_iff|].
  intros rs Hrs.
  assert (Hun : forall c, In c unguarded -> evaluation_error session c = None).
  { apply run_checks_completes_iff. exists rs. exact Hrs. }
  pose proof (Hun OrphanUsers (or_introl eq_refl)) as Hou.
  pose proof (Hun OrphanDests (or_intror (or_introl eq_refl))) as Hod.
  pose proof (Hun NegativePrices
                (or_intror (or_intror (or_introl eq_refl)))) as Hnp.
  pose proof (Hun InvalidConversion
                (or_intror (or_intror (or_intror (or_introl eq_refl))))) as Hic.
  simpl in Hou, Hod, Hnp, Hic.
  destruct (orphan_users_query session) as [ou|] eqn:Eou; [|discriminate Hou].
  destruct (orphan_dests_query session) as [od|] eqn:Eod; [|discriminate Hod].
  destruct (neg_prices_query session) as [np|] eqn:Enp; [|discriminate Hnp].
  destruct (invalid_conv_query session) as [ic|] eqn:Eic; [|discriminate Hic].
  rewrite (run_checks_ok session ou od np ic Eou Eod Enp Eic) in Hrs.
  apply Ok_inj in Hrs. subst rs. split.
  - intros t l e Hin He. rewrite !in_app_iff. do 5 left.
    apply in_flat_map. exists (t, l). split; [exact Hin|].
    simpl. rewrite He. left. reflexivity.
  - intros c Hc Hfresh. unfold checklist in Hc. rewrite !in_app_iff in Hc.
    unfold recorded.
    destruct Hc as [Hc|[Hc|[Hc|Hc]]].
    + apply in_map_iff in Hc. destruct Hc as ([t l] & <- & Hin).
      destruct (record_count_recorded session t l Hin)
        as (r & Hr & Hcheck & Htable & _).
      exists (status r), r. rewrite !in_app_iff. split; [do 5 left; exact Hr|].
      simpl. rewrite Hcheck, Htable. split; reflexivity.
    + destruct Hc as [<-|[<-|[]]]; eexists; eexists; rewrite !in_app_iff.
      * split; [do 4 left; right; left; reflexivity|]. split; reflexivity.
      * split; [do 3 left; right; left; reflexivity|]. split; reflexivity.
    + apply in_map_iff in Hc. destruct Hc as ([t col] & <- & Hin).
      destruct (freshness_recorded session t col Hin (Hfresh eq_refl))
        as (r & Hr & Hcheck & Htable).
      exists (status r), r. rewrite !in_app_iff.
      split; [do 2 left; right; exact Hr|].
      simpl. rewrite Hcheck, Htable. split; reflexivity.
    + destruct Hc as [<-|[<-|[]]]; eexists; eexists; rewrite !in_app_iff.
      * split; [left; right; left; reflexivity|]. split; reflexivity.
      * split; [right; left; reflexivity|]. split; reflexivity.
Qed.

Lemma fail_soft_guarded_checks_witness :
  exists rs, run_checks Sample.bronze_destinations_dropped = Ok rs /\
    In {| check := "record_count";
          table := "bronze_destinations";
          layer := "bronze";
          expected := "> 0";
          actual := Message "TABLE_OR_VIEW_NOT_FOUND: bronze_destinations";
          status := FAIL |}%string rs /\
    length rs = 17%nat.
Proof.
  destruct (fail_soft_guarded_checks Sample.bronze_destinations_dropped)
    as (_ & H).
  eexists. split; [reflexivity|]. split.
  - apply (H _ eq_refl).
    + simpl. do 2 right. left. reflexivity.
    + reflexivity.
  - reflexivity.
Defined.

(** ** Sorting by a key *)

Section OrderByKey.
Context {A K : Type} (leK : K -> K -> bool) (key : A -> K).

Let le (a b : A) : bool := leK (key a) (key b).
Let R (a b : A) : Prop := leK (key a) (key b) = true.

Hypothesis leK_total : forall a b, leK a b = false -> leK b a = true.

Lemma insert_sorted_HdRel (a b : A) (l : list A) :
  R b a -> HdRel R b l -> HdRel R b (Relational.insert_sorted le a l).
Proof.
  intros Hba H. destruct l as [|c l]; simpl.
  - constructor. exact Hba.
  - unfold le at 1. destruct (leK (key a) (key c)); constructor.
    + exact Hba.
    + inversion H; assumption.
Qed.

Lemma insert_sorted_Sorted (a : A) (l : list A) :
  Sorted R l -> Sorted R (Relational.insert_sorted le a l).
Proof.
  induction 1 as [|b l Hs IH Hd]; simpl.
  - repeat constructor.
  - unfold le at 1. destruct (leK (key a) (key b)) eqn:E.
    + constructor; [constructor; assumption|]. constructor. exact E.
    + constructor; [exact IH|].
      apply insert_sorted_HdRel; [apply leK_total; exact E|exact Hd].
Qed.

Lemma order_by_Sorted (l : list A) : Sorted R (Relational.order_by le l).
Proof.
  induction l as [|a l IH]; simpl.
  - constructor.
  - apply insert_sorted_Sorted. exact IH.
Qed.

Lemma order_by_of_Sorted (l : list A) :
  Sorted R l -> Relational.order_by le l = l.
Proof.
  induction l as [|a l IH]; simpl; intro H; [reflexivity|].
  inversion H as [|? ? Hs Hd]; subst. rewrite (IH Hs).
  destruct l as [|b l]; simpl; [reflexivity|].
  inversion Hd as [|? ? Hab]; subst. unfold le at 1. unfold R in Hab.
  rewrite Hab. reflexivity.
Qed.

Lemma map_key_insert_sorted (a : A) (l : list A) :
  map key (Relational.insert_sorted le a l)
  = Relational.insert_sorted leK (key a) (map key l).
Proof.
  induction l as [|b l IH]; simpl; [reflexivity|].
  unfold le at 1. destruct (leK (key a) (key b)); simpl; [reflexivity|].
  rewrite IH. reflexivity.
Qed.

Lemma map_key_order_by (l : list A) :
  map key (Relational.order_by le l) = Relational.order_by leK (map key l).
Proof.
  induction l as [|a l IH]; simpl; [reflexivity|].
  rewrite map_key_insert_sorted, IH. reflexivity.
Qed.

Lemma Sorted_of_map_key (l : list A) :
  Sorted (fun a b => leK a b = true) (map key l) -> Sorted R l.
Proof.
  induction l as [|a l IH]; simpl; intro H; [constructor|].
  inversion H as [|? ? Hs Hd]; subst. constructor; [apply IH; exact Hs|].
  destruct l as [|b l]; simpl in *; constructor.
  inversion Hd; assumption.
Qed.

End OrderByKey.

(** ** Pairwise distinct keys *)

Section Pairwise.
Context {A : Type} (D : A -> A -> Prop).

Lemma pairwise_filter (f : A -> bool) (l : list A) :
  ForallOrdPairs D l -> ForallOrdPairs D (filter f l).
Proof.
  induction 1 as [|a l Ha Hl IH]; simpl; [constructor|].
  destruct (f a); [|exact IH]. constructor; [|exact IH].
  apply Forall_forall. intros x Hx. apply filter_In in Hx.
  rewrite Forall_forall in Ha. apply Ha. tauto.
Qed.

Hypothesis D_sym : forall a b, D a b -> D b a.

Lemma pairwise_insert_sorted (le : A -> A -> bool) (a : A) (l : list A) :
  Forall (D a) l -> ForallOrdPairs D l ->
  ForallOrdPairs D (Relational.insert_sorted le a l).
Proof.
  intros Ha Hl. induction Hl as [|b l Hb Hl IH]; simpl.
  - repeat constructor.
  - destruct (le a b).
    + constructor; [exact Ha|]. constructor; assumption.
    + inversion Ha as [|? ? Hab Ha']; subst. constructor; [|apply IH; exact Ha'].
      apply Forall_forall. intros x Hx. apply insert_sorted_In in Hx.
      destruct Hx as [->|Hx]; [apply D_sym; exact Hab|].
      rewrite Forall_forall in Hb. apply Hb. exact Hx.
Qed.

Lemma pairwise_order_by (le : A -> A -> bool) (l : list A) :
  ForallOrdPairs D l -> ForallOrdPairs D (Relational.order_by le l).
Proof.
  induction 1 as [|a l Ha Hl IH]; simpl; [constructor|].
  apply pairwise_insert_sorted; [|exact IH].
  apply Forall_forall. intros x Hx. apply order_by_In in Hx.
  rewrite Forall_forall in Ha. apply Ha. exact Hx.
Qed.

End Pairwise.

Lemma distinct_pairwise {A} (same : A -> A -> bool) (l : list A) :
  ForallOrdPairs (fun a b => same a b = false) (distinct same l).
Proof.
  induction l as [|a l IH]; simpl; constructor.
  - apply Forall_forall. intros x Hx. apply filter_In in Hx.
    destruct Hx as [_ Hx]. apply negb_true_iff in Hx. exact Hx.
  - apply pairwise_filter. exact IH.
Qed.

Lemma pairwise_adjacent {A} (D : A -> A -> Prop) (l : list A) :
  ForallOrdPairs D l ->
  forall i a b, nth_error l i = Some a -> nth_error l (S i) = Some b -> D a b.
Proof.
  induction 1 as [|x l Hx Hl IH]; intros i a b Ha Hb.
  - destruct i; discriminate Ha.
  - destruct i as [|i]; simpl in Ha, Hb.
    + injection Ha as <-. rewrite Forall_forall in Hx. apply Hx.
      destruct l; [discriminate Hb|]. injection Hb as <-. left. reflexivity.
    + exact (IH i a b Ha Hb).
Qed.

Lemma Sorted_adjacent {A} (R : A -> A -> Prop) (l : list A) :
  Sorted R l ->
  forall i a b, nth_error l i = Some a -> nth_error l (S i) = Some b -> R a b.
Proof.
  induction 1 as [|x l Hs IH Hd]; intros i a b Ha Hb.
  - destruct i; discriminate Ha.
  - destruct i as [|i]; simpl in Ha, Hb.
    + injection Ha as <-. destruct l; [discriminate Hb|].
      injection Hb as <-. inversion Hd; assumption.
    + exact (IH i a b Ha Hb).
Qed.

(** ** The LAG window function *)

Lemma lag_from_length {A} (p : option A) (vs : list (option A)) :
  length (Relational.lag_from p vs) = length vs.
Proof.
  revert p. induction vs as [|v vs IH]; intro p; simpl; [reflexivity|].
  rewrite IH. reflexivity.
Qed.

Lemma lag_from_first {A} (p : option A) (vs : list (option A)) (x : option A) :
  nth_error (Relational.lag_from p vs) 0 = Some x -> x = p.
Proof. destruct vs; simpl; congruence. Qed.

Lemma lag_from_next {A} (p : option A) (vs : list (option A)) :
  forall i x y,
    nth_error vs i = Some x ->
    nth_error (Relational.lag_from p vs) (S i) = Some y -> y = x.
Proof.
  revert p. induction vs as [|v vs IH]; intros p i x y Hx Hy.
  - destruct i; discriminate Hx.
  - destruct i as [|i]; simpl in Hx, Hy.
    + injection Hx as <-. apply lag_from_first in Hy. exact Hy.
    + exact (IH v i x y Hx Hy).
Qed.

Lemma map_fst_combine {A B} (l : list A) (l' : list B) :
  length l = length l' -> map fst (combine l l') = l.
Proof.
  revert l'. induction l as [|a l IH]; intros [|b l'] H; simpl in *;
    try discriminate; [reflexivity|].
  rewrite IH by congruence. reflexivity.
Qed.

Lemma map_snd_combine {A B} (l : list A) (l' : list B) :
  length l = length l' -> map snd (combine l l') = l'.
Proof.
  revert l'. induction l as [|a l IH]; intros [|b l'] H; simpl in *;
    try discriminate; [reflexivity|].
  rewrite IH by congruence. reflexivity.
Qed.

Lemma Forall2_map_eq {A B C} (f : A -> C) (g : B -> C) (l : list A)
    (l' : list B) :
  Forall2 (fun a b => g b = f a) l l' -> map g l' = map f l.
Proof.
  induction 1 as [|a b l l' Hab _ IH]; simpl; [reflexivity|].
  rewrite Hab, IH. reflexivity.
Qed.

(** ** The monthly summary *)

Lemma same_Z_sym (x y : option Z) : Relational.same x y = Relational.same y x.
Proof. destruct x, y; simpl; try reflexivity. apply Z.eqb_sym. Qed.

Lemma le_asc_Z_total (x y : option Z) :
  Relational.le_asc x y = false -> Relational.le_asc y x = true.
Proof.
  destruct x as [a|], y as [b|]; simpl; try congruence.
  intro H. apply Z.leb_gt in H. apply Z.leb_le. lia.
Qed.

Lemma same_month_key_sym (a b : Gold.month_key) :
  Gold.same_month_key a b = false -> Gold.same_month_key b a = false.
Proof.
  unfold Gold.same_month_key.
  rewrite (same_Z_sym (fst a)), (same_Z_sym (snd a)). trivial.
Qed.

Lemma le_month_key_total (a b : Gold.month_key) :
  Gold.le_month_key a b = false -> Gold.le_month_key b a = true.
Proof.
  unfold Gold.le_month_key. rewrite (same_Z_sym (fst b)).
  destruct (Relational.same (fst a) (fst b)); apply le_asc_Z_total.
Qed.

Lemma monthly_row_columns (now : Calendar.timestamp) (k : Gold.month_key)
    (g : list SilverPurchases.row) (prev : option Q) :
  exists r, Gold.monthly_row now k g prev = Ok r /\
    Gold.period_of r = k /\
    GoldMonthly.monthly_revenue_usd r = Gold.monthly_revenue g /\
    GoldMonthly.prev_month_revenue r = prev.
Proof.
  unfold Gold.monthly_row.
  destruct (rate_pct_total (Gold.month_total_bookings g) (Some (COUNT_star g)))
    as [v Hv].
  rewrite Hv. simpl. eexists. split; [reflexivity|].
  unfold Gold.period_of. simpl. destruct k. auto.
Qed.

Lemma group_by_keys {K A} (same_key : K -> K -> bool) (key : A -> K)
    (rows : list A) :
  map fst (Relational.group_by same_key key rows)
  = distinct same_key (map key rows).
Proof.
  unfold Relational.group_by. rewrite map_map. simpl. apply map_id.
Qed.

Lemma group_by_rows {K A} (same_key : K -> K -> bool) (key : A -> K)
    (rows : list A) (kg : K * list A) :
  In kg (Relational.group_by same_key key rows) ->
  snd kg = filter (fun r => same_key (fst kg) (key r)) rows.
Proof.
  unfold Relational.group_by. intro H. apply in_map_iff in H.
  destruct H as (k & <- & _). reflexivity.
Qed.

(** C7. The monthly summary is always produced; it lists the distinct
    (year, month) periods of the silver purchases in strictly ascending
    order, each with the revenue of the purchases of that period; the
    first row has a null [prev_month_revenue], and every later row carries
    the [monthly_revenue_usd] of the row just before it. *)
Theorem monthly_prev_revenue (now : Calendar.timestamp)
    (silver : list SilverPurchases.row) :
  exists out, Gold.gold_monthly_summary now silver = Ok out /\
    map Gold.period_of out
    = Relational.order_by Gold.le_month_key
        (distinct Gold.same_month_key (map Gold.month_key_of silver)) /\
    (forall r, In r out ->
       GoldMonthly.monthly_revenue_usd r
       = Gold.monthly_revenue
           (filter (fun t => Gold.same_month_key (Gold.period_of r)
                                                 (Gold.month_key_of t))
                   silver)) /\
    (forall r, nth_error out 0 = Some r ->
       GoldMonthly.prev_month_revenue r = None) /\
    (forall i r r', nth_error out i = Some r -> nth_error out (S i) = Some r' ->
       Gold.le_month_key (Gold.period_of r) (Gold.period_of r') = true /\
       Gold.same_month_key (Gold.period_of r) (Gold.period_of r') = false /\
       GoldMonthly.prev_month_revenue r' = GoldMonthly.monthly_revenue_usd r).
Proof.
  unfold Gold.gold_monthly_summary.
  set (groups := Relational.group_by Gold.same_month_key Gold.month_key_of silver).
  set (window := Relational.order_by _ groups).
  set (revs := map (fun kg => Gold.monthly_revenue (snd kg)) window).
  assert (Hlen : length window = length (Relational.LAG revs)).
  { unfold Relational.LAG. rewrite lag_from_length. unfold revs.
    rewrite length_map. reflexivity. }
  destruct (mapM_total
              (fun kgp => Gold.monthly_row now (fst (fst kgp)) (snd (fst kgp))
                                           (snd kgp))
              (combine window (Relational.LAG revs))) as [rows Hrows].
  { intros kgp _.
    destruct (monthly_row_columns now (fst (fst kgp)) (snd (fst kgp)) (snd kgp))
      as (r & Hr & _). exists r. exact Hr. }
  rewrite Hrows. simpl.
  pose proof (mapM_Forall2 _ _ _ Hrows) as F.
  assert (Hkeys : map Gold.period_of rows = map fst window).
  { rewrite <- (map_fst_combine window (Relational.LAG revs) Hlen).
    rewrite map_map. apply Forall2_map_eq.
    eapply Forall2_impl; [|exact F]. intros kgp r Hr. simpl in Hr.
    destruct (monthly_row_columns now (fst (fst kgp)) (snd (fst kgp)) (snd kgp))
      as (r0 & Hr0 & Hk & _). congruence. }
  assert (Hrevs : map GoldMonthly.monthly_revenue_usd rows = revs).
  { unfold revs.
    rewrite <- (map_fst_combine window (Relational.LAG revs) Hlen).
    rewrite map_map. apply Forall2_map_eq.
    eapply Forall2_impl; [|exact F]. intros kgp r Hr. simpl in Hr.
    destruct (monthly_row_columns now (fst (fst kgp)) (snd (fst kgp)) (snd kgp))
      as (r0 & Hr0 & _ & Hv & _). congruence. }
  assert (Hprevs : map GoldMonthly.prev_month_revenue rows = Relational.LAG revs).
  { rewrite <- (map_snd_combine window (Relational.LAG revs) Hlen).
    apply Forall2_map_eq.
    eapply Forall2_impl; [|exact F]. intros kgp r Hr. simpl in Hr.
    destruct (monthly_row_columns now (fst (fst kgp)) (snd (fst kgp)) (snd kgp))
      as (r0 & Hr0 & _ & _ & Hp). congruence. }
  assert (Hwin : map fst window
                 = Relational.order_by Gold.le_month_key
                     (distinct Gold.same_month_key
                               (map Gold.month_key_of silver))).
  { unfold window. rewrite (map_key_order_by Gold.le_month_key fst).
    unfold groups. rewrite group_by_keys. reflexivity. }
  assert (Hsorted : Sorted (fun a b => Gold.le_month_key a b = true)
                           (map Gold.period_of rows)).
  { rewrite Hkeys, Hwin.
    apply (order_by_Sorted Gold.le_month_key (fun k => k) le_month_key_total). }
  assert (Hdistinct : ForallOrdPairs (fun a b => Gold.same_month_key a b = false)
                                     (map Gold.period_of rows)).
  { rewrite Hkeys, Hwin. apply pairwise_order_by.
    - exact same_month_key_sym.
    - apply distinct_pairwise. }
  assert (Hout : Relational.order_by
                   (fun a b =>
                      Gold.le_month_key
                        (GoldMonthly.transaction_year a,
                         GoldMonthly.transaction_month a)
                        (GoldMonthly.transaction_year b,
                         GoldMonthly.transaction_month b)) rows = rows).
  { apply (order_by_of_Sorted Gold.le_month_key Gold.period_of).
    apply Sorted_of_map_key. exact Hsorted. }
  rewrite Hout. exists rows. split; [reflexivity|].
  split; [rewrite Hkeys; exact Hwin|]. split; [|split].
  - intros r Hr.
    destruct (Forall2_In_right _ _ _ F r Hr) as (kgp & Hin & Hkgp).
    simpl in Hkgp.
    destruct (monthly_row_columns now (fst (fst kgp)) (snd (fst kgp)) (snd kgp))
      as (r0 & Hr0 & Hk & Hv & _).
    assert (r0 = r) by congruence. subst r0. rewrite Hv, Hk.
    f_equal. apply (group_by_rows Gold.same_month_key Gold.month_key_of).
    fold groups. apply (order_by_In (fun a b => Gold.le_month_key (fst a) (fst b))).
    fold window. destruct kgp as [kg p]. exact (in_combine_l _ _ _ _ Hin).
  - intros r Hr.
    pose proof (map_nth_error GoldMonthly.prev_month_revenue 0 rows Hr) as Hp.
    rewrite Hprevs in Hp. apply lag_from_first in Hp. exact Hp.
  - intros i r r' Hr Hr'.
    change (nth_error rows (S i) = Some r') in Hr'.
    split; [|split].
    + apply (Sorted_adjacent _ _ Hsorted i);
        apply (map_nth_error Gold.period_of); assumption.
    + apply (pairwise_adjacent _ _ Hdistinct i);
        apply (map_nth_error Gold.period_of); assumption.
    + apply (map_nth_error GoldMonthly.monthly_revenue_usd) in Hr.
      apply (map_nth_error GoldMonthly.prev_month_revenue) in Hr'.
      rewrite Hrevs in Hr. rewrite Hprevs in Hr'.
      exact (lag_from_next None revs i _ _ Hr Hr').
Qed.

Lemma monthly_prev_revenue_witness :
  exists out december january,
    Gold.gold_monthly_summary 0 Sample.four_months = Ok out /\
    nth_error out 0 = Some december /\
    nth_error out 1 = Some january /\
    Gold.period_of december = (Some 2023, Some 12) /\
    Gold.period_of january = (Some 2024, Some 1) /\
    GoldMonthly.prev_month_revenue december = None /\
    GoldMonthly.prev_month_revenue january = Some (1250 # 100)%Q.
Proof.
  destruct (monthly_prev_revenue 0 Sample.four_months)
    as (out & Hout & _ & _ & Hfirst & Hnext).
  assert (Hrows : exists d j, nth_error out 0 = Some d /\
                              nth_error out 1 = Some j /\
                              Gold.period_of d = (Some 2023, Some 12) /\
                              Gold.period_of j = (Some 2024, Some 1) /\
                              GoldMonthly.monthly_revenue_usd d
                              = Some (1250 # 100)%Q).
  { pose proof Hout as E. vm_compute in E. apply Ok_inj in E. subst out.
    eexists. eexists. repeat split. }
  destruct Hrows as (d & j & Hd & Hj & Pd & Pj & Rd).
  exists out, d, j. repeat split; try assumption.
  - apply Hfirst. exact Hd.
  - rewrite <- Rd. apply (Hnext 0%nat d j Hd Hj).
Defined.


Example four_months_summary :
  option_map
    (map (fun r => (GoldMonthly.transaction_year r,
                    GoldMonthly.transaction_month r,
                    GoldMonthly.monthly_revenue_usd r,
                    GoldMonthly.prev_month_revenue r)))
    (match Gold.gold_monthly_summary 0 Sample.four_months with
     | Ok rows => Some rows
     | Err _ => None
     end)
  = Some [ (Some 2023, Some 12, Some (1250 # 100)%Q, None);
           (Some 2024, Some 1, Some (4000 # 100)%Q, Some (1250 # 100)%Q);
           (Some 2024, Some 2, Some (30000 # 100)%Q, Some (4000 # 100)%Q);
           (Some 2024, Some 3, Some (500000 # 100)%Q, Some (30000 # 100)%Q) ].
Proof. vm_compute. reflexivity. Qed.

(** A destination nobody looked at still has one joined row; its click
    count is 0 and its booking rate is NULL. *)
Example unvisited_destination_rates :
  option_map
    (map (fun r => (GoldDestinations.destination_id r,
                    GoldDestinations.total_views r,
                    GoldDestinations.total_clicks r,
                    GoldDestinations.click_rate_pct r,
                    GoldDestinations.booking_rate_pct r)))
    (match Gold.gold_destination_performance 0 Sample.destinations
                                             Sample.four_months with
     | Ok rows => Some rows
     | Err _ => None
     end)
  = Some [ (Some 3, Some 6, Some 5, Some (8333 # 100)%Q, Some (10000 # 100)%Q);
           (Some 4, Some 1, Some 0, Some (0 # 100)%Q, None) ].
Proof. vm_compute. reflexivity. Qed.

(** ** The calendar and rounding functions on known values *)

Example calendar_samples :
  Calendar.civil 0 = (1970, 1, 1) /\
  Calendar.civil (-1) = (1969, 12, 31) /\
  Calendar.civil 19782 = (2024, 2, 29) /\
  (Calendar.YEAR Sample.t0, Calendar.MONTH Sample.t0, Calendar.HOUR Sample.t0,
   Calendar.DAYOFWEEK Sample.t0) = (2024, 3, 14, 7).
Proof. repeat split. Qed.

Example round_samples :
  round_half_up (-12345 # 1000) 2 = (-1235 # 100)%Q /\
  round_half_up (5 # 1000) 2 = (1 # 100)%Q /\
  round_half_up (4999 # 1000000) 2 = (0 # 100)%Q /\
  round_half_up (50000 # 1) 2 = (5000000 # 100)%Q.
Proof. repeat split. Qed.

(** * Further properties of the silver, gold and audit code *)

(** ** Rounding keeps integer bounds *)

Lemma pow10_pos (d : nat) : 0 < 10 ^ Z.of_nat d.
Proof. apply Z.pow_pos_nonneg; lia. Qed.

Lemma round_half_up_bounds (p : Q) (K : Z) (d : nat) :
  0 <= K ->
  (inject_Z (- K) <= p)%Q -> (p <= inject_Z K)%Q ->
  (inject_Z (- K) <= round_half_up p d)%Q /\
  (round_half_up p d <= inject_Z K)%Q.
Proof.
  intro HK. destruct p as [n den]. unfold round_half_up, Qle, inject_Z.
  cbn [Qnum Qden].
  pose proof (pow10_pos d) as Hs. set (s := 10 ^ Z.of_nat d) in *.
  rewrite (Z2Pos.id s Hs). intros Hlo Hhi.
  assert (Hd : 0 < Z.pos den) by lia.
  assert (Habs : Z.abs n <= K * Z.pos den) by lia.
  set (q := (2 * (Z.abs n * s) + Z.pos den) / (2 * Z.pos den)).
  assert (Hq0 : 0 <= q).
  { apply Z.div_pos; [|lia]. pose proof (Z.abs_nonneg n). nia. }
  assert (Hq1 : q < K * s + 1).
  { apply Z.div_lt_upper_bound; [lia|]. nia. }
  destruct (Z.sgn_spec n) as [[_ ->]|[[_ ->]|[_ ->]]]; lia.
Qed.

Lemma round_half_up_nonneg (p : Q) (d : nat) :
  (inject_Z 0 <= p)%Q -> (inject_Z 0 <= round_half_up p d)%Q.
Proof.
  destruct p as [n den]. unfold round_half_up, Qle, inject_Z.
  cbn [Qnum Qden]. intro Hlo.
  pose proof (pow10_pos d) as Hs. set (s := 10 ^ Z.of_nat d) in *.
  assert (Hn : 0 <= n) by lia.
  set (q := (2 * (Z.abs n * s) + Z.pos den) / (2 * Z.pos den)).
  assert (Hq0 : 0 <= q).
  { apply Z.div_pos; [|lia]. pose proof (Z.abs_nonneg n). nia. }
  destruct (Z.sgn_spec n) as [[_ ->]|[[_ ->]|[? _]]]; lia.
Qed.

(** ** Silver users and destinations: the coordinate rule *)

(** The CASE that cleans one coordinate: NULL out of [-hi, hi], the value
    rounded to 6 places inside it, and the rounded value still inside. *)
Lemma clean_coordinate_rule (hi : Z) (x : option Q) :
  0 <= hi ->
  let out :=
    CASE [ (OR (OR (IS_NULL x) (LT x (num (- hi)))) (GT x (num hi)), None) ]
         (ROUND x 6) in
  (out = None <-> coordinate_defect (- hi) hi x) /\
  (forall q, x = Some q -> ~ coordinate_defect (- hi) hi x ->
             out = Some (round_half_up q 6)) /\
  (forall v, out = Some v ->
             (inject_Z (- hi) <= v)%Q /\ (v <= inject_Z hi)%Q).
Proof.
  intros Hhi out. subst out. unfold coordinate_defect.
  destruct x as [q|]; simpl.
  - case_ltb q (inject_Z (- hi)); simpl.
    + repeat split; try tauto; try discriminate.
    + case_ltb (inject_Z hi) q; simpl.
      * repeat split; try tauto; try discriminate.
      * assert (N : ~ ((q < inject_Z (- hi))%Q \/ (inject_Z hi < q)%Q)).
        { intros [L|L]; eapply Qlt_not_le; eauto. }
        split; [split; [discriminate|tauto]|]. split.
        -- intros p [= <-] _. reflexivity.
        -- intros v [= <-]. apply round_half_up_bounds; assumption.
  - repeat split; try tauto; discriminate.
Qed.

(** X1. In the silver users table each coordinate is cleaned on its own:
    a latitude is NULL iff the raw latitude is NULL or outside [-90, 90],
    otherwise it is the raw value rounded to 6 places, and it then still
    lies in [-90, 90]; the same for the longitude with [-180, 180],
    whatever the other coordinate is. *)
Theorem user_coordinates_rule (now : Calendar.timestamp) (b : BronzeUsers.row) :
  let lat := BronzeUsers.user_latitude b in
  let lon := BronzeUsers.user_longitude b in
  let c := Silver.clean_user now b in
  ((SilverUsers.user_latitude c = None <-> coordinate_defect (-90) 90 lat) /\
   (forall q, lat = Some q -> ~ coordinate_defect (-90) 90 lat ->
      SilverUsers.user_latitude c = Some (round_half_up q 6)) /\
   (forall v, SilverUsers.user_latitude c = Some v ->
      (inject_Z (-90) <= v)%Q /\ (v <= inject_Z 90)%Q)) /\
  ((SilverUsers.user_longitude c = None <-> coordinate_defect (-180) 180 lon) /\
   (forall q, lon = Some q -> ~ coordinate_defect (-180) 180 lon ->
      SilverUsers.user_longitude c = Some (round_half_up q 6)) /\
   (forall v, SilverUsers.user_longitude c = Some v ->
      (inject_Z (-180) <= v)%Q /\ (v <= inject_Z 180)%Q)).
Proof.
  intros lat lon c. split.
  - apply (clean_coordinate_rule 90 lat). lia.
  - apply (clean_coordinate_rule 180 lon). lia.
Qed.

(** X2. The same rule holds of the silver destinations table: latitude
    and longitude are each NULL iff the raw value is NULL or out of its
    range, otherwise rounded to 6 places and still inside the range. *)
Theorem destination_coordinates_rule (now : Calendar.timestamp)
    (b : BronzeDestinations.row) :
  let lat := BronzeDestinations.dest_latitude b in
  let lon := BronzeDestinations.dest_longitude b in
  let c := Silver.clean_destination now b in
  ((SilverDestinations.latitude c = None <-> coordinate_defect (-90) 90 lat) /\
   (forall q, lat = Some q -> ~ coordinate_defect (-90) 90 lat ->
      SilverDestinations.latitude c = Some (round_half_up q 6)) /\
   (forall v, SilverDestinations.latitude c = Some v ->
      (inject_Z (-90) <= v)%Q /\ (v <= inject_Z 90)%Q)) /\
  ((SilverDestinations.longitude c = None <->
    coordinate_defect (-180) 180 lon) /\
   (forall q, lon = Some q -> ~ coordinate_defect (-180) 180 lon ->
      SilverDestinations.longitude c = Some (round_half_up q 6)) /\
   (forall v, SilverDestinations.longitude c = Some v ->
      (inject_Z (-180) <= v)%Q /\ (v <= inject_Z 180)%Q)).
Proof.
  intros lat lon c. split.
  - apply (clean_coordinate_rule 90 lat). lia.
  - apply (clean_coordinate_rule 180 lon). lia.
Qed.

(** ** Counting flags *)

Lemma filter_nil_of_false {A} (f : A -> bool) (l : list A) :
  (forall x, In x l -> f x = false) -> filter f l = [].
Proof.
  induction l as [|a l IH]; intro H; simpl; [reflexivity|].
  rewrite (H a (or_introl eq_refl)). apply IH. intros x Hx. apply H.
  right. exact Hx.
Qed.

(** The number of rows of [l] whose flag is TRUE. *)
Lemma SUM_Z_flags {A} (flag : A -> option bool) (l : list A) :
  SUM_Z (map (fun t => Gold.one_if (flag t)) l)
  = match l with
    | [] => None
    | _ => Some (Z.of_nat (length (filter (fun t => holds (flag t)) l)))
    end.
Proof.
  assert (N : non_null (map (fun t => Gold.one_if (flag t)) l)
              = map (fun t => if holds (flag t) then 1 else 0) l).
  { induction l as [|a l IH]; simpl; [reflexivity|].
    unfold Gold.one_if at 1. simpl. destruct (holds (flag a)); simpl;
      rewrite IH; reflexivity. }
  assert (S : fold_right Z.add 0
                (map (fun t => if holds (flag t) then 1 else 0) l)
              = Z.of_nat (length (filter (fun t => holds (flag t)) l))).
  { clear N. induction l as [|a l IH]; simpl; [reflexivity|].
    rewrite IH. destruct (holds (flag a)); simpl length; lia. }
  unfold SUM_Z. rewrite N. destruct l as [|a l]; [reflexivity|].
  rewrite <- S. reflexivity.
Qed.

Lemma filter_length_le' {A} (f : A -> bool) (l : list A) :
  (length (filter f l) <= length l)%nat.
Proof.
  induction l as [|a l IH]; simpl; [lia|]. destruct (f a); simpl; lia.
Qed.

(** ** Rates of a flag count over a row count lie in 0..100 *)

Lemma percent_of_share (s n : Z) :
  0 <= s <= n -> 0 < n ->
  (inject_Z 0 <= inject_Z s * (1000 # 10) / inject_Z n)%Q /\
  (inject_Z s * (1000 # 10) / inject_Z n <= inject_Z 100)%Q.
Proof.
  intros Hs Hn.
  assert (Hn' : (0 < inject_Z n)%Q).
  { change 0%Q with (inject_Z 0). rewrite <- Zlt_Qlt. exact Hn. }
  split.
  - apply Qle_shift_div_l; [exact Hn'|].
    unfold Qle, Qmult, inject_Z. cbn [Qnum Qden]. nia.
  - apply Qle_shift_div_r; [exact Hn'|].
    unfold Qle, Qmult, inject_Z. cbn [Qnum Qden]. nia.
Qed.

Lemma rate_pct_of_share (s n : Z) (v : option Q) :
  0 <= s <= n ->
  Gold.rate_pct (Some s) (Some n) = Ok v ->
  forall q, v = Some q -> (inject_Z 0 <= q)%Q /\ (q <= inject_Z 100)%Q.
Proof.
  intros Hs Hv q ->.
  destruct (Z.eq_dec n 0) as [->|Hn].
  - rewrite rate_pct_zero_denominator in Hv. discriminate Hv.
  - unfold Gold.rate_pct, NULLIF in Hv.
    destruct (Z.eqb_spec n 0) as [|_]; [contradiction|].
    simpl in Hv. rewrite (Qeq_bool_inject_Z_0 n Hn) in Hv. simpl in Hv.
    apply Ok_inj in Hv. injection Hv as <-.
    destruct (percent_of_share s n Hs) as [L U]; [lia|].
    split.
    + apply round_half_up_nonneg. exact L.
    + apply (round_half_up_bounds _ 100 2); [lia| |exact U].
      eapply Qle_trans; [|exact L]. unfold Qle. simpl. lia.
Qed.

(** ** The business-rule queries on the tables the pipeline builds *)

Lemma silver_price_not_negative (now : Calendar.timestamp)
    (bronze : list BronzePurchases.row) (c : SilverPurchases.row) :
  In c (Silver.silver_travel_purchases now bronze) ->
  holds (LT (SilverPurchases.price_usd c) (num 0)) = false.
Proof.
  intro Hc.
  destruct (SilverPurchases.price_usd c) as [v|] eqn:Hv; [|reflexivity].
  destruct (price_usd_in_range now bronze c v Hc Hv) as [L _].
  apply ltb_Q_false in L. simpl. rewrite L. reflexivity.
Qed.

(** X3. Whatever the bronze purchases are, the silver purchases hold no
    negative price: the negative-price query of the audit counts 0 on
    them. *)
Theorem no_negative_silver_price (now : Calendar.timestamp)
    (bronze : list BronzePurchases.row) :
  Queries.neg_prices (Silver.silver_travel_purchases now bronze) = 0.
Proof.
  unfold Queries.neg_prices. rewrite filter_nil_of_false; [reflexivity|].
  intros c Hc. exact (silver_price_not_negative now bronze c Hc).
Qed.

Lemma daily_conversion_in_range (g : list SilverPurchases.row)
    (v : option Q) :
  Gold.daily_conversion_rate_pct g = Ok v ->
  forall q, v = Some q -> (inject_Z 0 <= q)%Q /\ (q <= inject_Z 100)%Q.
Proof.
  unfold Gold.daily_conversion_rate_pct, Gold.daily_total_purchases.
  rewrite SUM_Z_flags. destruct g as [|t g].
  - intros H q ->. unfold Gold.rate_pct in H. simpl in H. discriminate H.
  - apply rate_pct_of_share. unfold COUNT_star.
    pose proof (filter_length_le' (fun t => holds (SilverPurchases.purchased t))
                                  (t :: g)). lia.
Qed.

Lemma daily_table_conversion_range (now : Calendar.timestamp)
    (purchases : list SilverPurchases.row) (daily : list GoldDaily.row) :
  Gold.gold_daily_revenue_metrics now purchases = Ok daily ->
  forall r q, In r daily -> GoldDaily.conversion_rate_pct r = Some q ->
  (inject_Z 0 <= q)%Q /\ (q <= inject_Z 100)%Q.
Proof.
  intros Hdaily r q Hr Hq. unfold Gold.gold_daily_revenue_metrics in Hdaily.
  destruct (mapM _ _) as [rows|e] eqn:Hrows; simpl in Hdaily;
    [|discriminate Hdaily].
  apply Ok_inj in Hdaily. subst daily. apply order_by_In in Hr.
  destruct (Forall2_In_right _ _ _ (mapM_Forall2 _ _ _ Hrows) r Hr)
    as (kg & _ & Hkg).
  destruct (daily_row_columns now (fst kg) (snd kg))
    as (r' & Hr' & _ & _ & Hconv & _).
  rewrite Hkg in Hr'. apply Ok_inj in Hr'. subst r'.
  exact (daily_conversion_in_range _ _ Hconv q Hq).
Qed.

Lemma conversion_in_range_valid (r : GoldDaily.row) :
  (forall q, GoldDaily.conversion_rate_pct r = Some q ->
     (inject_Z 0 <= q)%Q /\ (q <= inject_Z 100)%Q) ->
  holds (OR (LT (GoldDaily.conversion_rate_pct r) (num 0))
            (GT (GoldDaily.conversion_rate_pct r) (num 100))) = false.
Proof.
  intro R.
  destruct (GoldDaily.conversion_rate_pct r) as [q|] eqn:Hq; [|reflexivity].
  destruct (R q eq_refl) as [L U]. simpl.
  apply ltb_Q_false in L. apply ltb_Q_false in U.
  unfold ltb in L, U. simpl in L, U. unfold ltb. simpl. rewrite L, U.
  reflexivity.
Qed.

(** X4. In the daily revenue table every non-null conversion rate lies
    between 0 and 100, for any silver purchases: the conversion-rate query
    of the audit counts 0 invalid rows. *)
Theorem daily_conversion_rate_valid (now : Calendar.timestamp)
    (purchases : list SilverPurchases.row) (daily : list GoldDaily.row)
    (Hdaily : Gold.gold_daily_revenue_metrics now purchases = Ok daily) :
  (forall r q, In r daily -> GoldDaily.conversion_rate_pct r = Some q ->
     (inject_Z 0 <= q)%Q /\ (q <= inject_Z 100)%Q) /\
  Queries.invalid_conv daily = 0.
Proof.
  pose proof (daily_table_conversion_range now purchases daily Hdaily) as R.
  split; [exact R|].
  unfold Queries.invalid_conv. rewrite filter_nil_of_false; [reflexivity|].
  intros r Hr. apply conversion_in_range_valid. intros q Hq.
  exact (R r q Hr Hq).
Qed.

Lemma daily_conversion_rate_valid_witness :
  exists daily,
    Gold.gold_daily_revenue_metrics 0 Sample.four_months = Ok daily /\
    length daily = 4%nat /\
    Queries.invalid_conv daily = 0.
Proof.
  eexists. split; [vm_compute; reflexivity|]. split; [reflexivity|].
  apply (daily_conversion_rate_valid 0 Sample.four_months).
  vm_compute. reflexivity.
Defined.

(** ** Revenue and purchases with an invalid price *)

Lemma SUM_Q_null_iff (xs : list (option Q)) :
  SUM_Q xs = None <-> forall x, In x xs -> x = None.
Proof.
  unfold SUM_Q. induction xs as [|[v|] xs IH]; simpl.
  - split; [intros _ x []|reflexivity].
  - split; [discriminate|]. intro H.
    discriminate (H (Some v) (or_introl eq_refl)).
  - rewrite IH. split.
    + intros H x [<-|Hx]; [reflexivity|apply H; exact Hx].
    + intros H x Hx. apply H. right. exact Hx.
Qed.

Lemma price_or_zero_null_iff (flag : option bool) (price : option Q) :
  Gold.price_or_zero flag price = None <-> flag = Some true /\ price = None.
Proof.
  unfold Gold.price_or_zero, CASE, holds, num.
  destruct flag as [[|]|]; split; try discriminate; try tauto;
    intros [F _]; discriminate F.
Qed.

Lemma ROUND_null_iff (x : option Q) (d : nat) : ROUND x d = None <-> x = None.
Proof. destruct x; simpl; split; congruence. Qed.

Lemma daily_row_revenue (now : Calendar.timestamp) (k : Gold.daily_key)
    (g : list SilverPurchases.row) (r : GoldDaily.row) :
  Gold.daily_row now k g = Ok r ->
  (GoldDaily.report_date r, GoldDaily.transaction_year r,
   GoldDaily.transaction_month r, GoldDaily.day_type r) = k /\
  GoldDaily.total_transactions r = Some (COUNT_star g) /\
  GoldDaily.total_purchases r = Gold.daily_total_purchases g /\
  GoldDaily.total_revenue_usd r
  = ROUND (SUM_Q (map (fun t => Gold.price_or_zero
                                  (SilverPurchases.purchased t)
                                  (SilverPurchases.price_usd t)) g)) 2.
Proof.
  destruct k as [[[d y] m] dt]. unfold Gold.daily_row.
  destruct (rate_pct_total (Gold.daily_total_purchases g) (Some (COUNT_star g)))
    as [v Hv].
  destruct (rate_pct_total (Gold.daily_total_purchases g)
                           (Gold.daily_total_clicks g)) as [w Hw].
  unfold Gold.daily_conversion_rate_pct, Gold.daily_click_to_purchase_rate_pct.
  rewrite Hv, Hw. simpl. intro H. apply Ok_inj in H. subst r. simpl. auto.
Qed.

Lemma daily_table_rows (now : Calendar.timestamp)
    (purchases : list SilverPurchases.row) (daily : list GoldDaily.row) :
  Gold.gold_daily_revenue_metrics now purchases = Ok daily ->
  forall r, In r daily ->
  exists k, Gold.daily_row now k
              (filter (fun t => Gold.same_daily_key k (Gold.daily_key_of t))
                      purchases) = Ok r.
Proof.
  intros Hdaily r Hr. unfold Gold.gold_daily_revenue_metrics in Hdaily.
  destruct (mapM _ _) as [rows|e] eqn:Hrows; simpl in Hdaily;
    [|discriminate Hdaily].
  apply Ok_inj in Hdaily. subst daily. apply order_by_In in Hr.
  destruct (Forall2_In_right _ _ _ (mapM_Forall2 _ _ _ Hrows) r Hr)
    as (kg & Hin & Hkg).
  exists (fst kg). rewrite <- (group_by_rows _ _ _ kg Hin). exact Hkg.
Qed.

(** X5. A row of the daily revenue table has a NULL [total_revenue_usd]
    exactly when every silver purchase of its group is a purchase
    ([purchased] true) with a NULL price; one row that is not a purchase,
    or one purchase with a price, makes the revenue a number. *)
Theorem daily_revenue_null_iff (now : Calendar.timestamp)
    (purchases : list SilverPurchases.row) (daily : list GoldDaily.row)
    (r : GoldDaily.row)
    (Hdaily : Gold.gold_daily_revenue_metrics now purchases = Ok daily)
    (Hr : In r daily) :
  GoldDaily.total_revenue_usd r = None <->
  (forall t, In t purchases ->
     Gold.same_daily_key
       (GoldDaily.report_date r, GoldDaily.transaction_year r,
        GoldDaily.transaction_month r, GoldDaily.day_type r)
       (Gold.daily_key_of t) = true ->
     SilverPurchases.purchased t = Some true /\
     SilverPurchases.price_usd t = None).
Proof.
  destruct (daily_table_rows now purchases daily Hdaily r Hr) as (k & Hk).
  destruct (daily_row_revenue now k _ r Hk) as (Hkey & _ & _ & Hrev).
  rewrite Hkey, Hrev, ROUND_null_iff, SUM_Q_null_iff. split.
  - intros H t Ht Hsame. apply price_or_zero_null_iff. apply H.
    apply in_map_iff. exists t. split; [reflexivity|].
    apply filter_In. split; assumption.
  - intros H x Hx. apply in_map_iff in Hx. destruct Hx as (t & <- & Ht).
    apply filter_In in Ht. destruct Ht as [Ht Hsame].
    apply price_or_zero_null_iff. apply H; assumption.
Qed.

Lemma daily_revenue_null_iff_witness :
  exists daily r,
    Gold.gold_daily_revenue_metrics 0
      (Silver.silver_travel_purchases 0 [Sample.negative_price]) = Ok daily /\
    In r daily /\
    GoldDaily.total_transactions r = Some 1 /\
    GoldDaily.total_purchases r = Some 1 /\
    GoldDaily.total_revenue_usd r = None.
Proof.
  eexists. eexists. split; [vm_compute; reflexivity|].
  split; [left; reflexivity|]. split; [reflexivity|]. split; [reflexivity|].
  eapply (daily_revenue_null_iff 0
            (Silver.silver_travel_purchases 0 [Sample.negative_price])).
  - vm_compute. reflexivity.
  - left. reflexivity.
  - intros t [<-|[]] _. split; reflexivity.
Defined.

Lemma price_usd_null_of_defect (now : Calendar.timestamp)
    (b : BronzePurchases.row) :
  price_defect (BronzePurchases.price b) ->
  SilverPurchases.price_usd (Silver.clean_purchase now b) = None.
Proof.
  unfold price_defect. simpl.
  destruct (BronzePurchases.price b) as [p|]; simpl; [|reflexivity].
  intros [L|L].
  - apply ltb_Q_true in L. rewrite L. reflexivity.
  - apply ltb_Q_true in L. rewrite L. simpl.
    destruct (ltb p (inject_Z 0)); reflexivity.
Qed.

(** X6. A purchase whose raw price is invalid still counts: added to the
    rows of a day, its cleaned row leaves [total_revenue_usd] unchanged
    and raises [total_transactions] and [total_purchases] by one. *)
Theorem invalid_price_purchase_counted (now now' : Calendar.timestamp)
    (k : Gold.daily_key) (g : list SilverPurchases.row)
    (b : BronzePurchases.row) (r0 : GoldDaily.row)
    (Hdefect : price_defect (BronzePurchases.price b))
    (Hbought : BronzePurchases.purchased b = Some true)
    (Hr0 : Gold.daily_row now' k g = Ok r0) :
  exists r, Gold.daily_row now' k (Silver.clean_purchase now b :: g) = Ok r /\
    GoldDaily.total_revenue_usd r = GoldDaily.total_revenue_usd r0 /\
    GoldDaily.total_transactions r0 = Some (COUNT_star g) /\
    GoldDaily.total_transactions r = Some (COUNT_star g + 1) /\
    GoldDaily.total_purchases r
    = Some (Z.of_nat (length (filter (fun t => holds (SilverPurchases.purchased t))
                                     g)) + 1).
Proof.
  assert (Hprice : SilverPurchases.price_usd (Silver.clean_purchase now b)
                   = None)
    by (apply price_usd_null_of_defect; exact Hdefect).
  assert (Hflag : SilverPurchases.purchased (Silver.clean_purchase now b)
                  = Some true)
    by (simpl; rewrite Hbought; reflexivity).
  remember (Silver.clean_purchase now b) as t eqn:Et. clear Et.
  destruct (daily_row_columns now' k (t :: g)) as (r & Hr & _).
  exists r. split; [exact Hr|].
  destruct (daily_row_revenue now' k _ r Hr) as (_ & Hn & Hp & Hrev).
  destruct (daily_row_revenue now' k _ r0 Hr0) as (_ & Hn0 & _ & Hrev0).
  split; [|split; [exact Hn0|split]].
  - rewrite Hrev, Hrev0. f_equal. simpl map.
    rewrite Hprice, Hflag. reflexivity.
  - rewrite Hn. unfold COUNT_star. simpl length. f_equal. lia.
  - rewrite Hp. unfold Gold.daily_total_purchases. rewrite SUM_Z_flags.
    simpl filter. rewrite Hflag. simpl holds. cbv iota. f_equal.
    simpl length. lia.
Qed.

Lemma invalid_price_purchase_counted_witness :
  exists r,
    Gold.daily_row 0 (Some 19791, Some 2024, Some 3, Some "weekend"%string)
      (Silver.clean_purchase 0 Sample.negative_price
       :: Silver.silver_travel_purchases 0 [Sample.valid_price]) = Ok r /\
    GoldDaily.total_revenue_usd r = Some (0 # 100)%Q /\
    GoldDaily.total_transactions r = Some 2.
Proof.
  destruct (daily_row_columns 0
              (Some 19791, Some 2024, Some 3, Some "weekend"%string)
              (Silver.silver_travel_purchases 0 [Sample.valid_price]))
    as (r0 & Hr0 & _).
  destruct (invalid_price_purchase_counted 0 0 _ _ Sample.negative_price r0
              (or_introl eq_refl) eq_refl Hr0)
    as (r & Hr & Hrev & _ & Hn & _).
  exists r. split; [exact Hr|]. split; [|exact Hn].
  rewrite Hrev. vm_compute in Hr0. apply Ok_inj in Hr0. subst r0. reflexivity.
Defined.

(** ** Ranking the destinations *)

Lemma filter_map_length {A B} (p : B -> bool) (f : A -> B) (l : list A) :
  length (filter p (map f l)) = length (filter (fun x => p (f x)) l).
Proof.
  induction l as [|a l IH]; simpl; [reflexivity|].
  destruct (p (f a)); simpl; rewrite IH; reflexivity.
Qed.

Lemma insert_sorted_filter_length {A} (le : A -> A -> bool) (f : A -> bool)
    (a : A) (l : list A) :
  length (filter f (Relational.insert_sorted le a l))
  = length (filter f (a :: l)).
Proof.
  induction l as [|b l IH]; [reflexivity|].
  simpl Relational.insert_sorted. destruct (le a b); [reflexivity|].
  simpl in *. destruct (f b), (f a); simpl in *; lia.
Qed.

Lemma order_by_filter_length {A} (le : A -> A -> bool) (f : A -> bool)
    (l : list A) :
  length (filter f (Relational.order_by le l)) = length (filter f l).
Proof.
  induction l as [|a l IH]; [reflexivity|].
  simpl Relational.order_by. rewrite insert_sorted_filter_length.
  simpl. destruct (f a); simpl; rewrite IH; reflexivity.
Qed.

Lemma order_by_length {A} (le : A -> A -> bool) (l : list A) :
  length (Relational.order_by le l) = length l.
Proof.
  pose proof (order_by_filter_length le (fun _ => true) l) as H.
  rewrite !filter_true in H. exact H.
Qed.

Lemma filter_length_lt {A} (f g : A -> bool) (l : list A) (a : A) :
  (forall y, f y = true -> g y = true) ->
  In a l -> f a = false -> g a = true ->
  (length (filter f l) < length (filter g l))%nat.
Proof.
  intros Hfg Ha Hfa Hga.
  assert (Hle : forall m, (length (filter f m) <= length (filter g m))%nat).
  { induction m as [|b m IH]; simpl; [lia|].
    destruct (f b) eqn:Fb.
    - rewrite (Hfg b Fb). simpl. lia.
    - destruct (g b); simpl; lia. }
  induction l as [|b l IH]; [contradiction|].
  simpl. destruct Ha as [->|Ha].
  - rewrite Hfa, Hga. simpl. pose proof (Hle l). lia.
  - specialize (IH Ha). destruct (f b) eqn:Fb.
    + rewrite (Hfg b Fb). simpl. lia.
    + destruct (g b); simpl; lia.
Qed.

Lemma destination_row_rank (now : Calendar.timestamp)
    (bookings : list (option Z)) (revenues : list (option Q))
    (k : Gold.dest_key) (g : list Gold.dest_joined)
    (r : GoldDestinations.row) :
  Gold.destination_row now bookings revenues k g = Ok r ->
  (GoldDestinations.destination_id r, GoldDestinations.destination_name r,
   GoldDestinations.latitude r, GoldDestinations.longitude r,
   GoldDestinations.hemisphere r) = k /\
  GoldDestinations.total_views r = Some (COUNT_star g) /\
  GoldDestinations.total_clicks r = Gold.dest_total_clicks g /\
  GoldDestinations.total_bookings r = Gold.dest_total_bookings g /\
  GoldDestinations.total_revenue_usd r = ROUND (Gold.dest_revenue g) 2 /\
  GoldDestinations.booking_rank r
  = Some (Relational.RANK_desc bookings (Gold.dest_total_bookings g)) /\
  GoldDestinations.revenue_rank r
  = Some (Relational.RANK_desc revenues (Gold.dest_revenue g)).
Proof.
  destruct k as [[[[i n] la] lo] h]. unfold Gold.destination_row.
  destruct (rate_pct_total (Gold.dest_total_clicks g) (Some (COUNT_star g)))
    as [v Hv].
  destruct (rate_pct_total (Gold.dest_total_bookings g)
                           (Gold.dest_total_clicks g)) as [w Hw].
  unfold Gold.dest_click_rate_pct, Gold.dest_booking_rate_pct.
  rewrite Hv, Hw. simpl. intro H. apply Ok_inj in H. subst r. simpl.
  repeat split.
Qed.

(** The rows of the destination table before the final ORDER BY: one per
    group of the join, with the list of booking counts the ranks use. *)
Lemma destination_table_rows (now : Calendar.timestamp)
    (destinations : list SilverDestinations.row)
    (purchases : list SilverPurchases.row)
    (perf : list GoldDestinations.row) :
  Gold.gold_destination_performance now destinations purchases = Ok perf ->
  exists groups rows revenues,
    groups = Relational.group_by Gold.same_dest_key Gold.dest_key_of
               (Relational.left_join
                  (fun d t => holds (EQ (SilverDestinations.destination_id d)
                                        (SilverPurchases.destination_id t)))
                  destinations purchases) /\
    Forall2 (fun kg r =>
               Gold.destination_row now
                 (map (fun kg => Gold.dest_total_bookings (snd kg)) groups)
                 revenues (fst kg) (snd kg) = Ok r) groups rows /\
    perf = Relational.order_by
             (fun a b =>
                negb (Relational.before_desc
                        (GoldDestinations.total_bookings b)
                        (GoldDestinations.total_bookings a))) rows.
Proof.
  intro H. unfold Gold.gold_destination_performance in H.
  set (groups := Relational.group_by _ _ _) in H.
  destruct (mapM _ groups) as [rows|e] eqn:Hrows; simpl in H; [|discriminate H].
  apply Ok_inj in H. exists groups, rows. eexists.
  split; [reflexivity|]. split; [|symmetry; exact H].
  exact (mapM_Forall2 _ _ _ Hrows).
Qed.

Lemma before_desc_Z_irrefl (x : option Z) : Relational.before_desc x x = false.
Proof.
  destruct x as [a|]; simpl; [|reflexivity].
  unfold ltb. simpl. rewrite Z.leb_refl. reflexivity.
Qed.

Lemma before_desc_Z_trans (x y z : option Z) :
  Relational.before_desc x y = true -> Relational.before_desc y z = true ->
  Relational.before_desc x z = true.
Proof.
  destruct x as [a|], y as [b|], z as [c|]; simpl; try congruence.
  unfold ltb. simpl. rewrite !negb_true_iff, !Z.leb_gt. lia.
Qed.

(** X7. [booking_rank] is a competition ranking of the rows of the
    destination table by [total_bookings], highest first: the rank of a row
    is one plus the number of rows with strictly more bookings, so rows
    with equal bookings share a rank, a row with more bookings has a
    strictly smaller rank, and every rank lies between 1 and the number of
    rows. *)
Theorem booking_rank_competition (now : Calendar.timestamp)
    (destinations : list SilverDestinations.row)
    (purchases : list SilverPurchases.row)
    (perf : list GoldDestinations.row)
    (Hperf : Gold.gold_destination_performance now destinations purchases
             = Ok perf) :
  let ahead r :=
    length (filter (fun r' => Relational.before_desc
                                (GoldDestinations.total_bookings r')
                                (GoldDestinations.total_bookings r)) perf) in
  (forall r, In r perf ->
     GoldDestinations.booking_rank r = Some (1 + Z.of_nat (ahead r))) /\
  (forall r1 r2, In r1 perf -> In r2 perf ->
     GoldDestinations.total_bookings r1 = GoldDestinations.total_bookings r2 ->
     GoldDestinations.booking_rank r1 = GoldDestinations.booking_rank r2) /\
  (forall r1 r2 b1 b2 n1 n2, In r1 perf -> In r2 perf ->
     GoldDestinations.total_bookings r1 = Some b1 ->
     GoldDestinations.total_bookings r2 = Some b2 -> b2 < b1 ->
     GoldDestinations.booking_rank r1 = Some n1 ->
     GoldDestinations.booking_rank r2 = Some n2 -> n1 < n2) /\
  (forall r, In r perf ->
     exists n, GoldDestinations.booking_rank r = Some n /\
               1 <= n <= Z.of_nat (length perf)).
Proof.
  intro ahead.
  destruct (destination_table_rows now destinations purchases perf Hperf)
    as (groups & rows & revenues & _ & F & Hsort).
  set (bk := map (fun kg => Gold.dest_total_bookings (snd kg)) groups) in F.
  assert (Hbk : map GoldDestinations.total_bookings rows = bk).
  { unfold bk. apply Forall2_map_eq. eapply Forall2_impl; [|exact F].
    intros kg r Hr. simpl in Hr.
    destruct (destination_row_rank _ _ _ _ _ _ Hr) as (_ & _ & _ & Hb & _).
    exact Hb. }
  assert (Rank : forall r, In r perf ->
            GoldDestinations.booking_rank r = Some (1 + Z.of_nat (ahead r))).
  { intros r Hr. rewrite Hsort in Hr. apply order_by_In in Hr.
    destruct (Forall2_In_right _ _ _ F r Hr) as (kg & _ & Hkg).
    simpl in Hkg.
    destruct (destination_row_rank _ _ _ _ _ _ Hkg)
      as (_ & _ & _ & Hb & _ & Hrank & _).
    rewrite Hrank, <- Hb. unfold Relational.RANK_desc. do 3 f_equal.
    rewrite <- Hbk, filter_map_length. unfold ahead. rewrite Hsort.
    symmetry. apply order_by_filter_length. }
  split; [exact Rank|]. split; [|split].
  - intros r1 r2 H1 H2 E. rewrite (Rank r1 H1), (Rank r2 H2).
    unfold ahead. rewrite E. reflexivity.
  - intros r1 r2 b1 b2 n1 n2 H1 H2 E1 E2 Hlt N1 N2.
    assert (Q1 : n1 = 1 + Z.of_nat (ahead r1))
      by (pose proof (Rank r1 H1); congruence).
    assert (Q2 : n2 = 1 + Z.of_nat (ahead r2))
      by (pose proof (Rank r2 H2); congruence).
    assert ((ahead r1 < ahead r2)%nat); [|lia].
    unfold ahead. apply (filter_length_lt _ _ perf r1).
    + intros y Hy. eapply before_desc_Z_trans; [exact Hy|].
      rewrite E1, E2. simpl. unfold ltb. simpl.
      apply negb_true_iff. apply Z.leb_gt. exact Hlt.
    + exact H1.
    + apply before_desc_Z_irrefl.
    + rewrite E1, E2. simpl. unfold ltb. simpl.
      apply negb_true_iff. apply Z.leb_gt. exact Hlt.
  - intros r Hr. eexists. split; [apply Rank; exact Hr|].
    assert ((ahead r < length perf)%nat); [|lia].
    unfold ahead.
    pose proof (filter_length_lt
                  (fun r' => Relational.before_desc
                               (GoldDestinations.total_bookings r')
                               (GoldDestinations.total_bookings r))
                  (fun _ => true) perf r (fun _ _ => eq_refl) Hr
                  (before_desc_Z_irrefl _) eq_refl) as L.
    rewrite filter_true in L. exact L.
Qed.

Lemma booking_rank_competition_witness :
  let destinations :=
    Silver.silver_destinations 0
      [ Sample.destination (Some 3) (Some "lisbon"%string) (Some (387 # 10)%Q)
                           (Some (-91 # 10)%Q);
        Sample.no_latitude;
        Sample.destination (Some 5) (Some "oslo"%string) (Some (599 # 10)%Q)
                           (Some (107 # 10)%Q) ] in
  exists perf r1 r2,
    Gold.gold_destination_performance 0 destinations Sample.four_months
    = Ok perf /\
    In r1 perf /\ In r2 perf /\
    GoldDestinations.destination_id r1 = Some 4 /\
    GoldDestinations.destination_id r2 = Some 5 /\
    GoldDestinations.booking_rank r1 = GoldDestinations.booking_rank r2.
Proof.
  intro destinations.
  destruct (Gold.gold_destination_performance 0 destinations Sample.four_months)
    as [perf|e] eqn:Hperf; [|vm_compute in Hperf; discriminate Hperf].
  assert (Hrows : exists r1 r2, In r1 perf /\ In r2 perf /\
            GoldDestinations.destination_id r1 = Some 4 /\
            GoldDestinations.destination_id r2 = Some 5 /\
            GoldDestinations.total_bookings r1
            = GoldDestinations.total_bookings r2).
  { pose proof Hperf as E. vm_compute in E. apply Ok_inj in E. subst perf.
    eexists. eexists.
    split; [right; left; reflexivity|].
    split; [right; right; left; reflexivity|].
    repeat split. }
  destruct Hrows as (r1 & r2 & H1 & H2 & I1 & I2 & E).
  exists perf, r1, r2. repeat split; try assumption.
  apply (booking_rank_competition 0 destinations Sample.four_months perf Hperf);
    assumption.
Defined.

(** ** Grouping keys: equality of keys is an equivalence *)

Import Relational.

Lemma same_equivalence {A} `{Ord A} :
  equivalence_b (@eqb A _) -> equivalence_b (@Relational.same A _).
Proof.
  intros (R & S & T). repeat split.
  - intros [a|]; simpl; auto.
  - intros [a|] [b|]; simpl; auto.
  - intros [a|] [b|] [c|]; simpl; try congruence. apply T.
Qed.

Lemma same_Z_equivalence : equivalence_b (@Relational.same Z _).
Proof.
  apply same_equivalence. simpl. repeat split.
  - apply Z.eqb_refl.
  - intros a b. rewrite !Z.eqb_eq. congruence.
  - intros a b c. rewrite !Z.eqb_eq. congruence.
Qed.

Lemma same_Q_equivalence : equivalence_b (@Relational.same Q _).
Proof.
  apply same_equivalence. simpl. repeat split.
  - apply Qeq_bool_refl.
  - apply Qeq_bool_sym.
  - apply Qeq_bool_trans.
Qed.

Lemma same_string_equivalence : equivalence_b (@Relational.same string _).
Proof.
  apply same_equivalence. simpl. repeat split.
  - apply String.eqb_refl.
  - intros a b. rewrite !String.eqb_eq. congruence.
  - intros a b c. rewrite !String.eqb_eq. congruence.
Qed.

Lemma same_Z_eq (x y : option Z) : Relational.same x y = true <-> x = y.
Proof.
  destruct x as [a|], y as [b|]; simpl; split; try congruence.
  - intro H. apply Z.eqb_eq in H. congruence.
  - intros [= ->]. apply Z.eqb_refl.
Qed.

(** Splitting every tuple of the context into its components. *)
Ltac split_keys :=
  repeat match goal with
         | k : ?T |- _ =>
             let T' := eval hnf in T in
             match T' with
             | (_ * _)%type => destruct k
             end
         end.

(** Closing a conjunction of component equalities. *)
Ltac key_equivalence :=
  repeat split;
  [ intros; split_keys; cbn;
    rewrite ?(proj1 same_Z_equivalence), ?(proj1 same_Q_equivalence),
      ?(proj1 same_string_equivalence); reflexivity
  | intros a b; split_keys; cbn;
    rewrite !andb_true_iff; intuition;
    first [ apply (proj1 (proj2 same_Z_equivalence))
          | apply (proj1 (proj2 same_Q_equivalence))
          | apply (proj1 (proj2 same_string_equivalence)) ]; assumption
  | intros a b c; split_keys; cbn;
    rewrite !andb_true_iff; intuition;
    first [ eapply (proj2 (proj2 same_Z_equivalence))
          | eapply (proj2 (proj2 same_Q_equivalence))
          | eapply (proj2 (proj2 same_string_equivalence)) ]; eassumption ].

Lemma same_month_key_equivalence : equivalence_b Gold.same_month_key.
Proof. unfold Gold.same_month_key. key_equivalence. Qed.

Lemma same_daily_key_equivalence : equivalence_b Gold.same_daily_key.
Proof. unfold Gold.same_daily_key. key_equivalence. Qed.

Lemma same_dest_key_equivalence : equivalence_b Gold.same_dest_key.
Proof. unfold Gold.same_dest_key. key_equivalence. Qed.

Lemma same_user_key_equivalence : equivalence_b Gold.same_user_key.
Proof. unfold Gold.same_user_key. key_equivalence. Qed.

(** ** GROUP BY partitions the rows *)

Section Distinct.
Context {K : Type} (eq_key : K -> K -> bool).
Hypothesis eq_key_equivalence : equivalence_b eq_key.

Lemma distinct_In (k : K) (l : list K) :
  In k (distinct eq_key l) -> In k l.
Proof.
  induction l as [|a l IH]; simpl; [tauto|].
  intros [->|H]; [left; reflexivity|]. right. apply IH.
  apply filter_In in H. tauto.
Qed.

Lemma distinct_represents (x : K) (l : list K) :
  In x l -> exists k, In k (distinct eq_key l) /\ eq_key k x = true.
Proof.
  destruct eq_key_equivalence as (R & S & T).
  induction l as [|a l IH]; simpl; [tauto|].
  intros [->|Hx].
  - exists x. split; [left; reflexivity|apply R].
  - destruct (IH Hx) as (k & Hk & Hkx).
    destruct (eq_key a k) eqn:E.
    + exists a. split; [left; reflexivity|]. exact (T _ _ _ E Hkx).
    + exists k. split; [|exact Hkx]. right. apply filter_In.
      split; [exact Hk|]. rewrite E. reflexivity.
Qed.

(** Exactly one representative of [distinct] equals a given element. *)
Lemma distinct_unique (x : K) (l : list K) :
  In x l -> length (filter (fun k => eq_key k x) (distinct eq_key l)) = 1%nat.
Proof.
  destruct eq_key_equivalence as (R & S & T).
  intro Hx. destruct (distinct_represents x l Hx) as (k & Hk & Hkx).
  pose proof (distinct_pairwise eq_key l) as P.
  revert Hk. generalize (distinct eq_key l) P. clear Hx.
  induction 1 as [|a m Ha Hm IH]; intro Hk; [contradiction|].
  simpl. destruct (eq_key a x) eqn:E.
  - simpl. f_equal. rewrite filter_nil_of_false; [reflexivity|].
    intros y Hy. rewrite Forall_forall in Ha. specialize (Ha y Hy).
    destruct (eq_key y x) eqn:Ey; [|reflexivity].
    rewrite (T a x y E (S _ _ Ey)) in Ha. discriminate Ha.
  - destruct Hk as [->|Hk]; [congruence|]. apply IH. exact Hk.
Qed.

End Distinct.

Lemma count_swap {K A} (P : K -> A -> bool) (ks : list K) (rows : list A) :
  list_sum (map (fun k => length (filter (P k) rows)) ks)
  = list_sum (map (fun r => length (filter (fun k => P k r) ks)) rows).
Proof.
  induction ks as [|k ks IH]; simpl.
  - induction rows as [|r rows IHr]; simpl; [reflexivity|exact IHr].
  - rewrite IH. clear IH.
    induction rows as [|r rows IHr]; simpl; [reflexivity|].
    destruct (P k r); simpl; lia.
Qed.

Lemma group_sizes_sum {K A} (eq_key : K -> K -> bool) (key : A -> K)
    (rows : list A) :
  equivalence_b eq_key ->
  list_sum (map (fun kg => length (snd kg))
                (Relational.group_by eq_key key rows))
  = length rows.
Proof.
  intro E. unfold Relational.group_by. rewrite map_map. simpl.
  rewrite (count_swap (fun k r => eq_key k (key r))).
  assert (H : forall r, In r rows ->
            length (filter (fun k => eq_key k (key r))
                           (distinct eq_key (map key rows))) = 1%nat).
  { intros r Hr. apply (distinct_unique eq_key E). apply in_map. exact Hr. }
  revert H. generalize (distinct eq_key (map key rows)). intros ks H.
  induction rows as [|r rows IH]; simpl; [reflexivity|].
  rewrite (H r (or_introl eq_refl)). simpl. f_equal. apply IH.
  intros x Hx. apply H. right. exact Hx.
Qed.

Lemma group_by_nonempty {K A} (eq_key : K -> K -> bool) (key : A -> K)
    (rows : list A) (kg : K * list A) :
  equivalence_b eq_key ->
  In kg (Relational.group_by eq_key key rows) -> snd kg <> [].
Proof.
  intros (R & S & T) H. unfold Relational.group_by in H.
  apply in_map_iff in H. destruct H as (k & <- & Hk). simpl.
  apply distinct_In in Hk. apply in_map_iff in Hk.
  destruct Hk as (r & <- & Hr).
  assert (In r (filter (fun r0 => eq_key (key r) (key r0)) rows)).
  { apply filter_In. split; [exact Hr|apply R]. }
  intro N. rewrite N in H. contradiction.
Qed.

Lemma SUM_Z_char (xs : list (option Z)) :
  SUM_Z xs = match length (non_null xs) with
             | O => None
             | S _ => Some (fold_right Z.add 0 (non_null xs))
             end.
Proof. unfold SUM_Z. destruct (non_null xs); reflexivity. Qed.

Lemma insert_sorted_non_null {A} (f : A -> option Z) (le : A -> A -> bool)
    (a : A) (l : list A) :
  fold_right Z.add 0 (non_null (map f (Relational.insert_sorted le a l)))
  = fold_right Z.add 0 (non_null (map f (a :: l))) /\
  length (non_null (map f (Relational.insert_sorted le a l)))
  = length (non_null (map f (a :: l))).
Proof.
  induction l as [|b l [IH1 IH2]]; [split; reflexivity|].
  simpl Relational.insert_sorted. destruct (le a b); [split; reflexivity|].
  simpl in *. destruct (f b), (f a); simpl in *; split; lia.
Qed.

Lemma order_by_SUM_Z {A} (f : A -> option Z) (le : A -> A -> bool)
    (l : list A) :
  SUM_Z (map f (Relational.order_by le l)) = SUM_Z (map f l).
Proof.
  rewrite !SUM_Z_char.
  assert (H : fold_right Z.add 0
                (non_null (map f (Relational.order_by le l)))
              = fold_right Z.add 0 (non_null (map f l)) /\
              length (non_null (map f (Relational.order_by le l)))
              = length (non_null (map f l))).
  { induction l as [|a l [IH1 IH2]]; [split; reflexivity|].
    simpl Relational.order_by.
    destruct (insert_sorted_non_null f le a (Relational.order_by le l))
      as [H1 H2].
    rewrite H1, H2. simpl. destruct (f a); simpl; split; congruence. }
  destruct H as [-> ->]. reflexivity.
Qed.

(** The sum of the sizes of the groups, as SQL's SUM gives it. *)
Lemma SUM_Z_group_sizes {K A} (eq_key : K -> K -> bool) (key : A -> K)
    (rows : list A) :
  equivalence_b eq_key ->
  SUM_Z (map (fun kg => Some (COUNT_star (snd kg)))
             (Relational.group_by eq_key key rows))
  = match rows with
    | [] => None
    | _ => Some (COUNT_star rows)
    end.
Proof.
  intro E. pose proof (group_sizes_sum eq_key key rows E) as S.
  rewrite SUM_Z_char.
  assert (N : forall gs : list (K * list A),
            non_null (map (fun kg => Some (COUNT_star (snd kg))) gs)
            = map (fun kg => COUNT_star (snd kg)) gs).
  { induction gs as [|g gs IH]; simpl; [reflexivity|]. rewrite IH.
    reflexivity. }
  assert (F : forall gs : list (K * list A),
            fold_right Z.add 0 (map (fun kg => COUNT_star (snd kg)) gs)
            = Z.of_nat (list_sum (map (fun kg => length (snd kg)) gs))).
  { induction gs as [|g gs IH]; simpl; [reflexivity|]. rewrite IH.
    unfold COUNT_star. lia. }
  rewrite N, F, S, length_map.
  destruct rows as [|r rows]; [reflexivity|].
  destruct (Relational.group_by eq_key key (r :: rows)) eqn:G.
  - simpl in S. discriminate S.
  - reflexivity.
Qed.

Lemma monthly_row_counts (now : Calendar.timestamp) (k : Gold.month_key)
    (g : list SilverPurchases.row) (prev : option Q) (r : GoldMonthly.row) :
  Gold.monthly_row now k g prev = Ok r ->
  Gold.period_of r = k /\
  GoldMonthly.total_transactions r = Some (COUNT_star g) /\
  GoldMonthly.total_bookings r = Gold.month_total_bookings g /\
  GoldMonthly.monthly_revenue_usd r = Gold.monthly_revenue g /\
  GoldMonthly.prev_month_revenue r = prev.
Proof.
  unfold Gold.monthly_row.
  destruct (rate_pct_total (Gold.month_total_bookings g) (Some (COUNT_star g)))
    as [v Hv].
  rewrite Hv. simpl. intro H. apply Ok_inj in H. subst r.
  unfold Gold.period_of. simpl. destruct k. auto.
Qed.

(** The rows of the monthly summary before the final ORDER BY, against the
    groups in window order. *)
Lemma monthly_table_rows (now : Calendar.timestamp)
    (silver : list SilverPurchases.row) (out : list GoldMonthly.row) :
  Gold.gold_monthly_summary now silver = Ok out ->
  exists window prevs rows,
    window = Relational.order_by
               (fun a b => Gold.le_month_key (fst a) (fst b))
               (Relational.group_by Gold.same_month_key Gold.month_key_of
                                    silver) /\
    length window = length prevs /\
    Forall2 (fun kgp r =>
               Gold.monthly_row now (fst (fst kgp)) (snd (fst kgp)) (snd kgp)
               = Ok r) (combine window prevs) rows /\
    out = Relational.order_by
            (fun a b =>
               Gold.le_month_key
                 (GoldMonthly.transaction_year a,
                  GoldMonthly.transaction_month a)
                 (GoldMonthly.transaction_year b,
                  GoldMonthly.transaction_month b)) rows.
Proof.
  intro H. unfold Gold.gold_monthly_summary in H.
  set (window := Relational.order_by _ _) in H.
  set (prevs := Relational.LAG _) in H.
  destruct (mapM _ (combine window prevs)) as [rows|e] eqn:Hrows;
    simpl in H; [|discriminate H].
  apply Ok_inj in H. exists window, prevs, rows.
  split; [reflexivity|]. split; [|split].
  - unfold prevs, Relational.LAG. rewrite lag_from_length, length_map.
    reflexivity.
  - exact (mapM_Forall2 _ _ _ Hrows).
  - symmetry. exact H.
Qed.

(** X8. GROUP BY loses and repeats no row: the [total_transactions] of
    the daily revenue table sum to the number of silver purchases, and so
    do those of the monthly summary (the sum is NULL when there is no
    purchase at all). *)
Theorem transactions_partitioned (now : Calendar.timestamp)
    (purchases : list SilverPurchases.row)
    (daily : list GoldDaily.row) (monthly : list GoldMonthly.row)
    (Hdaily : Gold.gold_daily_revenue_metrics now purchases = Ok daily)
    (Hmonthly : Gold.gold_monthly_summary now purchases = Ok monthly) :
  SUM_Z (map GoldDaily.total_transactions daily)
  = match purchases with
    | [] => None
    | _ => Some (COUNT_star purchases)
    end /\
  SUM_Z (map GoldMonthly.total_transactions monthly)
  = match purchases with
    | [] => None
    | _ => Some (COUNT_star purchases)
    end.
Proof.
  split.
  - unfold Gold.gold_daily_revenue_metrics in Hdaily.
    destruct (mapM _ _) as [rows|e] eqn:Hrows; simpl in Hdaily;
      [|discriminate Hdaily].
    apply Ok_inj in Hdaily. subst daily. rewrite order_by_SUM_Z.
    rewrite <- (SUM_Z_group_sizes Gold.same_daily_key Gold.daily_key_of
                  purchases same_daily_key_equivalence).
    f_equal. apply Forall2_map_eq.
    eapply Forall2_impl; [|exact (mapM_Forall2 _ _ _ Hrows)].
    intros kg r Hr. simpl in Hr.
    destruct (daily_row_revenue _ _ _ _ Hr) as (_ & Hn & _). exact Hn.
  - destruct (monthly_table_rows now purchases monthly Hmonthly)
      as (window & prevs & rows & Hw & Hlen & F & Hout).
    rewrite Hout, order_by_SUM_Z.
    rewrite <- (SUM_Z_group_sizes Gold.same_month_key Gold.month_key_of
                  purchases same_month_key_equivalence).
    rewrite <- (order_by_SUM_Z (fun kg => Some (COUNT_star (snd kg)))
                  (fun a b => Gold.le_month_key (fst a) (fst b))).
    rewrite <- Hw. rewrite <- (map_fst_combine window prevs Hlen) at 1.
    rewrite map_map. f_equal. apply Forall2_map_eq.
    eapply Forall2_impl; [|exact F].
    intros kgp r Hr. simpl in Hr.
    destruct (monthly_row_counts _ _ _ _ _ Hr) as (_ & Hn & _). exact Hn.
Qed.

Lemma transactions_partitioned_witness :
  exists daily monthly,
    Gold.gold_daily_revenue_metrics 0 Sample.four_months = Ok daily /\
    Gold.gold_monthly_summary 0 Sample.four_months = Ok monthly /\
    SUM_Z (map GoldDaily.total_transactions daily) = Some 6 /\
    SUM_Z (map GoldMonthly.total_transactions monthly) = Some 6.
Proof.
  eexists. eexists.
  split; [vm_compute; reflexivity|]. split; [vm_compute; reflexivity|].
  apply (transactions_partitioned 0 Sample.four_months);
    vm_compute; reflexivity.
Defined.

(** ** LEFT JOIN: rows without a match *)

Section LeftJoin.
Context {A B : Type} (on : A -> B -> bool).

Lemma left_join_unmatched (l : list A) (r : list B) (a : A) :
  In a l -> (forall t, In t r -> on a t = false) ->
  In (a, None) (Relational.left_join on l r).
Proof.
  intros Ha Hnone. unfold Relational.left_join. apply in_flat_map.
  exists a. split; [exact Ha|].
  rewrite (filter_nil_of_false (on a) r Hnone). left. reflexivity.
Qed.

Lemma left_join_matched (l : list A) (r : list B) (a : A) (t : B) :
  In (a, Some t) (Relational.left_join on l r) ->
  In a l /\ In t r /\ on a t = true.
Proof.
  unfold Relational.left_join. intro H. apply in_flat_map in H.
  destruct H as (a' & Ha' & H).
  destruct (filter (on a') r) as [|m ms] eqn:E.
  - destruct H as [H|[]]. discriminate H.
  - rewrite <- E in H. apply in_map_iff in H.
    destruct H as (t' & [= -> ->] & Ht). apply filter_In in Ht.
    tauto.
Qed.

(** The joined rows whose left row satisfies [P], when no such left row
    has a match: one row per left row, with NULLs on the right. *)
Lemma left_join_unmatched_rows (P : A -> bool) (l : list A) (r : list B) :
  (forall a t, In a l -> P a = true -> In t r -> on a t = false) ->
  filter (fun j => P (fst j)) (Relational.left_join on l r)
  = map (fun a => (a, None)) (filter P l).
Proof.
  intro H. unfold Relational.left_join.
  induction l as [|a l IH]; [reflexivity|].
  cbn [flat_map]. rewrite filter_app.
  rewrite IH by (intros; eapply H; eauto; right; assumption).
  cbn [filter]. destruct (P a) eqn:Pa.
  - rewrite (filter_nil_of_false (on a) r)
      by (intros t Ht; apply (H a t (or_introl eq_refl) Pa Ht)).
    simpl. rewrite Pa. reflexivity.
  - assert (E : forall m : list (A * option B),
              (forall j, In j m -> fst j = a) ->
              filter (fun j => P (fst j)) m = []).
    { intros m Hm. apply filter_nil_of_false. intros j Hj.
      rewrite (Hm j Hj). exact Pa. }
    rewrite E; [reflexivity|].
    destruct (filter (on a) r); intros j Hj.
    + destruct Hj as [<-|[]]. reflexivity.
    + apply in_map_iff in Hj. destruct Hj as (t & <- & _). reflexivity.
Qed.

End LeftJoin.

Lemma Forall2_In_left {A B} (R : A -> B -> Prop) (l : list A) (out : list B) :
  Forall2 R l out -> forall a, In a l -> exists b, In b out /\ R a b.
Proof.
  induction 1 as [|a b l out Hab _ IH]; intros x Hx; simpl in Hx.
  - contradiction.
  - destruct Hx as [<-|Hx].
    + exists b. split; [left; reflexivity|assumption].
    + destruct (IH x Hx) as (y & Hy & Hxy). exists y.
      split; [right|]; assumption.
Qed.

(** ** Aggregates over a group without transactions *)

Lemma rate_pct_zero_share (n : Z) :
  0 < n -> Gold.rate_pct (Some 0) (Some n) = Ok (Some (0 # 100)%Q).
Proof.
  destruct n as [|p|p]; [lia| |lia]. intros _. reflexivity.
Qed.

Lemma SUM_Q_zeros {A} (l : list A) :
  l <> [] ->
  SUM_Q (map (fun _ => Some (inject_Z 0)) l) = Some (inject_Z 0).
Proof.
  intro H. unfold SUM_Q.
  assert (N : non_null (map (fun _ : A => Some (inject_Z 0)) l)
              = map (fun _ => inject_Z 0) l).
  { clear H. induction l as [|a l IH]; simpl; [reflexivity|].
    rewrite IH. reflexivity. }
  assert (F : forall m : list A,
            fold_right Qplus 0%Q (map (fun _ => inject_Z 0) m) = inject_Z 0).
  { induction m as [|b m IH]; simpl; [reflexivity|]. rewrite IH.
    reflexivity. }
  rewrite N. destruct l as [|a l]; [contradiction|].
  change (Some (fold_right Qplus 0%Q (map (fun _ => inject_Z 0) (a :: l)))
          = Some (inject_Z 0)).
  rewrite F. reflexivity.
Qed.

Lemma non_null_nulls {A B} (l : list A) :
  non_null (map (fun _ => @None B) l) = [].
Proof. induction l; simpl; auto. Qed.

Section NoTransactions.
Context {D : Type} (g : list (D * option SilverPurchases.row)).
Hypothesis g_nonempty : g <> [].
Hypothesis g_unmatched : forall j, In j g -> snd j = None.

Lemma unmatched_t_col {C} (c : SilverPurchases.row -> option C) :
  Gold.t_col c g = map (fun _ => None) g.
Proof.
  unfold Gold.t_col. apply map_ext_in. intros j Hj.
  rewrite (g_unmatched j Hj). reflexivity.
Qed.

Lemma unmatched_t_col_purchased {C} (c : SilverPurchases.row -> option C) :
  Gold.t_col_purchased c g = map (fun _ => None) g.
Proof.
  unfold Gold.t_col_purchased. apply map_ext_in. intros j Hj.
  rewrite (g_unmatched j Hj). reflexivity.
Qed.

Lemma unmatched_flag_sum (c : SilverPurchases.row -> option bool) :
  SUM_Z (map (fun j => Gold.one_if (Relational.col c (snd j))) g) = Some 0.
Proof.
  rewrite (SUM_Z_flags (fun j => Relational.col c (snd j))).
  rewrite filter_nil_of_false
    by (intros x Hx; rewrite (g_unmatched x Hx); reflexivity).
  destruct g; [congruence|reflexivity].
Qed.

Lemma unmatched_revenue :
  SUM_Q (map (fun j => Gold.price_or_zero
                         (Relational.col SilverPurchases.purchased (snd j))
                         (Relational.col SilverPurchases.price_usd (snd j)))
             g) = Some (inject_Z 0).
Proof.
  rewrite <- (SUM_Q_zeros g g_nonempty). f_equal. apply map_ext_in.
  intros j Hj. rewrite (g_unmatched j Hj). reflexivity.
Qed.

Lemma unmatched_count_positive : 0 < COUNT_star g.
Proof. unfold COUNT_star. destruct g; [congruence|]. simpl length. lia. Qed.

End NoTransactions.

(** ** Destinations and users without transactions *)

Lemma same_dest_key_id (k1 k2 : Gold.dest_key) :
  Gold.same_dest_key k1 k2 = true ->
  fst (fst (fst (fst k1))) = fst (fst (fst (fst k2))).
Proof.
  destruct k1 as [[[[i1 n1] la1] lo1] h1], k2 as [[[[i2 n2] la2] lo2] h2].
  simpl. rewrite !andb_true_iff. intros [[[[H _] _] _] _].
  apply same_Z_eq. exact H.
Qed.

Lemma destination_row_history (now : Calendar.timestamp)
    (bookings : list (option Z)) (revenues : list (option Q))
    (k : Gold.dest_key) (g : list Gold.dest_joined)
    (r : GoldDestinations.row) :
  Gold.destination_row now bookings revenues k g = Ok r ->
  Gold.dest_click_rate_pct g = Ok (GoldDestinations.click_rate_pct r) /\
  Gold.dest_booking_rate_pct g = Ok (GoldDestinations.booking_rate_pct r) /\
  GoldDestinations.avg_booking_value_usd r
  = ROUND (AVG (Gold.t_col_purchased SilverPurchases.price_usd g)) 2 /\
  GoldDestinations.unique_visitors r
  = Some (COUNT_DISTINCT (Gold.t_col SilverPurchases.user_id g)) /\
  GoldDestinations.first_transaction r
  = MIN (Gold.t_col SilverPurchases.transaction_timestamp g) /\
  GoldDestinations.last_transaction r
  = MAX (Gold.t_col SilverPurchases.transaction_timestamp g).
Proof.
  destruct k as [[[[i n] la] lo] h]. unfold Gold.destination_row.
  destruct (rate_pct_total (Gold.dest_total_clicks g) (Some (COUNT_star g)))
    as [v Hv].
  destruct (rate_pct_total (Gold.dest_total_bookings g)
                           (Gold.dest_total_clicks g)) as [w Hw].
  unfold Gold.dest_click_rate_pct, Gold.dest_booking_rate_pct.
  rewrite Hv, Hw. simpl. intro H. apply Ok_inj in H. subst r. simpl.
  repeat split.
Qed.

(** X9. A silver destination that no silver purchase refers to is still
    in the destination table (under a key equal to its own), with
    [total_views] counting the destination rows of that key (at least 1,
    though nobody viewed it), 0 clicks and bookings, a click rate of 0.00,
    a NULL booking rate, a revenue of 0.00 and no visitor or
    transaction time. *)
Theorem destination_without_purchases (now : Calendar.timestamp)
    (destinations : list SilverDestinations.row)
    (purchases : list SilverPurchases.row)
    (perf : list GoldDestinations.row) (d : SilverDestinations.row)
    (Hperf : Gold.gold_destination_performance now destinations purchases
             = Ok perf)
    (Hd : In d destinations)
    (Hnone : forall t, In t purchases ->
       holds (EQ (SilverDestinations.destination_id d)
                 (SilverPurchases.destination_id t)) = false) :
  exists r, In r perf /\
    let k := (GoldDestinations.destination_id r,
              GoldDestinations.destination_name r,
              GoldDestinations.latitude r, GoldDestinations.longitude r,
              GoldDestinations.hemisphere r) in
    let n := COUNT_star
               (filter (fun d' => Gold.same_dest_key k
                                    (Gold.dest_key_of (d', None)))
                       destinations) in
    Gold.same_dest_key k (Gold.dest_key_of (d, None)) = true /\
    GoldDestinations.total_views r = Some n /\ 1 <= n /\
    GoldDestinations.total_clicks r = Some 0 /\
    GoldDestinations.total_bookings r = Some 0 /\
    GoldDestinations.click_rate_pct r = Some (0 # 100)%Q /\
    GoldDestinations.booking_rate_pct r = None /\
    GoldDestinations.total_revenue_usd r = Some (0 # 100)%Q /\
    GoldDestinations.avg_booking_value_usd r = None /\
    GoldDestinations.unique_visitors r = Some 0 /\
    GoldDestinations.first_transaction r = None /\
    GoldDestinations.last_transaction r = None.
Proof.
  destruct (destination_table_rows now destinations purchases perf Hperf)
    as (groups & rows & revenues & Hgroups & F & Hsort).
  set (on := fun d t => holds (EQ (SilverDestinations.destination_id d)
                                  (SilverPurchases.destination_id t)))
    in Hgroups.
  set (joined := Relational.left_join on destinations purchases) in Hgroups.
  destruct same_dest_key_equivalence as (R & S & T).
  (* the group that holds the unmatched row of [d] *)
  assert (Hj : In (d, None) joined)
    by (apply left_join_unmatched; assumption).
  destruct (distinct_represents Gold.same_dest_key same_dest_key_equivalence
              (Gold.dest_key_of (d, None)) (map Gold.dest_key_of joined))
    as (k & Hk & Hkd).
  { apply (in_map Gold.dest_key_of) in Hj. exact Hj. }
  set (P := fun d' : SilverDestinations.row =>
              Gold.same_dest_key k (Gold.dest_key_of (d', None))).
  set (g := filter (fun j => Gold.same_dest_key k (Gold.dest_key_of j)) joined).
  assert (Hkg : In (k, g) groups).
  { rewrite Hgroups. unfold Relational.group_by. apply in_map_iff.
    exists k. split; [reflexivity|exact Hk]. }
  destruct (Forall2_In_left _ _ _ F (k, g) Hkg) as (r & Hr & Hrow).
  simpl in Hrow.
  (* its rows are the destination rows of that key, all unmatched *)
  assert (Hg : g = map (fun a => (a, None)) (filter P destinations)).
  { apply (left_join_unmatched_rows on P). intros a t Ha Pa Ht.
    unfold on. replace (SilverDestinations.destination_id a)
      with (SilverDestinations.destination_id d); [apply Hnone; exact Ht|].
    pose proof (same_dest_key_id _ _ Pa) as Ia.
    pose proof (same_dest_key_id _ _ Hkd) as Id.
    simpl in Ia, Id. congruence. }
  assert (HdP : In d (filter P destinations))
    by (apply filter_In; split; [exact Hd|exact Hkd]).
  assert (Hne : g <> []).
  { rewrite Hg. intro N. apply (in_map (fun a => (a, @None SilverPurchases.row)))
      in HdP. rewrite N in HdP. contradiction. }
  assert (Hun : forall j, In j g -> snd j = None).
  { intros j Hjg. rewrite Hg in Hjg. apply in_map_iff in Hjg.
    destruct Hjg as (a & <- & _). reflexivity. }
  destruct (destination_row_rank _ _ _ _ _ _ Hrow)
    as (Hkey & Hviews & Hclicks & Hbook & Hrev & _).
  destruct (destination_row_history _ _ _ _ _ _ Hrow)
    as (Hcr & Hbr & Havg & Hvis & Hfirst & Hlast).
  unfold Gold.dest_joined in *.
  exists r. split; [rewrite Hsort; apply order_by_In; exact Hr|].
  cbv zeta. rewrite Hkey. fold P.
  assert (Hcount : COUNT_star g = COUNT_star (filter P destinations))
    by (rewrite Hg; unfold COUNT_star; rewrite length_map; reflexivity).
  split; [exact Hkd|]. split; [rewrite Hviews, Hcount; reflexivity|].
  split.
  { rewrite <- Hcount. apply Z.lt_pred_le.
    exact (unmatched_count_positive g Hne Hun). }
  assert (C0 : Gold.dest_total_clicks g = Some 0)
    by (apply unmatched_flag_sum; assumption).
  assert (B0 : Gold.dest_total_bookings g = Some 0)
    by (apply unmatched_flag_sum; assumption).
  split; [rewrite Hclicks; exact C0|]. split; [rewrite Hbook; exact B0|].
  split.
  { assert (Hc : Gold.dest_click_rate_pct g = Ok (Some (0 # 100)%Q)).
    { unfold Gold.dest_click_rate_pct. rewrite C0.
      apply rate_pct_zero_share.
      exact (unmatched_count_positive g Hne Hun). }
    congruence. }
  split.
  { unfold Gold.dest_booking_rate_pct in Hbr. rewrite C0 in Hbr.
    rewrite rate_pct_zero_denominator in Hbr. congruence. }
  split.
  { rewrite Hrev. unfold Gold.dest_revenue.
    rewrite (unmatched_revenue g Hne Hun). reflexivity. }
  split.
  { rewrite Havg, (unmatched_t_col_purchased g Hun). unfold AVG.
    rewrite non_null_nulls. reflexivity. }
  split.
  { rewrite Hvis, (unmatched_t_col g Hun). unfold COUNT_DISTINCT.
    rewrite non_null_nulls. reflexivity. }
  split.
  - rewrite Hfirst, (unmatched_t_col g Hun). unfold MIN.
    rewrite non_null_nulls. reflexivity.
  - rewrite Hlast, (unmatched_t_col g Hun). unfold MAX.
    rewrite non_null_nulls. reflexivity.
Qed.

Lemma destination_without_purchases_witness :
  exists perf r,
    Gold.gold_destination_performance 0 Sample.destinations Sample.four_months
    = Ok perf /\
    In r perf /\
    GoldDestinations.destination_id r = Some 4 /\
    GoldDestinations.total_clicks r = Some 0 /\
    GoldDestinations.booking_rate_pct r = None.
Proof.
  destruct (Gold.gold_destination_performance 0 Sample.destinations
                                              Sample.four_months)
    as [perf|e] eqn:Hperf; [|vm_compute in Hperf; discriminate Hperf].
  destruct (destination_without_purchases 0 Sample.destinations
              Sample.four_months perf
              (Silver.clean_destination (Sample.t0 + 120) Sample.no_latitude)
              Hperf)
    as (r & Hr & Hk & _ & _ & Hc & _ & _ & Hb & _).
  - right. left. reflexivity.
  - intros t Ht. vm_compute in Ht.
    repeat (destruct Ht as [<-|Ht]; [reflexivity|]). contradiction.
  - exists perf, r. repeat split; try assumption.
    apply same_dest_key_id in Hk. exact Hk.
Defined.

Lemma same_user_key_id (k1 k2 : Gold.user_key) :
  Gold.same_user_key k1 k2 = true ->
  fst (fst (fst (fst (fst (fst k1))))) = fst (fst (fst (fst (fst (fst k2))))).
Proof.
  destruct k1 as [[[[[[i1 f1] p1] a1] n1] la1] lo1],
           k2 as [[[[[[i2 f2] p2] a2] n2] la2] lo2].
  simpl. rewrite !andb_true_iff. intros [[[[[[H _] _] _] _] _] _].
  apply same_Z_eq. exact H.
Qed.

Lemma user_row_total (now : Calendar.timestamp) (k : Gold.user_key)
    (g : list Gold.user_joined) :
  exists r, Gold.user_row now k g = Ok r.
Proof.
  destruct k as [[[[[[i f] p] a] n] la] lo]. unfold Gold.user_row.
  destruct (rate_pct_total (Gold.user_total_purchases g) (Some (COUNT_star g)))
    as [v Hv].
  rewrite Hv. simpl. eexists. reflexivity.
Qed.

Lemma user_row_columns (now : Calendar.timestamp) (k : Gold.user_key)
    (g : list Gold.user_joined) (r : GoldUsers.row) :
  Gold.user_row now k g = Ok r ->
  (GoldUsers.user_id r, GoldUsers.purchase_frequency_segment r,
   GoldUsers.price_segment r, GoldUsers.historical_avg_price r,
   GoldUsers.historical_purchases r, GoldUsers.user_latitude r,
   GoldUsers.user_longitude r) = k /\
  GoldUsers.total_interactions r
  = Some (COUNT (Gold.t_col SilverPurchases.transaction_id g)) /\
  GoldUsers.total_purchases r = Gold.user_total_purchases g /\
  Gold.rate_pct (Gold.user_total_purchases g) (Some (COUNT_star g))
  = Ok (GoldUsers.conversion_rate_pct r) /\
  GoldUsers.total_spend_usd r = ROUND (Gold.user_spend g) 2 /\
  GoldUsers.avg_purchase_usd r
  = ROUND (AVG (Gold.t_col_purchased SilverPurchases.price_usd g)) 2 /\
  GoldUsers.first_activity r
  = MIN (Gold.t_col SilverPurchases.transaction_timestamp g) /\
  GoldUsers.last_activity r
  = MAX (Gold.t_col SilverPurchases.transaction_timestamp g) /\
  GoldUsers.engagement_days r
  = Calendar.DATEDIFF
      (MAX (Gold.t_col SilverPurchases.transaction_timestamp g))
      (MIN (Gold.t_col SilverPurchases.transaction_timestamp g)) /\
  GoldUsers.customer_tier r = Gold.customer_tier g.
Proof.
  destruct k as [[[[[[i f] p] a] n] la] lo]. unfold Gold.user_row.
  destruct (rate_pct_total (Gold.user_total_purchases g) (Some (COUNT_star g)))
    as [v Hv].
  rewrite Hv. simpl. intro H. apply Ok_inj in H. subst r. simpl.
  repeat split.
Qed.

(** X10. The user engagement table is always produced, and a silver user
    that no silver purchase refers to is in it (under a key equal to its
    own) with 0 interactions and purchases, a conversion rate of 0.00 (not
    NULL: the joined row is counted), a spend of 0.00, no activity dates
    and the tier 'bronze'. *)
Theorem user_without_purchases (now : Calendar.timestamp)
    (users : list SilverUsers.row) (purchases : list SilverPurchases.row)
    (u : SilverUsers.row)
    (Hu : In u users)
    (Hnone : forall t, In t purchases ->
       holds (EQ (SilverUsers.user_id u) (SilverPurchases.user_id t)) = false) :
  exists out r,
    Gold.gold_user_engagement now users purchases = Ok out /\ In r out /\
    Gold.same_user_key
      (GoldUsers.user_id r, GoldUsers.purchase_frequency_segment r,
       GoldUsers.price_segment r, GoldUsers.historical_avg_price r,
       GoldUsers.historical_purchases r, GoldUsers.user_latitude r,
       GoldUsers.user_longitude r)
      (Gold.user_key_of (u, None)) = true /\
    GoldUsers.total_interactions r = Some 0 /\
    GoldUsers.total_purchases r = Some 0 /\
    GoldUsers.conversion_rate_pct r = Some (0 # 100)%Q /\
    GoldUsers.total_spend_usd r = Some (0 # 100)%Q /\
    GoldUsers.avg_purchase_usd r = None /\
    GoldUsers.first_activity r = None /\
    GoldUsers.last_activity r = None /\
    GoldUsers.engagement_days r = None /\
    GoldUsers.customer_tier r = Some "bronze"%string.
Proof.
  unfold Gold.gold_user_engagement.
  set (on := fun u t => holds (EQ (SilverUsers.user_id u)
                                  (SilverPurchases.user_id t))).
  set (joined := Relational.left_join on users purchases).
  set (groups := Relational.group_by Gold.same_user_key Gold.user_key_of joined).
  destruct (mapM_total (fun kg => Gold.user_row now (fst kg) (snd kg)) groups)
    as [out Hout]; [intros kg _; apply user_row_total|].
  exists out. pose proof (mapM_Forall2 _ _ _ Hout) as F.
  assert (Hj : In (u, None) joined)
    by (apply left_join_unmatched; assumption).
  destruct (distinct_represents Gold.same_user_key same_user_key_equivalence
              (Gold.user_key_of (u, None)) (map Gold.user_key_of joined))
    as (k & Hk & Hku).
  { apply (in_map Gold.user_key_of) in Hj. exact Hj. }
  set (P := fun u' : SilverUsers.row =>
              Gold.same_user_key k (Gold.user_key_of (u', None))).
  set (g := filter (fun j => Gold.same_user_key k (Gold.user_key_of j)) joined).
  assert (Hkg : In (k, g) groups).
  { unfold groups, Relational.group_by. apply in_map_iff.
    exists k. split; [reflexivity|exact Hk]. }
  destruct (Forall2_In_left _ _ _ F (k, g) Hkg) as (r & Hr & Hrow).
  simpl in Hrow.
  assert (Hg : g = map (fun a => (a, None)) (filter P users)).
  { apply (left_join_unmatched_rows on P). intros a t Ha Pa Ht.
    unfold on. replace (SilverUsers.user_id a) with (SilverUsers.user_id u);
      [apply Hnone; exact Ht|].
    pose proof (same_user_key_id _ _ Pa) as Ia.
    pose proof (same_user_key_id _ _ Hku) as Iu.
    simpl in Ia, Iu. congruence. }
  assert (HuP : In u (filter P users))
    by (apply filter_In; split; [exact Hu|exact Hku]).
  assert (Hne : g <> []).
  { rewrite Hg. intro N.
    apply (in_map (fun a => (a, @None SilverPurchases.row))) in HuP.
    rewrite N in HuP. contradiction. }
  assert (Hun : forall j, In j g -> snd j = None).
  { intros j Hjg. rewrite Hg in Hjg. apply in_map_iff in Hjg.
    destruct Hjg as (a & <- & _). reflexivity. }
  destruct (user_row_columns _ _ _ _ Hrow)
    as (Hkey & Hint & Hpur & Hconv & Hspend & Havg & Hfirst & Hlast & Hdays
        & Htier).
  exists r. split; [exact Hout|]. split; [exact Hr|].
  rewrite Hkey. split; [exact Hku|].
  assert (P0 : Gold.user_total_purchases g = Some 0)
    by (apply unmatched_flag_sum; assumption).
  assert (S0 : Gold.user_spend g = Some (inject_Z 0))
    by (apply unmatched_revenue; assumption).
  split.
  { rewrite Hint, (unmatched_t_col g Hun). unfold COUNT.
    rewrite non_null_nulls. reflexivity. }
  split; [rewrite Hpur; exact P0|].
  split.
  { assert (Hc : Gold.rate_pct (Gold.user_total_purchases g)
                               (Some (COUNT_star g))
                 = Ok (Some (0 # 100)%Q)).
    { rewrite P0. apply rate_pct_zero_share.
      exact (unmatched_count_positive g Hne Hun). }
    congruence. }
  split; [rewrite Hspend, S0; reflexivity|].
  split.
  { rewrite Havg, (unmatched_t_col_purchased g Hun). unfold AVG.
    rewrite non_null_nulls. reflexivity. }
  assert (M1 : MIN (Gold.t_col SilverPurchases.transaction_timestamp g) = None).
  { rewrite (unmatched_t_col g Hun). unfold MIN. rewrite non_null_nulls.
    reflexivity. }
  assert (M2 : MAX (Gold.t_col SilverPurchases.transaction_timestamp g) = None).
  { rewrite (unmatched_t_col g Hun). unfold MAX. rewrite non_null_nulls.
    reflexivity. }
  split; [rewrite Hfirst; exact M1|]. split; [rewrite Hlast; exact M2|].
  split; [rewrite Hdays, M1, M2; reflexivity|].
  rewrite Htier. unfold Gold.customer_tier. rewrite S0. reflexivity.
Qed.

Lemma user_without_purchases_witness :
  exists out r,
    Gold.gold_user_engagement 0 Sample.users
      (Silver.silver_travel_purchases 0
         [Sample.booking Sample.t0 11 (2500 # 1)%Q]) = Ok out /\
    In r out /\
    GoldUsers.user_id r = Some 8 /\
    GoldUsers.conversion_rate_pct r = Some (0 # 100)%Q /\
    GoldUsers.customer_tier r = Some "bronze"%string.
Proof.
  destruct (user_without_purchases 0 Sample.users
              (Silver.silver_travel_purchases 0
                 [Sample.booking Sample.t0 11 (2500 # 1)%Q])
              (Silver.clean_user (Sample.t0 + 120)
                                 (Sample.user (Some 8) None None)))
    as (out & r & Hout & Hr & Hk & _ & _ & Hc & _ & _ & _ & _ & _ & Ht).
  - right. left. reflexivity.
  - intros t [<-|[]]. reflexivity.
  - exists out, r. repeat split; try assumption.
    apply same_user_key_id in Hk. exact Hk.
Defined.

(** ** The audit: where a FAIL can come from *)

Lemma record_count_check_kind (session : spark) (entry : string * string)
    (r : dq_result) :
  In r (record_count_check session entry) -> check r = "record_count"%string.
Proof.
  destruct entry as [t l]. simpl.
  destruct (table_count session t); intros [<-|[]]; reflexivity.
Qed.

Lemma record_count_check_length (session : spark) (es : list (string * string)) :
  length (flat_map (record_count_check session) es) = length es.
Proof.
  induction es as [|[t l] es IH]; simpl; [reflexivity|].
  destruct (table_count session t); simpl; rewrite IH; reflexivity.
Qed.

Lemma freshness_check_status (session : spark) (entry : string * string)
    (r : dq_result) :
  In r (freshness_check session entry) ->
  check r = "data_freshness"%string /\ (status r = PASS \/ status r = WARN).
Proof.
  destruct entry as [t c]. simpl.
  destruct (max_ts_query session t c) as [[ts|]|e]; simpl;
    try (intros [<-|[]]; simpl; auto); [|contradiction].
  split; [reflexivity|].
  destruct (ltb _ _); auto.
Qed.

Lemma freshness_check_length (session : spark) (es : list (string * string)) :
  length (flat_map (freshness_check session) es)
  = length (filter (fun e => match max_ts_query session (fst e) (snd e) with
                             | Ok _ => true
                             | Err _ => false
                             end) es).
Proof.
  induction es as [|[t c] es IH]; simpl; [reflexivity|].
  destruct (max_ts_query session t c); simpl; rewrite IH; reflexivity.
Qed.

Lemma orphan_check_status (target : string) (n : Z) :
  (status (orphan_check target n) = PASS <-> n = 0) /\
  (status (orphan_check target n) = WARN <-> n <> 0).
Proof.
  unfold orphan_check. simpl. destruct (Z.eqb_spec n 0); split; split;
    congruence.
Qed.

(** X11. In a checklist that ran to its end, only a record-count or a
    business-rule result can have status FAIL: referential-integrity and
    freshness results are PASS or WARN.  The audit log then has 14 rows
    plus one per freshness query that answered, so between 14 and 17. *)
Theorem audit_results_shape (session : spark) (rs : list dq_result)
    (Hrun : run_checks session = Ok rs) :
  (forall r, In r rs -> status r = FAIL ->
     check r = "record_count"%string \/ check r = "business_rule"%string) /\
  length rs
  = (14 + length (filter (fun e =>
                            match max_ts_query session (fst e) (snd e) with
                            | Ok _ => true
                            | Err _ => false
                            end) freshness_tables))%nat /\
  (14 <= length rs <= 17)%nat.
Proof.
  assert (Hun : forall c, In c unguarded -> evaluation_error session c = None).
  { apply run_checks_completes_iff. exists rs. exact Hrun. }
  pose proof (Hun OrphanUsers (or_introl eq_refl)) as Hou.
  pose proof (Hun OrphanDests (or_intror (or_introl eq_refl))) as Hod.
  pose proof (Hun NegativePrices
                (or_intror (or_intror (or_introl eq_refl)))) as Hnp.
  pose proof (Hun InvalidConversion
                (or_intror (or_intror (or_intror (or_introl eq_refl))))) as Hic.
  simpl in Hou, Hod, Hnp, Hic.
  destruct (orphan_users_query session) as [ou|] eqn:Eou; [|discriminate Hou].
  destruct (orphan_dests_query session) as [od|] eqn:Eod; [|discriminate Hod].
  destruct (neg_prices_query session) as [np|] eqn:Enp; [|discriminate Hnp].
  destruct (invalid_conv_query session) as [ic|] eqn:Eic; [|discriminate Hic].
  rewrite (run_checks_ok session ou od np ic Eou Eod Enp Eic) in Hrun.
  apply Ok_inj in Hrun. subst rs.
  assert (Hlen :
    length
      ((((((flat_map (record_count_check session) tables)
           ++ [orphan_check "silver_travel_purchases -> silver_users" ou])
          ++ [orphan_check "silver_travel_purchases -> silver_destinations" od])
         ++ flat_map (freshness_check session) freshness_tables)
        ++ [business_rule_check "silver_travel_purchases" "silver"
                                "0 negative prices" np])
       ++ [business_rule_check "gold_daily_revenue_metrics" "gold"
                               "0 invalid rates" ic])
    = (14 + length (filter (fun e =>
                              match max_ts_query session (fst e) (snd e) with
                              | Ok _ => true
                              | Err _ => false
                              end) freshness_tables))%nat).
  { rewrite !length_app, record_count_check_length, freshness_check_length.
    match goal with
    | |- context [length (filter ?f freshness_tables)] =>
        generalize (length (filter f freshness_tables))
    end.
    intro n. simpl. lia. }
  split; [|split].
  - intros r Hr Hfail. rewrite !in_app_iff in Hr.
    destruct Hr as [[[[[Hr|Hr]|Hr]|Hr]|Hr]|Hr].
    + left. eapply in_flat_map in Hr. destruct Hr as (e & _ & Hr).
      exact (record_count_check_kind session e r Hr).
    + destruct Hr as [<-|[]]. exfalso.
      destruct (orphan_check_status
                  "silver_travel_purchases -> silver_users" ou) as [P W].
      destruct (Z.eq_dec ou 0) as [E|E]; [apply P in E|apply W in E];
        congruence.
    + destruct Hr as [<-|[]]. exfalso.
      destruct (orphan_check_status
                  "silver_travel_purchases -> silver_destinations" od)
        as [P W].
      destruct (Z.eq_dec od 0) as [E|E]; [apply P in E|apply W in E];
        congruence.
    + exfalso. apply in_flat_map in Hr. destruct Hr as (e & _ & Hr).
      destruct (freshness_check_status session e r Hr) as (_ & [S|S]);
        congruence.
    + destruct Hr as [<-|[]]. right. reflexivity.
    + destruct Hr as [<-|[]]. right. reflexivity.
  - exact Hlen.
  - rewrite Hlen.
    pose proof (filter_length_le'
                  (fun e => match max_ts_query session (fst e) (snd e) with
                            | Ok _ => true
                            | Err _ => false
                            end) freshness_tables) as B.
    change (length freshness_tables) with 3%nat in B. lia.
Qed.

Lemma audit_results_shape_witness :
  exists rs, run_checks Sample.freshness_unreadable = Ok rs /\
             length rs = 16%nat.
Proof.
  eexists. split; [reflexivity|].
  apply (audit_results_shape Sample.freshness_unreadable _ eq_refl).
Defined.

(** ** The audit: the freshness threshold *)

Lemma hours_lt_24 (s : Z) :
  (inject_Z s / inject_Z 3600 < inject_Z 24)%Q <-> s < 86400.
Proof.
  unfold Qlt, Qdiv, Qmult, Qinv, inject_Z. cbn [Qnum Qden].
  rewrite Pos.mul_1_l. lia.
Qed.

(** X12. A freshness query that answers gives one result for its table,
    with the layer read off the table name: PASS exactly when the table has
    a latest timestamp less than 24 hours (86400 seconds) before the clock
    reading, WARN when the table is empty or its latest timestamp is 24
    hours old or more. *)
Theorem freshness_threshold (session : spark) (t c : string)
    (m : option Calendar.timestamp)
    (Hq : max_ts_query session t c = Ok m) :
  exists r, freshness_check session (t, c) = [r] /\
    check r = "data_freshness"%string /\ table r = t /\
    layer r = first_field t /\
    (status r = PASS <->
     exists ts, m = Some ts /\ datetime_now session t - ts < 86400) /\
    (status r = WARN <->
     m = None \/ exists ts, m = Some ts /\ 86400 <= datetime_now session t - ts).
Proof.
  unfold freshness_check. rewrite Hq. eexists. split; [reflexivity|].
  cbn [check table layer status]. repeat split.
  - destruct m as [ts|]; [|discriminate].
    case_ltb (inject_Z (datetime_now session t - ts) / inject_Z 3600)%Q
             (inject_Z 24); [|discriminate].
    intros _. exists ts. split; [reflexivity|]. apply hours_lt_24. exact E.
  - intros (ts & -> & H). apply hours_lt_24 in H. apply ltb_Q_true in H.
    rewrite H. reflexivity.
  - destruct m as [ts|]; [|intros _; left; reflexivity].
    case_ltb (inject_Z (datetime_now session t - ts) / inject_Z 3600)%Q
             (inject_Z 24); [discriminate|].
    intros _. right. exists ts. split; [reflexivity|].
    destruct (Z.lt_ge_cases (datetime_now session t - ts) 86400) as [L|G];
      [|exact G].
    apply hours_lt_24 in L. exfalso. exact (Qlt_not_le _ _ L E).
  - intros [->|(ts & -> & H)]; [reflexivity|].
    case_ltb (inject_Z (datetime_now session t - ts) / inject_Z 3600)%Q
             (inject_Z 24); [|reflexivity].
    apply (proj1 (hours_lt_24 _)) in E. exfalso. lia.
Qed.

Lemma freshness_threshold_witness :
  exists r,
    freshness_check Sample.stale_with_orphans
      ("silver_travel_purchases", "_processed_at")%string = [r] /\
    layer r = "silver"%string /\ status r = WARN.
Proof.
  destruct (freshness_threshold Sample.stale_with_orphans
              "silver_travel_purchases" "_processed_at" _ eq_refl)
    as (r & Hr & _ & _ & Hl & _ & Hw).
  exists r. split; [exact Hr|]. split; [exact Hl|].
  apply Hw. right. eexists. split; [reflexivity|]. vm_compute. discriminate.
Defined.

(** ** The audit: what the orphan queries count *)

Lemma left_join_null_side {A B} (on : A -> B -> bool) (l : list A)
    (r : list B) (a : A) :
  In (a, None) (Relational.left_join on l r) ->
  In a l /\ forall t, In t r -> on a t = false.
Proof.
  unfold Relational.left_join. intro H. apply in_flat_map in H.
  destruct H as (a' & Ha' & H).
  destruct (filter (on a') r) as [|m ms] eqn:E.
  - destruct H as [[= ->]|[]]. split; [exact Ha'|].
    intros t Ht. destruct (on a t) eqn:O; [|reflexivity].
    assert (In t (filter (on a) r)) by (apply filter_In; tauto).
    rewrite E in H. contradiction.
  - apply in_map_iff in H. destruct H as (t & [=] & _).
Qed.

Lemma holds_EQ_Z (x y : option Z) :
  holds (EQ x y) = true <-> exists i, x = Some i /\ y = Some i.
Proof.
  destruct x as [a|], y as [b|]; simpl; split;
    try discriminate; try (intros (i & [=] & [=]); fail).
  - intro H. destruct (Z.eqb_spec a b) as [->|]; [|discriminate H].
    exists b. auto.
  - intros (i & [= ->] & [= ->]). rewrite Z.eqb_refl. reflexivity.
Qed.

Lemma non_null_nil_iff {A} (xs : list (option A)) :
  non_null xs = [] <-> forall x, In x xs -> x = None.
Proof.
  induction xs as [|[v|] xs IH]; simpl.
  - split; [intros _ x []|reflexivity].
  - split; [discriminate|]. intro H.
    discriminate (H (Some v) (or_introl eq_refl)).
  - rewrite IH. split.
    + intros H x [<-|Hx]; [reflexivity|apply H; exact Hx].
    + intros H x Hx. apply H. right. exact Hx.
Qed.

Lemma COUNT_DISTINCT_zero_iff (xs : list (option Z)) :
  COUNT_DISTINCT xs = 0 <-> forall x, In x xs -> x = None.
Proof.
  unfold COUNT_DISTINCT. rewrite <- non_null_nil_iff.
  destruct (non_null xs) as [|v vs] eqn:E.
  - simpl. tauto.
  - split; [|discriminate]. intro H. exfalso.
    assert (In v (nodup Z.eq_dec (v :: vs)))
      by (apply nodup_In; left; reflexivity).
    destruct (nodup Z.eq_dec (v :: vs)); [contradiction|].
    simpl length in H. lia.
Qed.

Section Orphans.
Context {A B : Type} (ka : A -> option Z) (kb : B -> option Z).

(** The shape of both orphan queries: the distinct keys of the left rows
    that the join leaves without a right row. *)
Lemma orphan_count_zero_iff (l : list A) (r : list B) :
  COUNT_DISTINCT
    (map (fun j => ka (fst j))
         (filter (fun j => holds (IS_NULL (Relational.col kb (snd j))))
                 (Relational.left_join
                    (fun a b => holds (EQ (ka a) (kb b))) l r))) = 0
  <-> (forall a i, In a l -> ka a = Some i ->
         exists b, In b r /\ kb b = Some i).
Proof.
  set (on := fun a b => holds (EQ (ka a) (kb b))).
  rewrite COUNT_DISTINCT_zero_iff. split.
  - intros H a i Ha Hi.
    destruct (filter (on a) r) as [|b bs] eqn:E.
    + exfalso.
      assert (Hj : In (a, None) (Relational.left_join on l r)).
      { apply left_join_unmatched; [exact Ha|]. intros t Ht.
        destruct (on a t) eqn:O; [|reflexivity].
        assert (In t (filter (on a) r)) by (apply filter_In; tauto).
        rewrite E in H0. contradiction. }
      assert (Hx : ka a = None).
      { apply H. apply in_map_iff. exists (a, None). split; [reflexivity|].
        apply filter_In. split; [exact Hj|reflexivity]. }
      congruence.
    + assert (Hb : In b (filter (on a) r)) by (rewrite E; left; reflexivity).
      apply filter_In in Hb. destruct Hb as [Hb O]. unfold on in O.
      apply holds_EQ_Z in O. destruct O as (i' & Hi' & Hb').
      exists b. split; [exact Hb|]. congruence.
  - intros H x Hx. apply in_map_iff in Hx. destruct Hx as ([a o] & <- & Hj).
    apply filter_In in Hj. destruct Hj as [Hj W]. simpl in *.
    destruct o as [b|].
    + apply left_join_matched in Hj. destruct Hj as (_ & _ & O).
      unfold on in O. apply holds_EQ_Z in O.
      destruct O as (i & _ & Hb). simpl in W. rewrite Hb in W.
      discriminate W.
    + apply left_join_null_side in Hj. destruct Hj as [Ha Hnone].
      destruct (ka a) as [i|] eqn:Hi; [|reflexivity]. exfalso.
      destruct (H a i Ha Hi) as (b & Hb & Hkb).
      specialize (Hnone b Hb). unfold on in Hnone.
      assert (holds (EQ (ka a) (kb b)) = true)
        by (apply holds_EQ_Z; exists i; auto).
      congruence.
Qed.

End Orphans.

(** X13. The orphan-user query counts 0 exactly when every non-null
    [user_id] of the silver purchases is the [user_id] of some silver user,
    and likewise the orphan-destination query; purchases with a NULL key
    are never counted.  The referential-integrity result is PASS in that
    case and WARN otherwise. *)
Theorem orphan_queries_meaning (purchases : list SilverPurchases.row)
    (users : list SilverUsers.row)
    (destinations : list SilverDestinations.row) (target : string) :
  (Queries.orphan_users purchases users = 0 <->
   forall t i, In t purchases -> SilverPurchases.user_id t = Some i ->
     exists u, In u users /\ SilverUsers.user_id u = Some i) /\
  (Queries.orphan_dests purchases destinations = 0 <->
   forall t i, In t purchases -> SilverPurchases.destination_id t = Some i ->
     exists d, In d destinations /\ SilverDestinations.destination_id d = Some i)
  /\
  (forall n, (status (orphan_check target n) = PASS <-> n = 0) /\
             (status (orphan_check target n) = WARN <-> n <> 0)).
Proof.
  split; [|split].
  - apply (orphan_count_zero_iff SilverPurchases.user_id SilverUsers.user_id).
  - apply (orphan_count_zero_iff SilverPurchases.destination_id
                                 SilverDestinations.destination_id).
  - intro n. apply orphan_check_status.
Qed.

Example orphan_user_counted :
  Queries.orphan_users Sample.four_months (firstn 1 Sample.users) = 1 /\
  Queries.orphan_users Sample.four_months Sample.users = 0 /\
  Queries.orphan_dests Sample.four_months Sample.destinations = 0.
Proof. repeat split. Qed.

(** ** Silver purchases: the calendar columns *)

Lemma civil_ranges (d : Calendar.date) :
  1 <= snd (fst (Calendar.civil d)) <= 12 /\
  1 <= snd (Calendar.civil d) <= 31.
Proof.
  unfold Calendar.civil.
  set (z := d + 719468).
  assert (Hdoe : 0 <= z mod 146097 < 146097) by (apply Z.mod_pos_bound; lia).
  set (doe := z mod 146097) in *.
  set (yoe := (doe - doe / 1460 + doe / 36524 - doe / 146096) / 365).
  set (doy := doe - (365 * yoe + yoe / 4 - yoe / 100)).
  assert (Hdoy : 0 <= doy <= 365).
  { subst doy yoe. Z.div_mod_to_equations. lia. }
  set (mp := (5 * doy + 2) / 153).
  assert (Hmp : 0 <= mp <= 11).
  { subst mp. Z.div_mod_to_equations. lia. }
  cbn [fst snd]. split.
  - destruct (mp <? 10) eqn:E.
    + apply Z.ltb_lt in E. lia.
    + apply Z.ltb_ge in E. lia.
  - subst mp. Z.div_mod_to_equations. lia.
Qed.

(** X14. In every silver purchase [day_type] is 'weekend' exactly when
    [transaction_day_of_week] is 1 or 7 and 'weekday' otherwise; a purchase
    without a timestamp has NULL year, month, day of week and hour and is
    a 'weekday'; with a timestamp the month lies in 1..12, the day of week
    in 1..7 and the hour in 0..23. *)
Theorem calendar_columns (now : Calendar.timestamp)
    (bronze : list BronzePurchases.row) (c : SilverPurchases.row)
    (Hc : In c (Silver.silver_travel_purchases now bronze)) :
  let weekend := SilverPurchases.transaction_day_of_week c = Some 1 \/
                 SilverPurchases.transaction_day_of_week c = Some 7 in
  (SilverPurchases.day_type c = Some "weekend"%string <-> weekend) /\
  (SilverPurchases.day_type c = Some "weekday"%string <-> ~ weekend) /\
  (SilverPurchases.transaction_timestamp c = None ->
     SilverPurchases.transaction_year c = None /\
     SilverPurchases.transaction_month c = None /\
     SilverPurchases.transaction_day_of_week c = None /\
     SilverPurchases.transaction_hour c = None /\
     SilverPurchases.day_type c = Some "weekday"%string) /\
  (forall t, SilverPurchases.transaction_timestamp c = Some t ->
     exists y m w h,
       SilverPurchases.transaction_year c = Some y /\
       SilverPurchases.transaction_month c = Some m /\ 1 <= m <= 12 /\
       SilverPurchases.transaction_day_of_week c = Some w /\ 1 <= w <= 7 /\
       SilverPurchases.transaction_hour c = Some h /\ 0 <= h <= 23).
Proof.
  unfold Silver.silver_travel_purchases, Silver.cleaned_data in Hc.
  apply in_map_iff in Hc. destruct Hc as (b & <- & _).
  cbn [Silver.clean_purchase SilverPurchases.day_type
       SilverPurchases.transaction_day_of_week
       SilverPurchases.transaction_timestamp SilverPurchases.transaction_year
       SilverPurchases.transaction_month SilverPurchases.transaction_hour].
  destruct (BronzePurchases.ts b) as [t|]; cbn [option_map].
  - assert (Hw : 1 <= Calendar.DAYOFWEEK t <= 7).
    { unfold Calendar.DAYOFWEEK.
      pose proof (Z.mod_pos_bound (Calendar.DATE t + 4) 7). lia. }
    assert (Hh : 0 <= Calendar.HOUR t <= 23).
    { unfold Calendar.HOUR.
      pose proof (Z.mod_pos_bound t 86400). Z.div_mod_to_equations. lia. }
    unfold IN, CASE, holds, lit. cbn [existsb].
    repeat split; try discriminate.
    + destruct (Z.eqb_spec (Calendar.DAYOFWEEK t) 1) as [->|N1]; [auto|].
      destruct (Z.eqb_spec (Calendar.DAYOFWEEK t) 7) as [->|N7]; [auto|].
      simpl. discriminate.
    + intros [[= ->]|[= ->]]; [reflexivity|].
      destruct (Calendar.DAYOFWEEK t =? 1); reflexivity.
    + destruct (Z.eqb_spec (Calendar.DAYOFWEEK t) 1) as [->|N1];
        [discriminate|].
      destruct (Z.eqb_spec (Calendar.DAYOFWEEK t) 7) as [->|N7];
        [discriminate|].
      intros _ [[= E]|[= E]]; congruence.
    + intro N.
      destruct (Z.eqb_spec (Calendar.DAYOFWEEK t) 1) as [E|N1];
        [exfalso; apply N; left; congruence|].
      destruct (Z.eqb_spec (Calendar.DAYOFWEEK t) 7) as [E|N7];
        [exfalso; apply N; right; congruence|].
      reflexivity.
    + intros t' [= <-]. do 4 eexists.
      repeat split; try reflexivity; try apply Hw; try apply Hh;
        apply (civil_ranges (Calendar.DATE t)).
  - unfold IN, CASE, holds, lit. repeat split; try discriminate.
    + intros [H|H]; discriminate H.
    + intros _ [H|H]; discriminate H.
Qed.

Lemma calendar_columns_witness :
  let c := Silver.clean_purchase 0 Sample.latitude_100 in
  SilverPurchases.day_type c = Some "weekend"%string /\
  SilverPurchases.transaction_day_of_week c = Some 7.
Proof.
  intro c.
  destruct (calendar_columns 0 [Sample.latitude_100] c (or_introl eq_refl))
    as (Hweekend & _).
  split; [|reflexivity]. apply Hweekend. right. reflexivity.
Defined.

(** ** Silver users: the segments against the cleaned columns *)

Lemma round_half_up_ge (p : Q) (K : Z) (d : nat) :
  0 <= K -> (inject_Z K <= p)%Q -> (inject_Z K <= round_half_up p d)%Q.
Proof.
  intro HK. destruct p as [n den]. unfold round_half_up, Qle, inject_Z.
  cbn [Qnum Qden].
  pose proof (pow10_pos d) as Hs. set (s := 10 ^ Z.of_nat d) in *.
  rewrite (Z2Pos.id s Hs). intro Hlo.
  assert (Hd : 0 < Z.pos den) by lia.
  assert (Hn : K * Z.pos den <= n) by lia.
  assert (Hn0 : 0 <= n) by nia.
  set (q := (2 * (Z.abs n * s) + Z.pos den) / (2 * Z.pos den)).
  assert (Hq : K * s <= q).
  { apply Z.div_le_lower_bound; [lia|]. rewrite (Z.abs_eq n Hn0). nia. }
  destruct (Z.sgn_spec n) as [[? ->]|[[? ->]|[? _]]]; nia.
Qed.

Lemma round_half_up_le (p : Q) (K : Z) (d : nat) :
  0 <= K -> (p <= inject_Z K)%Q -> (round_half_up p d <= inject_Z K)%Q.
Proof.
  intros HK Hhi.
  destruct (Qlt_le_dec p (inject_Z 0)) as [Hneg|Hpos].
  - destruct p as [n den]. revert Hneg.
    unfold round_half_up, Qle, Qlt, inject_Z. cbn [Qnum Qden]. intro Hneg.
    pose proof (pow10_pos d) as Hs. set (s := 10 ^ Z.of_nat d) in *.
    rewrite (Z2Pos.id s Hs).
    set (q := (2 * (Z.abs n * s) + Z.pos den) / (2 * Z.pos den)).
    assert (Hq0 : 0 <= q).
    { apply Z.div_pos; [|lia]. pose proof (Z.abs_nonneg n). nia. }
    destruct (Z.sgn_spec n) as [[? _]|[[? _]|[_ ->]]]; [lia|lia|nia].
  - apply (round_half_up_bounds p K d HK); [|exact Hhi].
    apply Qle_trans with (inject_Z 0); [|exact Hpos].
    rewrite <- Zle_Qle. lia.
Qed.

(** X15. A cleaned user always has a count of six-month purchases and a
    seven-day average price: 0 and 0.00 when the raw value is NULL.  The
    frequency segment can be read off the cleaned count (high from 10,
    medium from 3 to 9, low below 3).  The price segment is taken from the
    unrounded price: 'premium' gives an average of at least 500, 'standard'
    one between 200 and 500, 'budget' one of at most 200, boundaries
    included. *)
Theorem user_segments_and_columns (now : Calendar.timestamp)
    (b : BronzeUsers.row) :
  let c := Silver.clean_user now b in
  exists n q,
    SilverUsers.purchases_6month c = Some n /\
    SilverUsers.avg_price_7day c = Some q /\
    (BronzeUsers.last_6m_purchases b = None -> n = 0) /\
    (BronzeUsers.mean_price_7d b = None -> q = (0 # 100)%Q) /\
    (SilverUsers.purchase_frequency_segment c = Some "high_frequency"%string
       <-> 10 <= n) /\
    (SilverUsers.purchase_frequency_segment c = Some "medium_frequency"%string
       <-> 3 <= n < 10) /\
    (SilverUsers.purchase_frequency_segment c = Some "low_frequency"%string
       <-> n < 3) /\
    (SilverUsers.price_segment c = Some "premium"%string ->
       (inject_Z 500 <= q)%Q) /\
    (SilverUsers.price_segment c = Some "standard"%string ->
       (inject_Z 200 <= q)%Q /\ (q <= inject_Z 500)%Q) /\
    (SilverUsers.price_segment c = Some "budget"%string ->
       (q <= inject_Z 200)%Q).
Proof.
  intro c. subst c. unfold Silver.clean_user.
  cbn [SilverUsers.purchases_6month SilverUsers.avg_price_7day
       SilverUsers.purchase_frequency_segment SilverUsers.price_segment].
  assert (Hfreq : forall n0 : option Z, exists n,
            COALESCE n0 (int 0) = Some n /\ (n0 = None -> n = 0) /\
            (CASE [ (GE n0 (int 10), lit "high_frequency"%string);
                    (GE n0 (int 3), lit "medium_frequency"%string) ]
                  (lit "low_frequency"%string) = Some "high_frequency"%string
               <-> 10 <= n) /\
            (CASE [ (GE n0 (int 10), lit "high_frequency"%string);
                    (GE n0 (int 3), lit "medium_frequency"%string) ]
                  (lit "low_frequency"%string) = Some "medium_frequency"%string
               <-> 3 <= n < 10) /\
            (CASE [ (GE n0 (int 10), lit "high_frequency"%string);
                    (GE n0 (int 3), lit "medium_frequency"%string) ]
                  (lit "low_frequency"%string) = Some "low_frequency"%string
               <-> n < 3)).
  { intros [n|].
    - exists n. unfold COALESCE, GE, cmp, int, lit, CASE, holds.
      cbn [leb Ord_Z].
      destruct (Z.leb_spec 10 n); [|destruct (Z.leb_spec 3 n)];
        repeat split; try discriminate; try reflexivity; intros; lia.
    - exists 0. unfold COALESCE, GE, cmp, int, lit, CASE, holds.
      repeat split; try discriminate; try reflexivity; intros; lia. }
  assert (Hprice : forall p0 : option Q, exists q,
            ROUND (COALESCE p0 (num 0)) 2 = Some q /\
            (p0 = None -> q = (0 # 100)%Q) /\
            (CASE [ (GE p0 (num 500), lit "premium"%string);
                    (GE p0 (num 200), lit "standard"%string) ]
                  (lit "budget"%string) = Some "premium"%string ->
               (inject_Z 500 <= q)%Q) /\
            (CASE [ (GE p0 (num 500), lit "premium"%string);
                    (GE p0 (num 200), lit "standard"%string) ]
                  (lit "budget"%string) = Some "standard"%string ->
               (inject_Z 200 <= q)%Q /\ (q <= inject_Z 500)%Q) /\
            (CASE [ (GE p0 (num 500), lit "premium"%string);
                    (GE p0 (num 200), lit "standard"%string) ]
                  (lit "budget"%string) = Some "budget"%string ->
               (q <= inject_Z 200)%Q)).
  { intros [p|].
    - exists (round_half_up p 2).
      unfold COALESCE, ROUND, GE, cmp, num, lit, CASE, holds.
      cbn [option_map].
      split; [reflexivity|]. split; [discriminate|].
      case_leb (inject_Z 500) p; [|case_leb (inject_Z 200) p];
        (split; [|split]); try discriminate; intros _.
      + apply round_half_up_ge; [lia|assumption].
      + split.
        * apply round_half_up_ge; [lia|assumption].
        * apply round_half_up_le; [lia|]. apply Qlt_le_weak. assumption.
      + apply round_half_up_le; [lia|]. apply Qlt_le_weak. assumption.
    - exists (0 # 100)%Q.
      unfold COALESCE, ROUND, GE, cmp, num, lit, CASE, holds.
      repeat split; try discriminate. }
  destruct (Hfreq (BronzeUsers.last_6m_purchases b))
    as (n & Hn & Hn0 & Hhigh & Hmed & Hlow).
  destruct (Hprice (BronzeUsers.mean_price_7d b))
    as (q & Hq & Hq0 & Hprem & Hstd & Hbud).
  exists n, q. tauto.
Qed.

(** ** The gold tables are always produced *)

Lemma mapM_length {E A B} (f : A -> result E B) (l : list A) (out : list B) :
  mapM f l = Ok out -> length out = length l.
Proof.
  intro H. symmetry. eapply Forall2_length. apply (mapM_Forall2 _ _ _ H).
Qed.

Lemma group_by_length {K A} (same_key : K -> K -> bool) (key : A -> K)
    (rows : list A) :
  length (Relational.group_by same_key key rows)
  = length (distinct same_key (map key rows)).
Proof.
  rewrite <- (group_by_keys same_key key rows). symmetry. apply length_map.
Qed.

Lemma distinct_filter_idem {K} (same : K -> K -> bool) (x : K) (l : list K) :
  filter (fun b => negb (same x b)) (filter (fun b => negb (same x b)) l)
  = filter (fun b => negb (same x b)) l.
Proof.
  induction l as [|a l IH]; [reflexivity|]. cbn [filter].
  destruct (negb (same x a)) eqn:E; [|exact IH].
  cbn [filter]. rewrite E, IH. reflexivity.
Qed.

(** The distinct keys of a left join are those of its left table, when the
    key is taken from the left row. *)
Lemma distinct_left_join_keys {A B K} (same : K -> K -> bool)
    (on : A -> B -> bool) (k : A -> K) (l : list A) (r : list B) :
  (forall x, same x x = true) ->
  distinct same (map (fun j => k (fst j)) (Relational.left_join on l r))
  = distinct same (map k l).
Proof.
  intro R. unfold Relational.left_join.
  induction l as [|a l IH]; [reflexivity|].
  cbn [flat_map]. rewrite map_app.
  change (map k (a :: l)) with (k a :: map k l).
  assert (Hrep : forall (m : list (A * option B)) (rest : list K),
            m <> [] -> (forall j, In j m -> fst j = a) ->
            distinct same (map (fun j => k (fst j)) m ++ rest)
            = distinct same (k a :: rest)).
  { induction m as [|j m IHm]; intros rest Hne Hall; [congruence|].
    cbn [map app]. rewrite (Hall j (or_introl eq_refl)).
    destruct m as [|j' m]; [reflexivity|].
    cbn [distinct]. rewrite IHm;
      [|discriminate|intros x Hx; apply Hall; right; exact Hx].
    cbn [distinct filter]. rewrite R. cbn [negb].
    rewrite distinct_filter_idem. reflexivity. }
  rewrite Hrep.
  - cbn [distinct]. rewrite IH. reflexivity.
  - destruct (filter (on a) r); discriminate.
  - intros j Hj. destruct (filter (on a) r) as [|b m].
    + destruct Hj as [<-|[]]. reflexivity.
    + apply in_map_iff in Hj. destruct Hj as (t & <- & _). reflexivity.
Qed.

Lemma distinct_nil_iff {K} (same : K -> K -> bool) (l : list K) :
  distinct same l = [] <-> l = [].
Proof. destruct l; simpl; split; intro H; congruence. Qed.

Lemma length_nil_iff {A B} (l : list A) (m : list B) :
  length l = length m -> (l = [] <-> m = []).
Proof. destruct l, m; simpl; intro H; split; intro; congruence. Qed.

Lemma map_nil_iff {A B} (f : A -> B) (l : list A) : map f l = [] <-> l = [].
Proof. destruct l; simpl; split; intro H; congruence. Qed.

Lemma daily_table_length (now : Calendar.timestamp)
    (purchases : list SilverPurchases.row) :
  exists daily,
    Gold.gold_daily_revenue_metrics now purchases = Ok daily /\
    length daily
    = length (distinct Gold.same_daily_key (map Gold.daily_key_of purchases)).
Proof.
  unfold Gold.gold_daily_revenue_metrics.
  destruct (mapM_total (fun kg => Gold.daily_row now (fst kg) (snd kg))
              (Relational.group_by Gold.same_daily_key Gold.daily_key_of
                                   purchases)) as [rows Hrows].
  { intros kg _.
    destruct (daily_row_columns now (fst kg) (snd kg)) as (r & Hr & _).
    exists r. exact Hr. }
  rewrite Hrows. cbn [bind]. eexists. split; [reflexivity|].
  rewrite order_by_length, (mapM_length _ _ _ Hrows).
  apply group_by_length.
Qed.

Lemma destination_table_length (now : Calendar.timestamp)
    (destinations : list SilverDestinations.row)
    (purchases : list SilverPurchases.row) :
  exists perf,
    Gold.gold_destination_performance now destinations purchases = Ok perf /\
    length perf
    = length (distinct Gold.same_dest_key
                       (map (fun d => Gold.dest_key_of (d, None))
                            destinations)).
Proof.
  unfold Gold.gold_destination_performance.
  set (joined := Relational.left_join _ destinations purchases).
  set (groups := Relational.group_by Gold.same_dest_key Gold.dest_key_of
                                     joined).
  set (bookings := map (fun kg => Gold.dest_total_bookings (snd kg)) groups).
  set (revenues := map (fun kg => Gold.dest_revenue (snd kg)) groups).
  destruct (mapM_total
              (fun kg => Gold.destination_row now bookings revenues
                                              (fst kg) (snd kg)) groups)
    as [rows Hrows].
  { intros kg _.
    destruct (destination_row_columns now bookings revenues (fst kg) (snd kg))
      as (r & Hr & _).
    exists r. exact Hr. }
  rewrite Hrows. cbn [bind]. eexists. split; [reflexivity|].
  rewrite order_by_length, (mapM_length _ _ _ Hrows).
  unfold groups. rewrite group_by_length. unfold joined.
  rewrite <- (distinct_left_join_keys Gold.same_dest_key
                (fun d t => holds (EQ (SilverDestinations.destination_id d)
                                      (SilverPurchases.destination_id t)))
                (fun d => Gold.dest_key_of (d, None)) destinations purchases
                (proj1 same_dest_key_equivalence)).
  reflexivity.
Qed.

Lemma user_table_length (now : Calendar.timestamp)
    (users : list SilverUsers.row) (purchases : list SilverPurchases.row) :
  exists engagement,
    Gold.gold_user_engagement now users purchases = Ok engagement /\
    length engagement
    = length (distinct Gold.same_user_key
                       (map (fun u => Gold.user_key_of (u, None)) users)).
Proof.
  unfold Gold.gold_user_engagement.
  set (joined := Relational.left_join _ users purchases).
  destruct (mapM_total (fun kg => Gold.user_row now (fst kg) (snd kg))
              (Relational.group_by Gold.same_user_key Gold.user_key_of
                                   joined)) as [rows Hrows].
  { intros kg _. apply user_row_total. }
  rewrite Hrows. exists rows. split; [reflexivity|].
  rewrite (mapM_length _ _ _ Hrows), group_by_length. unfold joined.
  rewrite <- (distinct_left_join_keys Gold.same_user_key
                (fun u t => holds (EQ (SilverUsers.user_id u)
                                      (SilverPurchases.user_id t)))
                (fun u => Gold.user_key_of (u, None)) users purchases
                (proj1 same_user_key_equivalence)).
  reflexivity.
Qed.

Lemma monthly_table_length (now : Calendar.timestamp)
    (purchases : list SilverPurchases.row) :
  exists monthly,
    Gold.gold_monthly_summary now purchases = Ok monthly /\
    length monthly
    = length (distinct Gold.same_month_key
                       (map Gold.month_key_of purchases)).
Proof.
  unfold Gold.gold_monthly_summary.
  set (groups := Relational.group_by Gold.same_month_key Gold.month_key_of
                                     purchases).
  set (window := Relational.order_by _ groups).
  set (revs := map (fun kg => Gold.monthly_revenue (snd kg)) window).
  assert (Hlen : length window = length (Relational.LAG revs)).
  { unfold Relational.LAG. rewrite lag_from_length. unfold revs.
    rewrite length_map. reflexivity. }
  destruct (mapM_total
              (fun kgp => Gold.monthly_row now (fst (fst kgp))
                                           (snd (fst kgp)) (snd kgp))
              (combine window (Relational.LAG revs))) as [rows Hrows].
  { intros kgp _.
    destruct (monthly_row_columns now (fst (fst kgp)) (snd (fst kgp))
                                  (snd kgp)) as (r & Hr & _).
    exists r. exact Hr. }
  rewrite Hrows. cbn [bind]. eexists. split; [reflexivity|].
  rewrite order_by_length, (mapM_length _ _ _ Hrows), length_combine.
  rewrite <- Hlen, Nat.min_id. unfold window.
  rewrite order_by_length. apply group_by_length.
Qed.

(** A table with one row per distinct key of [l] is empty exactly when
    [l] is. *)
Lemma distinct_length_nil_iff {A B K} (same : K -> K -> bool) (k : A -> K)
    (l : list A) (out : list B) :
  length out = length (distinct same (map k l)) -> (out = [] <-> l = []).
Proof.
  intro H. rewrite (length_nil_iff _ _ H), distinct_nil_iff. apply map_nil_iff.
Qed.

(** X16. The four gold queries never raise (each division is guarded by
    NULLIF on a count that is at least one inside a group).  The daily and
    the monthly table have one row per distinct grouping key of the silver
    purchases; the destination and the user table have one row per
    distinct destination row and user row, whatever the purchases; so a
    gold table is empty exactly when the silver table it starts from is. *)
Theorem gold_tables_produced (now : Calendar.timestamp)
    (purchases : list SilverPurchases.row) (users : list SilverUsers.row)
    (destinations : list SilverDestinations.row) :
  exists daily perf engagement monthly,
    Gold.gold_daily_revenue_metrics now purchases = Ok daily /\
    Gold.gold_destination_performance now destinations purchases = Ok perf /\
    Gold.gold_user_engagement now users purchases = Ok engagement /\
    Gold.gold_monthly_summary now purchases = Ok monthly /\
    length daily
    = length (distinct Gold.same_daily_key
                       (map Gold.daily_key_of purchases)) /\
    length perf
    = length (distinct Gold.same_dest_key
                       (map (fun d => Gold.dest_key_of (d, None))
                            destinations)) /\
    length engagement
    = length (distinct Gold.same_user_key
                       (map (fun u => Gold.user_key_of (u, None)) users)) /\
    length monthly
    = length (distinct Gold.same_month_key
                       (map Gold.month_key_of purchases)) /\
    (daily = [] <-> purchases = []) /\
    (perf = [] <-> destinations = []) /\
    (engagement = [] <-> users = []) /\
    (monthly = [] <-> purchases = []).
Proof.
  destruct (daily_table_length now purchases) as (daily & Hd & Ld).
  destruct (destination_table_length now destinations purchases)
    as (perf & Hp & Lp).
  destruct (user_table_length now users purchases) as (engagement & Hu & Lu).
  destruct (monthly_table_length now purchases) as (monthly & Hm & Lm).
  exists daily, perf, engagement, monthly.
  repeat (split; [assumption|]).
  split; [exact (distinct_length_nil_iff _ _ _ _ Ld)|].
  split; [exact (distinct_length_nil_iff _ _ _ _ Lp)|].
  split; [exact (distinct_length_nil_iff _ _ _ _ Lu)|].
  exact (distinct_length_nil_iff _ _ _ _ Lm).
Qed.

(** ** The run of the notebooks *)

(** The sum of the daily revenues is NULL exactly when no silver purchase
    brings a number to a revenue: each one is purchased with a NULL
    price. *)
Lemma daily_revenue_sum_null_iff (now : Calendar.timestamp)
    (purchases : list SilverPurchases.row) (daily : list GoldDaily.row) :
  Gold.gold_daily_revenue_metrics now purchases = Ok daily ->
  (SUM_Q (map GoldDaily.total_revenue_usd daily) = None <->
   forall t, In t purchases ->
     SilverPurchases.purchased t = Some true /\
     SilverPurchases.price_usd t = None).
Proof.
  intro Hdaily. rewrite SUM_Q_null_iff. split.
  - intros Hnull t Ht.
    unfold Gold.gold_daily_revenue_metrics in Hdaily.
    destruct (mapM _ _) as [rows|e] eqn:Hrows; simpl in Hdaily;
      [|discriminate Hdaily].
    apply Ok_inj in Hdaily. subst daily.
    destruct (distinct_represents Gold.same_daily_key
                same_daily_key_equivalence (Gold.daily_key_of t)
                (map Gold.daily_key_of purchases) (in_map _ _ _ Ht))
      as (k & Hk & Hsame).
    set (g := filter (fun t0 => Gold.same_daily_key k (Gold.daily_key_of t0))
                     purchases).
    assert (Hkg : In (k, g) (Relational.group_by Gold.same_daily_key
                               Gold.daily_key_of purchases)).
    { unfold Relational.group_by. apply in_map_iff. exists k.
      split; [reflexivity|exact Hk]. }
    destruct (Forall2_In_left _ _ _ (mapM_Forall2 _ _ _ Hrows) _ Hkg)
      as (r & Hr & Hrow).
    cbn [fst snd] in Hrow.
    destruct (daily_row_revenue now k g r Hrow) as (_ & _ & _ & Hrev).
    assert (Hnone : GoldDaily.total_revenue_usd r = None).
    { apply Hnull. apply in_map. apply order_by_In. exact Hr. }
    rewrite Hrev, ROUND_null_iff, SUM_Q_null_iff in Hnone.
    apply price_or_zero_null_iff. apply Hnone.
    apply in_map_iff. exists t. split; [reflexivity|].
    apply filter_In. split; assumption.
  - intros Hall x Hx. apply in_map_iff in Hx. destruct Hx as (r & <- & Hr).
    destruct (daily_table_rows now purchases daily Hdaily r Hr) as (k & Hk).
    destruct (daily_row_revenue now k _ r Hk) as (_ & _ & _ & Hrev).
    rewrite Hrev, ROUND_null_iff, SUM_Q_null_iff.
    intros y Hy. apply in_map_iff in Hy. destruct Hy as (t & <- & Ht).
    apply filter_In in Ht. destruct Ht as [Ht _].
    apply price_or_zero_null_iff. apply Hall. exact Ht.
Qed.

Lemma silver_notebook_completes (now : string -> Calendar.timestamp)
    (l : Pipeline.lake) (bronze_purchases : list BronzePurchases.row)
    (bronze_users : list BronzeUsers.row)
    (bronze_dests : list BronzeDestinations.row) :
  Pipeline.bronze_travel_purchases l = Some bronze_purchases ->
  Pipeline.bronze_user_features l = Some bronze_users ->
  Pipeline.bronze_destinations l = Some bronze_dests ->
  Pipeline.silver_notebook now l
  = (Pipeline.replace_silver_destinations
       (Silver.silver_destinations (now "silver_destinations"%string)
                                   bronze_dests)
       (Pipeline.replace_silver_users
          (Silver.silver_users (now "silver_users"%string) bronze_users)
          (Pipeline.replace_silver_travel_purchases
             (Silver.silver_travel_purchases
                (now "silver_travel_purchases"%string) bronze_purchases)
             l)),
     Ok tt).
Proof.
  intros Hp Hu Hd.
  unfold Pipeline.silver_notebook, Pipeline.and_then, Pipeline.table,
    Pipeline.create_or_replace, Pipeline.print_count, Pipeline.ret.
  rewrite Hp.
  cbn [Pipeline.replace_silver_travel_purchases
       Pipeline.silver_travel_purchases Pipeline.bronze_user_features].
  rewrite Hu.
  cbn [Pipeline.replace_silver_users Pipeline.silver_users
       Pipeline.bronze_destinations Pipeline.replace_silver_travel_purchases].
  rewrite Hd.
  cbn [Pipeline.replace_silver_destinations Pipeline.silver_destinations].
  reflexivity.
Qed.

Lemma record_count_check_status (session : spark) (t l : string) (n : Z)
    (r : dq_result) :
  table_count session t = Ok n ->
  In r (record_count_check session (t, l)) ->
  (status r = FAIL <-> n <= 0).
Proof.
  intros Hn Hr. unfold record_count_check in Hr. rewrite Hn in Hr.
  destruct Hr as [<-|[]]. cbn [status].
  destruct (Z.gtb_spec n 0) as [L|L]; split; intro Hs; try reflexivity;
    try discriminate; lia.
Qed.

Lemma COUNT_star_nil_iff {A} (g : list A) : COUNT_star g <= 0 <-> g = [].
Proof.
  unfold COUNT_star. destruct g; simpl; split; intro H;
    try reflexivity; try discriminate; lia.
Qed.

Lemma in_app6 {A} (a b c d e f : list A) (x : A) :
  In x (((((a ++ b) ++ c) ++ d) ++ e) ++ f) ->
  In x a \/ In x b \/ In x c \/ In x d \/ In x e \/ In x f.
Proof. rewrite !in_app_iff. tauto. Qed.

(** An empty table of the schema gives a FAIL record-count result. *)
Lemma empty_table_fails (session : spark) (t l : string) :
  In (t, l) tables -> table_count session t = Ok 0 ->
  exists r, In r (flat_map (record_count_check session) tables) /\
            status r = FAIL.
Proof.
  intros Hin Hn.
  exists {| check := "record_count"; table := t; layer := l;
            expected := "> 0"; actual := Count 0; status := FAIL |}.
  split; [|reflexivity].
  apply in_flat_map. exists (t, l). split; [exact Hin|].
  unfold record_count_check. rewrite Hn. left. reflexivity.
Qed.

(** The fields of a schema after tables were replaced. *)
Ltac lake_fields :=
  cbn [Pipeline.bronze_travel_purchases Pipeline.bronze_user_features
       Pipeline.bronze_destinations Pipeline.silver_travel_purchases
       Pipeline.silver_users Pipeline.silver_destinations
       Pipeline.gold_daily_revenue_metrics
       Pipeline.gold_destination_performance Pipeline.gold_user_engagement
       Pipeline.gold_monthly_summary
       Pipeline.replace_silver_travel_purchases Pipeline.replace_silver_users
       Pipeline.replace_silver_destinations
       Pipeline.replace_gold_daily_revenue_metrics
       Pipeline.replace_gold_destination_performance
       Pipeline.replace_gold_user_engagement
       Pipeline.replace_gold_monthly_summary].

Lemma gold_notebook_run (now : string -> Calendar.timestamp)
    (l : Pipeline.lake) (purchases : list SilverPurchases.row)
    (users : list SilverUsers.row)
    (destinations : list SilverDestinations.row)
    (daily : list GoldDaily.row) (perf : list GoldDestinations.row)
    (engagement : list GoldUsers.row) (monthly : list GoldMonthly.row) :
  Pipeline.silver_travel_purchases l = Some purchases ->
  Pipeline.silver_users l = Some users ->
  Pipeline.silver_destinations l = Some destinations ->
  Gold.gold_daily_revenue_metrics (now "gold_daily_revenue_metrics"%string)
                                  purchases = Ok daily ->
  Gold.gold_destination_performance
    (now "gold_destination_performance"%string) destinations purchases
  = Ok perf ->
  Gold.gold_user_engagement (now "gold_user_engagement"%string) users
                            purchases = Ok engagement ->
  Gold.gold_monthly_summary (now "gold_monthly_summary"%string) purchases
  = Ok monthly ->
  Pipeline.gold_notebook now l
  = match SUM_Q (map GoldDaily.total_revenue_usd daily) with
    | None =>
        (Pipeline.replace_gold_daily_revenue_metrics daily l,
         Err Pipeline.NoneType_format)
    | Some _ =>
        (Pipeline.replace_gold_monthly_summary monthly
           (Pipeline.replace_gold_user_engagement engagement
              (Pipeline.replace_gold_destination_performance perf
                 (Pipeline.replace_gold_daily_revenue_metrics daily l))),
         Ok tt)
    end.
Proof.
  intros Hp Hu Hd Hdaily Hperf Heng Hmonthly.
  unfold Pipeline.gold_notebook, Pipeline.and_then, Pipeline.table,
    Pipeline.create_or_replace, Pipeline.print_count, Pipeline.print_2f,
    Pipeline.ret, Pipeline.raise, Pipeline.sql.
  rewrite Hp, Hdaily. lake_fields.
  destruct (SUM_Q (map GoldDaily.total_revenue_usd daily)) as [q|];
    [|reflexivity].
  lake_fields. rewrite Hd. lake_fields. rewrite Hp. lake_fields.
  rewrite Hperf. lake_fields. rewrite Hu. lake_fields.
  rewrite Hp. lake_fields. rewrite Heng. lake_fields.
  rewrite Hp. lake_fields. rewrite Hmonthly. lake_fields.
  reflexivity.
Qed.

(** X20. On silver tables that exist, the gold notebook always replaces the
    daily table, and from there it has two ends.  When every silver
    purchase is purchased with a NULL price, and so also when there is no
    silver purchase, the sum of the daily revenues is NULL and printing it
    with two decimals raises TypeError: the three later gold tables are
    left as they were.  Otherwise the notebook runs to its end and has
    replaced the four gold tables with the results of their queries. *)
Theorem gold_notebook_outcome (now : string -> Calendar.timestamp)
    (l : Pipeline.lake) (purchases : list SilverPurchases.row)
    (users : list SilverUsers.row)
    (destinations : list SilverDestinations.row)
    (Hp : Pipeline.silver_travel_purchases l = Some purchases)
    (Hu : Pipeline.silver_users l = Some users)
    (Hd : Pipeline.silver_destinations l = Some destinations) :
  let all_unpriced :=
    forall t, In t purchases ->
      SilverPurchases.purchased t = Some true /\
      SilverPurchases.price_usd t = None in
  let l' := fst (Pipeline.gold_notebook now l) in
  let r := snd (Pipeline.gold_notebook now l) in
  exists daily,
    Gold.gold_daily_revenue_metrics (now "gold_daily_revenue_metrics"%string)
                                    purchases = Ok daily /\
    Pipeline.gold_daily_revenue_metrics l' = Some daily /\
    (r = Err Pipeline.NoneType_format <-> all_unpriced) /\
    (r = Ok tt <-> ~ all_unpriced) /\
    (r = Err Pipeline.NoneType_format ->
       Pipeline.gold_destination_performance l'
       = Pipeline.gold_destination_performance l /\
       Pipeline.gold_user_engagement l' = Pipeline.gold_user_engagement l /\
       Pipeline.gold_monthly_summary l' = Pipeline.gold_monthly_summary l) /\
    (r = Ok tt ->
       exists perf engagement monthly,
         Gold.gold_destination_performance
           (now "gold_destination_performance"%string) destinations purchases
         = Ok perf /\
         Gold.gold_user_engagement (now "gold_user_engagement"%string) users
                                   purchases = Ok engagement /\
         Gold.gold_monthly_summary (now "gold_monthly_summary"%string)
                                   purchases = Ok monthly /\
         Pipeline.gold_destination_performance l' = Some perf /\
         Pipeline.gold_user_engagement l' = Some engagement /\
         Pipeline.gold_monthly_summary l' = Some monthly).
Proof.
  intros all_unpriced l' r.
  destruct (daily_table_length (now "gold_daily_revenue_metrics"%string)
                               purchases) as (daily & Hdaily & _).
  destruct (destination_table_length
              (now "gold_destination_performance"%string) destinations
              purchases) as (perf & Hperf & _).
  destruct (user_table_length (now "gold_user_engagement"%string) users
                              purchases) as (engagement & Heng & _).
  destruct (monthly_table_length (now "gold_monthly_summary"%string)
                                 purchases) as (monthly & Hmonthly & _).
  pose proof (gold_notebook_run now l purchases users destinations daily perf
                engagement monthly Hp Hu Hd Hdaily Hperf Heng Hmonthly)
    as Hrun.
  pose proof (daily_revenue_sum_null_iff _ _ _ Hdaily) as Hnull.
  fold all_unpriced in Hnull.
  exists daily. split; [exact Hdaily|].
  subst l' r.
  destruct (SUM_Q (map GoldDaily.total_revenue_usd daily)) as [q|];
    rewrite Hrun; cbn [fst snd].
  - assert (Hsome : ~ all_unpriced).
    { intro H. apply Hnull in H. discriminate H. }
    split; [reflexivity|]. split; [split; [discriminate|contradiction]|].
    split; [split; [intros _; exact Hsome|reflexivity]|].
    split; [discriminate|]. intros _.
    exists perf, engagement, monthly. repeat split; assumption.
  - assert (Hall : all_unpriced) by (apply Hnull; reflexivity).
    split; [reflexivity|]. split; [split; [intros _; exact Hall|reflexivity]|].
    split; [split; [discriminate|contradiction]|].
    split; [|discriminate]. intros _. repeat split.
Qed.

Lemma gold_notebook_outcome_witness :
  let l := fst (Pipeline.silver_notebook (fun _ => 0)
                  (Sample.bronze_only [Sample.negative_price] [] [])) in
  snd (Pipeline.gold_notebook (fun _ => 0) l)
  = Err Pipeline.NoneType_format /\
  (exists r, Pipeline.gold_daily_revenue_metrics
               (fst (Pipeline.gold_notebook (fun _ => 0) l)) = Some [r] /\
             GoldDaily.total_revenue_usd r = None) /\
  Pipeline.gold_monthly_summary (fst (Pipeline.gold_notebook (fun _ => 0) l))
  = None.
Proof.
  intro l.
  destruct (gold_notebook_outcome (fun _ => 0) l
              (Silver.silver_travel_purchases 0 [Sample.negative_price])
              (Silver.silver_users 0 []) (Silver.silver_destinations 0 [])
              eq_refl eq_refl eq_refl)
    as (daily & Hdaily & Hfield & Herr & _ & Hkept & _).
  assert (E : snd (Pipeline.gold_notebook (fun _ => 0) l)
              = Err Pipeline.NoneType_format).
  { apply Herr. intros t [<-|[]]. split; reflexivity. }
  split; [exact E|]. split.
  - pose proof Hdaily as Hv. vm_compute in Hv. apply Ok_inj in Hv.
    subst daily. eexists. split; [exact Hfield|reflexivity].
  - destruct (Hkept E) as (_ & _ & Hm). rewrite Hm. reflexivity.
Defined.

(** The audit over a schema in which the ten tables exist, the silver
    purchases hold no negative price and the daily table no invalid rate. *)
Lemma audit_of_written_tables (clock : string -> Calendar.timestamp)
    (bp : list BronzePurchases.row) (bu : list BronzeUsers.row)
    (bd : list BronzeDestinations.row) (sp : list SilverPurchases.row)
    (su : list SilverUsers.row) (sd : list SilverDestinations.row)
    (daily : list GoldDaily.row) (perf : list GoldDestinations.row)
    (engagement : list GoldUsers.row) (monthly : list GoldMonthly.row)
    (l : Pipeline.lake) :
  Pipeline.bronze_travel_purchases l = Some bp ->
  Pipeline.bronze_user_features l = Some bu ->
  Pipeline.bronze_destinations l = Some bd ->
  Pipeline.silver_travel_purchases l = Some sp ->
  Pipeline.silver_users l = Some su ->
  Pipeline.silver_destinations l = Some sd ->
  Pipeline.gold_daily_revenue_metrics l = Some daily ->
  Pipeline.gold_destination_performance l = Some perf ->
  Pipeline.gold_user_engagement l = Some engagement ->
  Pipeline.gold_monthly_summary l = Some monthly ->
  Queries.neg_prices sp = 0 -> Queries.invalid_conv daily = 0 ->
  exists rs,
    run_checks (Pipeline.session l clock) = Ok rs /\
    length rs = 17%nat /\
    (forall r, In r rs -> check r = "business_rule"%string ->
               status r = PASS) /\
    ((exists r, In r rs /\ status r = FAIL) <->
       bp = [] \/ bu = [] \/ bd = [] \/ sp = [] \/ su = [] \/ sd = [] \/
       daily = [] \/ perf = [] \/ engagement = [] \/ monthly = []).
Proof.
  intros H1 H2 H3 H4 H5 H6 H7 H8 H9 H10 Hneg Hconv.
  destruct l as [b1 b2 b3 s1 s2 s3 g1 g2 g3 g4].
  cbn [Pipeline.bronze_travel_purchases Pipeline.bronze_user_features
       Pipeline.bronze_destinations Pipeline.silver_travel_purchases
       Pipeline.silver_users Pipeline.silver_destinations
       Pipeline.gold_daily_revenue_metrics
       Pipeline.gold_destination_performance Pipeline.gold_user_engagement
       Pipeline.gold_monthly_summary] in H1, H2, H3, H4, H5, H6, H7, H8, H9,
                                         H10.
  subst b1 b2 b3 s1 s2 s3 g1 g2 g3 g4.
  match goal with
  | |- context [Pipeline.session ?x clock] =>
      set (session := Pipeline.session x clock)
  end.
  pose proof (run_checks_ok session _ _ _ _ eq_refl eq_refl eq_refl eq_refl)
    as Hchecks.
  rewrite Hneg, Hconv in Hchecks.
  match type of Hchecks with _ = Ok ?x => set (rs := x) in * end.
  exists rs. split; [exact Hchecks|]. split; [reflexivity|]. split.
  - intros r Hr Hk. unfold rs in Hr.
    apply in_app6 in Hr. destruct Hr as [Hr|[Hr|[Hr|[Hr|[Hr|Hr]]]]].
    + apply in_flat_map in Hr. destruct Hr as (e & _ & Hr).
      apply record_count_check_kind in Hr. congruence.
    + destruct Hr as [<-|[]]. discriminate Hk.
    + destruct Hr as [<-|[]]. discriminate Hk.
    + apply in_flat_map in Hr. destruct Hr as (e & _ & Hr).
      apply freshness_check_status in Hr. destruct Hr as [Hr _]. congruence.
    + destruct Hr as [<-|[]]. reflexivity.
    + destruct Hr as [<-|[]]. reflexivity.
  - split.
    + intros (r & Hr & Hs). unfold rs in Hr.
      apply in_app6 in Hr. destruct Hr as [Hr|[Hr|[Hr|[Hr|[Hr|Hr]]]]].
      * apply in_flat_map in Hr. destruct Hr as ([t lay] & Hin & Hr).
        assert (Hnil : forall {A} (X : list A),
                  table_count session t = Ok (COUNT_star X) -> X = []).
        { intros A X Hn. apply COUNT_star_nil_iff.
          exact (proj1 (record_count_check_status session t lay _ r Hn Hr)
                       Hs). }
        simpl in Hin.
        destruct Hin as [E|[E|[E|[E|[E|[E|[E|[E|[E|[E|[]]]]]]]]]]];
          injection E as <- <-.
        -- left. exact (Hnil _ bp eq_refl).
        -- right. left. exact (Hnil _ bu eq_refl).
        -- do 2 right. left. exact (Hnil _ bd eq_refl).
        -- do 3 right. left. exact (Hnil _ sp eq_refl).
        -- do 4 right. left. exact (Hnil _ su eq_refl).
        -- do 5 right. left. exact (Hnil _ sd eq_refl).
        -- do 6 right. left. exact (Hnil _ daily eq_refl).
        -- do 7 right. left. exact (Hnil _ perf eq_refl).
        -- do 8 right. left. exact (Hnil _ engagement eq_refl).
        -- do 9 right. exact (Hnil _ monthly eq_refl).
      * destruct Hr as [<-|[]]. cbn [orphan_check status] in Hs.
        destruct (_ =? 0); discriminate Hs.
      * destruct Hr as [<-|[]]. cbn [orphan_check status] in Hs.
        destruct (_ =? 0); discriminate Hs.
      * apply in_flat_map in Hr. destruct Hr as (e & _ & Hr).
        apply freshness_check_status in Hr.
        destruct Hr as [_ [Hr|Hr]]; congruence.
      * destruct Hr as [<-|[]]. discriminate Hs.
      * destruct Hr as [<-|[]]. discriminate Hs.
    + intro Hempty.
      assert (Hex : exists r,
                In r (flat_map (record_count_check session) tables) /\
                status r = FAIL).
      { destruct Hempty as [E|[E|[E|[E|[E|[E|[E|[E|[E|E]]]]]]]]]; subst.
        - apply (empty_table_fails session "bronze_travel_purchases" "bronze");
            [simpl; auto 12|reflexivity].
        - apply (empty_table_fails session "bronze_user_features" "bronze");
            [simpl; auto 12|reflexivity].
        - apply (empty_table_fails session "bronze_destinations" "bronze");
            [simpl; auto 12|reflexivity].
        - apply (empty_table_fails session "silver_travel_purchases" "silver");
            [simpl; auto 12|reflexivity].
        - apply (empty_table_fails session "silver_users" "silver");
            [simpl; auto 12|reflexivity].
        - apply (empty_table_fails session "silver_destinations" "silver");
            [simpl; auto 12|reflexivity].
        - apply (empty_table_fails session "gold_daily_revenue_metrics" "gold");
            [simpl; auto 12|reflexivity].
        - apply (empty_table_fails session "gold_destination_performance"
                                   "gold");
            [simpl; auto 12|reflexivity].
        - apply (empty_table_fails session "gold_user_engagement" "gold");
            [simpl; auto 12|reflexivity].
        - apply (empty_table_fails session "gold_monthly_summary" "gold");
            [simpl; auto 12|reflexivity]. }
      destruct Hex as (r & Hr & Hs). exists r. split; [|exact Hs].
      unfold rs. do 5 (apply in_or_app; left). exact Hr.
Qed.

(** X17. From a schema that holds the three bronze tables, whatever
    their rows, the silver notebook runs to its end and writes the three
    silver tables.  When the gold notebook then runs to its end as well,
    there is at least one silver purchase, the audit over the tables left
    by the two notebooks runs to its end with 17 results, both
    business-rule checks PASS, and the audit ends in its final exception
    exactly when [silver_users] or [silver_destinations] is empty. *)
Theorem pipeline_audit
    (now_silver now_gold clock : string -> Calendar.timestamp)
    (l0 : Pipeline.lake) (bronze_purchases : list BronzePurchases.row)
    (bronze_users : list BronzeUsers.row)
    (bronze_dests : list BronzeDestinations.row)
    (Hbp : Pipeline.bronze_travel_purchases l0 = Some bronze_purchases)
    (Hbu : Pipeline.bronze_user_features l0 = Some bronze_users)
    (Hbd : Pipeline.bronze_destinations l0 = Some bronze_dests) :
  let purchases :=
    Silver.silver_travel_purchases (now_silver "silver_travel_purchases"%string)
                                   bronze_purchases in
  let users := Silver.silver_users (now_silver "silver_users"%string)
                                   bronze_users in
  let destinations :=
    Silver.silver_destinations (now_silver "silver_destinations"%string)
                               bronze_dests in
  exists l1,
    Pipeline.silver_notebook now_silver l0 = (l1, Ok tt) /\
    Pipeline.silver_travel_purchases l1 = Some purchases /\
    Pipeline.silver_users l1 = Some users /\
    Pipeline.silver_destinations l1 = Some destinations /\
    forall l2,
      Pipeline.gold_notebook now_gold l1 = (l2, Ok tt) ->
      purchases <> [] /\
      exists rs,
        run_checks (Pipeline.session l2 clock) = Ok rs /\
        length rs = 17%nat /\
        (forall r, In r rs -> check r = "business_rule"%string ->
                   status r = PASS) /\
        (overall_fail (notebook (Pipeline.session l2 clock)) <->
           users = [] \/ destinations = []).
Proof.
  intros purchases users destinations.
  set (l1 := Pipeline.replace_silver_destinations destinations
               (Pipeline.replace_silver_users users
                  (Pipeline.replace_silver_travel_purchases purchases l0))).
  exists l1. split;
    [exact (silver_notebook_completes now_silver l0 _ _ _ Hbp Hbu Hbd)|].
  split; [reflexivity|]. split; [reflexivity|]. split; [reflexivity|].
  intros l2 Hgold.
  destruct (daily_table_length (now_gold "gold_daily_revenue_metrics"%string)
                               purchases) as (daily & Hdaily & Ld).
  destruct (destination_table_length
              (now_gold "gold_destination_performance"%string) destinations
              purchases) as (perf & Hperf & Lp).
  destruct (user_table_length (now_gold "gold_user_engagement"%string) users
                              purchases) as (engagement & Heng & Lu).
  destruct (monthly_table_length (now_gold "gold_monthly_summary"%string)
                                 purchases) as (monthly & Hmonthly & Lm).
  pose proof (distinct_length_nil_iff _ _ _ _ Ld) as Ed.
  pose proof (distinct_length_nil_iff _ _ _ _ Lp) as Ep.
  pose proof (distinct_length_nil_iff _ _ _ _ Lu) as Eu.
  pose proof (distinct_length_nil_iff _ _ _ _ Lm) as Em.
  clear Ld Lp Lu Lm.
  rewrite (gold_notebook_run now_gold l1 purchases users destinations daily
             perf engagement monthly eq_refl eq_refl eq_refl
             Hdaily Hperf Heng Hmonthly) in Hgold.
  pose proof (daily_revenue_sum_null_iff _ _ _ Hdaily) as Hnull.
  destruct (SUM_Q (map GoldDaily.total_revenue_usd daily)) as [q|];
    [|discriminate Hgold].
  assert (Hne : purchases <> []).
  { intro E. assert (N : Some q = None); [|discriminate N].
    apply Hnull. rewrite E. intros t []. }
  split; [exact Hne|].
  injection Hgold as <-.
  assert (Hneg : Queries.neg_prices purchases = 0).
  { unfold Queries.neg_prices. rewrite filter_nil_of_false; [reflexivity|].
    intros c Hc. exact (silver_price_not_negative _ bronze_purchases c Hc). }
  assert (Hconv : Queries.invalid_conv daily = 0).
  { unfold Queries.invalid_conv. rewrite filter_nil_of_false; [reflexivity|].
    intros r Hr. apply conversion_in_range_valid. intros q0 Hq.
    exact (daily_table_conversion_range _ purchases daily Hdaily r q0 Hr Hq). }
  destruct (audit_of_written_tables clock bronze_purchases bronze_users
              bronze_dests purchases users destinations daily perf engagement
              monthly
              (Pipeline.replace_gold_monthly_summary monthly
                 (Pipeline.replace_gold_user_engagement engagement
                    (Pipeline.replace_gold_destination_performance perf
                       (Pipeline.replace_gold_daily_revenue_metrics daily
                          l1))))
              Hbp Hbu Hbd eq_refl eq_refl eq_refl eq_refl eq_refl
              eq_refl eq_refl Hneg Hconv)
    as (rs & Hrs & Hlen & Hrule & Hfail).
  exists rs. split; [exact Hrs|]. split; [exact Hlen|]. split; [exact Hrule|].
  unfold notebook. rewrite Hrs.
  rewrite (proj1 (proj2 (summary_outcome rs))), Hfail.
  assert (Hbu0 : bronze_users = [] -> users = [])
    by (intros ->; reflexivity).
  assert (Hbd0 : bronze_dests = [] -> destinations = [])
    by (intros ->; reflexivity).
  assert (Hbp0 : bronze_purchases = [] -> purchases = [])
    by (intros ->; reflexivity).
  rewrite Ed, Ep, Eu, Em. tauto.
Qed.

Lemma pipeline_audit_witness :
  let now (_ : string) := Sample.t0 + 120 in
  let clock (_ : string) := Sample.t0 + 3600 in
  let l0 := Sample.bronze_only [Sample.booking Sample.t0 11 (2500 # 1)%Q]
                               [] [] in
  exists l1 l2 rs,
    Pipeline.silver_notebook now l0 = (l1, Ok tt) /\
    Pipeline.gold_notebook now l1 = (l2, Ok tt) /\
    run_checks (Pipeline.session l2 clock) = Ok rs /\
    length rs = 17%nat /\
    overall_fail (notebook (Pipeline.session l2 clock)).
Proof.
  intros now clock l0.
  destruct (pipeline_audit now now clock l0 _ _ _ eq_refl eq_refl eq_refl)
    as (l1 & Hsilver & _ & _ & _ & Haudit).
  pose proof Hsilver as Hv. vm_compute in Hv.
  injection Hv as Hl1. subst l1.
  eexists. eexists.
  match type of Haudit with
  | forall l2, ?g = _ -> _ =>
      destruct (Haudit (fst g)) as (_ & rs & Hrs & Hlen & _ & Hfail);
        [vm_compute; reflexivity|]
  end.
  exists rs. split; [exact Hsilver|]. split; [vm_compute; reflexivity|].
  split; [exact Hrs|]. split; [exact Hlen|].
  apply Hfail. left. reflexivity.
Defined.

(** ** The counts and the price range of a day *)

Lemma silver_purchase_ids (now : Calendar.timestamp)
    (bronze : list BronzePurchases.row) (c : SilverPurchases.row) :
  In c (Silver.silver_travel_purchases now bronze) ->
  SilverPurchases.transaction_id c <> None /\
  SilverPurchases.user_id c <> None /\
  SilverPurchases.destination_id c <> None.
Proof.
  unfold Silver.silver_travel_purchases, Silver.cleaned_data. intro Hc.
  apply in_map_iff in Hc. destruct Hc as (b & <- & Hb).
  apply filter_In in Hb. destruct Hb as [_ Hb].
  rewrite purchase_has_ids_present in Hb.
  apply andb_prop in Hb. destruct Hb as [Hb Hd].
  apply andb_prop in Hb. destruct Hb as [Hi Hu].
  cbn [Silver.clean_purchase SilverPurchases.transaction_id
       SilverPurchases.user_id SilverPurchases.destination_id].
  repeat split; apply present_true; assumption.
Qed.

Lemma In_non_null {A} (v : A) (xs : list (option A)) :
  In v (non_null xs) <-> In (Some v) xs.
Proof.
  induction xs as [|[w|] xs IH]; simpl.
  - tauto.
  - rewrite IH. split; intros [H|H]; auto; left; congruence.
  - rewrite IH. split; [auto|]. intros [H|H]; [discriminate H|exact H].
Qed.

Lemma non_null_length_le {A} (xs : list (option A)) :
  (length (non_null xs) <= length xs)%nat.
Proof. induction xs as [|[v|] xs IH]; simpl; lia. Qed.

Lemma nodup_length_le (l : list Z) :
  (length (nodup Z.eq_dec l) <= length l)%nat.
Proof.
  induction l as [|a l IH]; simpl; [lia|].
  destruct (in_dec Z.eq_dec a l); simpl; lia.
Qed.

Lemma COUNT_DISTINCT_bounds (xs : list (option Z)) :
  0 <= COUNT_DISTINCT xs <= Z.of_nat (length xs) /\
  ((exists v, In (Some v) xs) -> 1 <= COUNT_DISTINCT xs).
Proof.
  assert (B : 0 <= COUNT_DISTINCT xs <= Z.of_nat (length xs)).
  { unfold COUNT_DISTINCT.
    pose proof (nodup_length_le (non_null xs)).
    pose proof (non_null_length_le xs). lia. }
  split; [exact B|]. intros (v & Hv).
  destruct (Z.eq_dec (COUNT_DISTINCT xs) 0) as [E|N]; [|lia].
  rewrite COUNT_DISTINCT_zero_iff in E. discriminate (E _ Hv).
Qed.

Lemma fold_least_spec (vs : list Q) (v : Q) :
  In (fold_left least vs v) (v :: vs) /\
  forall x, In x (v :: vs) -> (fold_left least vs v <= x)%Q.
Proof.
  revert v. induction vs as [|w vs IH]; intro v; cbn [fold_left].
  - split; [left; reflexivity|]. intros x [<-|[]]. apply Qle_refl.
  - destruct (IH (least v w)) as [Hin Hle]. split.
    + destruct Hin as [E|Hin]; [|right; right; exact Hin].
      rewrite <- E. unfold least. destruct (leb v w); simpl; auto.
    + assert (Hv : (least v w <= v)%Q /\ (least v w <= w)%Q).
      { unfold least. case_leb v w.
        - split; [apply Qle_refl|exact E].
        - split; [apply Qlt_le_weak; exact E|apply Qle_refl]. }
      pose proof (Hle (least v w) (or_introl eq_refl)) as H0.
      intros x [<-|[<-|Hx]].
      * eapply Qle_trans; [exact H0|apply Hv].
      * eapply Qle_trans; [exact H0|apply Hv].
      * apply Hle. right. exact Hx.
Qed.

Lemma fold_greatest_spec (vs : list Q) (v : Q) :
  In (fold_left greatest vs v) (v :: vs) /\
  forall x, In x (v :: vs) -> (x <= fold_left greatest vs v)%Q.
Proof.
  revert v. induction vs as [|w vs IH]; intro v; cbn [fold_left].
  - split; [left; reflexivity|]. intros x [<-|[]]. apply Qle_refl.
  - destruct (IH (greatest v w)) as [Hin Hle]. split.
    + destruct Hin as [E|Hin]; [|right; right; exact Hin].
      rewrite <- E. unfold greatest. destruct (leb v w); simpl; auto.
    + assert (Hv : (v <= greatest v w)%Q /\ (w <= greatest v w)%Q).
      { unfold greatest. case_leb v w.
        - split; [exact E|apply Qle_refl].
        - split; [apply Qle_refl|apply Qlt_le_weak; exact E]. }
      pose proof (Hle (greatest v w) (or_introl eq_refl)) as H0.
      intros x [<-|[<-|Hx]].
      * eapply Qle_trans; [apply Hv|exact H0].
      * eapply Qle_trans; [apply Hv|exact H0].
      * apply Hle. right. exact Hx.
Qed.

(** [MIN] and [MAX] of a column of rationals: both NULL when the column has
    no value, else the least and the greatest of its values. *)
Lemma MIN_MAX_spec (xs : list (option Q)) :
  (MIN xs = None /\ MAX xs = None /\ forall x, In x xs -> x = None) \/
  (exists lo hi, MIN xs = Some lo /\ MAX xs = Some hi /\
     In (Some lo) xs /\ In (Some hi) xs /\
     forall x, In (Some x) xs -> (lo <= x)%Q /\ (x <= hi)%Q).
Proof.
  unfold MIN, MAX. destruct (non_null xs) as [|v vs] eqn:E.
  - left. repeat split. apply non_null_nil_iff. exact E.
  - right. destruct (fold_least_spec vs v) as [Lin Lle].
    destruct (fold_greatest_spec vs v) as [Gin Gle].
    exists (fold_left least vs v), (fold_left greatest vs v).
    rewrite <- E in Lin, Lle, Gin, Gle.
    repeat split; try (apply In_non_null; assumption).
    + apply Lle. apply In_non_null. assumption.
    + apply Gle. apply In_non_null. assumption.
Qed.

Lemma SUM_Z_flags_nonempty {A} (flag : A -> option bool) (l : list A) :
  l <> [] ->
  SUM_Z (map (fun t => Gold.one_if (flag t)) l)
  = Some (Z.of_nat (length (filter (fun t => holds (flag t)) l))).
Proof. intro H. rewrite SUM_Z_flags. destruct l; [congruence|reflexivity]. Qed.

(** X18. In the daily table built from the silver purchases of any bronze
    table, every row counts at least one transaction; its clicks and its
    purchases lie between 0 and that count, its distinct users and
    destinations between 1 and that count; [min_transaction_usd] and
    [max_transaction_usd] are both NULL (no purchased row with a valid
    price) or both set, with 0 <= min <= max <= 50000. *)
Theorem daily_counts_bounds (t_silver t_gold : Calendar.timestamp)
    (bronze : list BronzePurchases.row) (daily : list GoldDaily.row)
    (r : GoldDaily.row)
    (Hdaily : Gold.gold_daily_revenue_metrics t_gold
                (Silver.silver_travel_purchases t_silver bronze) = Ok daily)
    (Hr : In r daily) :
  (exists n c p u d,
     GoldDaily.total_transactions r = Some n /\
     GoldDaily.total_clicks r = Some c /\
     GoldDaily.total_purchases r = Some p /\
     GoldDaily.unique_users r = Some u /\
     GoldDaily.unique_destinations r = Some d /\
     1 <= n /\ 0 <= c <= n /\ 0 <= p <= n /\ 1 <= u <= n /\ 1 <= d <= n) /\
  ((GoldDaily.min_transaction_usd r = None /\
    GoldDaily.max_transaction_usd r = None) \/
   (exists lo hi,
      GoldDaily.min_transaction_usd r = Some lo /\
      GoldDaily.max_transaction_usd r = Some hi /\
      (inject_Z 0 <= lo)%Q /\ (lo <= hi)%Q /\ (hi <= inject_Z 50000)%Q)).
Proof.
  set (purchases := Silver.silver_travel_purchases t_silver bronze) in *.
  unfold Gold.gold_daily_revenue_metrics in Hdaily.
  destruct (mapM _ _) as [rows|e] eqn:Hrows; simpl in Hdaily;
    [|discriminate Hdaily].
  apply Ok_inj in Hdaily. subst daily. apply order_by_In in Hr.
  destruct (Forall2_In_right _ _ _ (mapM_Forall2 _ _ _ Hrows) r Hr)
    as ([k g] & Hin & Hkg).
  cbn [fst snd] in Hkg.
  pose proof (group_by_nonempty _ _ _ _ same_daily_key_equivalence Hin) as Hne.
  pose proof (group_by_rows _ _ _ _ Hin) as Hg. cbn [fst snd] in Hne, Hg.
  assert (Hsub : forall t, In t g -> In t purchases).
  { intros t Ht. rewrite Hg in Ht. apply filter_In in Ht. tauto. }
  clear Hin Hg Hrows Hr.
  destruct k as [[[dk yk] mk] dtk]. unfold Gold.daily_row in Hkg.
  destruct (Gold.daily_conversion_rate_pct g) as [conv|e]; cbn [bind] in Hkg;
    [|discriminate Hkg].
  destruct (Gold.daily_click_to_purchase_rate_pct g) as [ctp|e];
    cbn [bind] in Hkg; [|discriminate Hkg].
  apply Ok_inj in Hkg. subst r.
  cbn [GoldDaily.total_transactions GoldDaily.total_clicks
       GoldDaily.total_purchases GoldDaily.unique_users
       GoldDaily.unique_destinations GoldDaily.min_transaction_usd
       GoldDaily.max_transaction_usd].
  assert (Hlen : 1 <= COUNT_star g).
  { unfold COUNT_star. destruct g; [congruence|]. simpl length. lia. }
  assert (Hex : exists t0, In t0 g).
  { destruct g as [|t0 g0]; [congruence|]. exists t0. left. reflexivity. }
  destruct Hex as (t0 & Ht0).
  split.
  - unfold Gold.daily_total_clicks, Gold.daily_total_purchases.
    rewrite !(SUM_Z_flags_nonempty _ _ Hne).
    do 5 eexists. repeat (split; [reflexivity|]).
    pose proof (filter_length_le'
                  (fun t => holds (SilverPurchases.clicked t)) g).
    pose proof (filter_length_le'
                  (fun t => holds (SilverPurchases.purchased t)) g).
    destruct (COUNT_DISTINCT_bounds (map SilverPurchases.user_id g))
      as [Bu Pu].
    destruct (COUNT_DISTINCT_bounds (map SilverPurchases.destination_id g))
      as [Bd Pd].
    rewrite length_map in Bu, Bd.
    destruct (silver_purchase_ids t_silver bronze t0 (Hsub t0 Ht0))
      as (_ & Hu & Hd).
    assert (1 <= COUNT_DISTINCT (map SilverPurchases.user_id g)).
    { apply Pu. destruct (SilverPurchases.user_id t0) as [v|] eqn:E;
        [|congruence].
      exists v. rewrite <- E. apply in_map. exact Ht0. }
    assert (1 <= COUNT_DISTINCT (map SilverPurchases.destination_id g)).
    { apply Pd. destruct (SilverPurchases.destination_id t0) as [v|] eqn:E;
        [|congruence].
      exists v. rewrite <- E. apply in_map. exact Ht0. }
    unfold COUNT_star in *. lia.
  - set (bought := map (fun t => Gold.only_if (SilverPurchases.purchased t)
                                              (SilverPurchases.price_usd t))
                       g).
    assert (Hprice : forall q, In (Some q) bought ->
              (inject_Z 0 <= q)%Q /\ (q <= inject_Z 50000)%Q).
    { intros q Hq. apply in_map_iff in Hq. destruct Hq as (t & Ht & Hin).
      apply (price_usd_in_range t_silver bronze t q (Hsub t Hin)).
      unfold Gold.only_if, CASE in Ht.
      destruct (holds (SilverPurchases.purchased t)); [exact Ht|discriminate]. }
    destruct (MIN_MAX_spec bought)
      as [(Hmin & Hmax & _)|(lo & hi & Hmin & Hmax & Hlo & Hhi & Hall)].
    + left. split; assumption.
    + right. exists lo, hi. repeat split; try assumption.
      * apply (Hprice lo Hlo).
      * apply (Hall hi Hhi).
      * apply (Hprice hi Hhi).
Qed.

Lemma daily_counts_bounds_witness :
  exists daily r,
    Gold.gold_daily_revenue_metrics 0
      (Silver.silver_travel_purchases 0
         [Sample.booking Sample.t0 11 (2500 # 1)%Q;
          Sample.booking Sample.t0 12 (40 # 1)%Q]) = Ok daily /\
    In r daily /\
    GoldDaily.total_transactions r = Some 2 /\
    exists lo hi,
      GoldDaily.min_transaction_usd r = Some lo /\
      GoldDaily.max_transaction_usd r = Some hi /\ (lo <= hi)%Q.
Proof.
  destruct (daily_table_length 0
              (Silver.silver_travel_purchases 0
                 [Sample.booking Sample.t0 11 (2500 # 1)%Q;
                  Sample.booking Sample.t0 12 (40 # 1)%Q]))
    as (daily & Hd & _).
  pose proof Hd as Hv. vm_compute in Hv. apply Ok_inj in Hv.
  exists daily. subst daily. eexists. split; [exact Hd|].
  split; [left; reflexivity|]. split; [reflexivity|].
  destruct (daily_counts_bounds 0 0
              [Sample.booking Sample.t0 11 (2500 # 1)%Q;
               Sample.booking Sample.t0 12 (40 # 1)%Q]
              _ _ Hd (or_introl eq_refl))
    as (_ & [(Hmin & _)|(lo & hi & Hmin & Hmax & _ & Hle & _)]).
  - vm_compute in Hmin. discriminate Hmin.
  - exists lo, hi. repeat split; assumption.
Defined.

(** ** The conversion-rate examples *)




